(** * The RepRap G-code protocol engine of [octoprint.comm.protocol.reprap]

    A shallow embedding of [ReprapGcodeProtocol]
    (src/octoprint/comm/protocol/reprap/__init__.py): the object's mutable
    attributes become one record [World], every method becomes a function in
    a small state-and-exception monad over that record, and Python's dynamic
    dispatch on handler names ([getattr(self, "_gcode_" + code + "_" + phase)])
    becomes a lookup in an association list keyed by the same strings.

    Conventions.
    - Python [int] is [Z]; Python [str] (byte strings, this is Python 2 code)
      is [string]; Python [float] is [Q] (no statement below depends on
      rounding); [None] is [PyNone] or an [option].
    - The two threads of the engine are interleaved at the granularity of
      one handler call or one pass through the body of [_send_loop]; the
      blocking calls [_clear_to_send.wait()] and [_send_queue.get()] delimit
      those passes and are not part of them.  The handler of a line reset
      is in addition split where it takes and releases [_line_mutex].
    - [logger.debug] calls and [Queue.task_done] bookkeeping are left out;
      [logger.info], [logger.error] and [logger.exception] calls are kept in
      [logged], listener notifications and callbacks in [events].
    - Plugin hooks, those for G-code and those for at-commands, are pure
      functions of the phase and the command they are given.
    - Timers are started and cancelled, which [World] records; what their
      threads do is not followed. *)

From Stdlib Require Import ZArith List String Ascii Bool Lia QArith.
From Stdlib Require Import DecimalString DecimalZ.
Import ListNotations.

Local Open Scope string_scope.
Local Open Scope Z_scope.

Set Implicit Arguments.

(** ** Python values and builtins *)

Inductive PyVal : Type :=
| PyNone
| PyInt (z : Z)
| PyStr (s : string).

(** [a == b] *)
Definition pyval_eqb (a b : PyVal) : bool :=
  match a, b with
  | PyNone, PyNone => true
  | PyInt x, PyInt y => x =? y
  | PyStr x, PyStr y => (x =? y)%string
  | _, _ => false
  end.

Definition is_none (v : PyVal) : bool :=
  match v with PyNone => true | _ => false end.

(** Truth value of an object in a condition ([if x:]). *)
Definition truthy (v : PyVal) : bool :=
  match v with
  | PyNone => false
  | PyInt z => negb (z =? 0)
  | PyStr s => negb (s =? "")%string
  end.

(** [str(n)] for an integer. *)
Definition str_of_int (n : Z) : string := NilZero.string_of_int (Z.to_int n).

(** ["{}".format(v)] *)
Definition py_format (v : PyVal) : string :=
  match v with
  | PyNone => "None"
  | PyInt z => str_of_int z
  | PyStr s => s
  end.

(** White space for [strip()] on a unicode string, among the code points
    below 256. *)
Definition is_space (c : ascii) : bool :=
  let n := nat_of_ascii c in
  (((9 <=? n) && (n <=? 13)) || ((28 <=? n) && (n <=? 32))
   || (n =? 133) || (n =? 160))%nat.

Fixpoint lstrip (s : string) : string :=
  match s with
  | String c s' => if is_space c then lstrip s' else s
  | EmptyString => EmptyString
  end.

Definition string_rev (s : string) : string :=
  string_of_list_ascii (rev (list_ascii_of_string s)).

(** [s.strip()] *)
Definition py_strip (s : string) : string :=
  string_rev (lstrip (string_rev (lstrip s))).

(** [s.encode("ascii", errors="replace")]: code points outside ASCII become
    a question mark. *)
Definition encode_ascii_replace (s : string) : string :=
  string_of_list_ascii
    (map (fun c => if (128 <=? nat_of_ascii c)%nat then "?"%char else c)
         (list_ascii_of_string s)).

Definition mem_string (x : string) (l : list string) : bool :=
  existsb (String.eqb x) l.

Definition is_nil {A : Type} (l : list A) : bool :=
  match l with [] => true | _ => false end.

Fixpoint assoc {A : Type} (k : string) (l : list (string * A)) : option A :=
  match l with
  | [] => None
  | (k', v) :: l' => if (k =? k')%string then Some v else assoc k l'
  end.

Fixpoint assoc_set {A : Type} (k : string) (v : A) (l : list (string * A))
  : list (string * A) :=
  match l with
  | [] => [(k, v)]
  | (k', v') :: l' =>
      if (k =? k')%string then (k, v) :: l' else (k', v') :: assoc_set k v l'
  end.

Inductive PyExc : Type :=
| TypeError | ValueError | KeyError | AttributeError | AssertionError.

(** ** Commands (octoprint.comm.protocol.reprap.commands) *)

(** Modelled from the spec: the command classes live in the [commands]
    package, which is not part of the sources at hand.  Section 3 gives the
    variants [Generic{line}], [Gcode{code, subcode?, params, raw}] and
    [AtCommand{name, parameters, raw}], each with an optional [type] and a
    set of tags.  Attribute access on a G-code ([command.n], [command.t],
    [command.tool], ...) is a lookup in [attrs]; a missing attribute reads
    as [None]. *)
Inductive CommandKind : Type :=
| Generic
| GcodeCommand (code : string) (subcode : PyVal) (attrs : list (string * PyVal))
| AtCommand (atcommand : string) (parameters : string).

Record Command : Type := mkCommand {
  kind : CommandKind;
  line : string;
  type : option string;
  tags : option (list string)
}.

(** [Command(line)] *)
Definition Command_of_line (l : string) : Command :=
  mkCommand Generic l None None.

Definition is_gcode (c : Command) : bool :=
  match kind c with GcodeCommand _ _ _ => true | _ => false end.

Definition is_atcommand (c : Command) : bool :=
  match kind c with AtCommand _ _ => true | _ => false end.

(** [command.code] of a G-code. *)
Definition code_of (c : Command) : option string :=
  match kind c with GcodeCommand code _ _ => Some code | _ => None end.

Definition attr (c : Command) (name : string) : PyVal :=
  match kind c with
  | GcodeCommand _ _ attrs =>
      match assoc name attrs with Some v => v | None => PyNone end
  | _ => PyNone
  end.

Definition add_tags (extra : option (list string)) (c : Command) : Command :=
  match extra with
  | None => c
  | Some x =>
      mkCommand (kind c) (line c) (type c)
                (Some (match tags c with Some t => (t ++ x)%list | None => x end))
  end.

(** What a hook or a built-in handler hands back. *)
Inductive HandlerResult : Type :=
| HNone                                  (* nothing returned *)
| HEntries (l : list (option Command)).  (* commands; [(None,)] is [HEntries [None]] *)

Fixpoint somes {A : Type} (l : list (option A)) : list A :=
  match l with
  | [] => []
  | Some a :: l' => a :: somes l'
  | None :: l' => somes l'
  end.

(** Modelled from the spec: [normalize_command_handler_result] lives in the
    [util] module, which is not part of the sources at hand.  Section 4.G: a
    handler may return a replacement, a sequence of replacements, none to
    drop, or pass through; the handlers in the source spell dropping
    [return None,] and passing through as returning nothing. *)
Definition normalize_command_handler_result
  (command : Command) (r : HandlerResult) (tags_to_add : option (list string))
  : list Command :=
  match r with
  | HNone => [command]
  | HEntries l => map (add_tags tags_to_add) (somes l)
  end.

(** A plugin hook: [None] when the hook raises. *)
Definition Hook : Type := string -> Command -> option HandlerResult.

(** A plugin hook for at-commands: what it returns is not used, so all that
    is kept of it is whether it returns ([true]) or raises ([false]). *)
Definition AtcommandHook : Type := string -> Command -> bool.

(** ** Flavor (octoprint.comm.protocol.reprap.flavors) *)

(** The policy flags and the command emitters this class reads from
    [self.flavor]. *)
Record Flavor : Type := mkFlavor {
  checksum_requiring_commands : list string;
  long_running_commands : list string;
  always_send_checksum : bool;
  never_send_checksum : bool;
  unknown_with_checksum : bool;
  unknown_requires_ack : bool;
  command_hello : option Command;
  command_set_line : Z -> Command;
  command_emergency_stop : Command;
  command_sd_pause : Command;
  command_autoreport_temperature : Z -> Command;
  command_autoreport_sd_status : Z -> Command
}.

(** ** Protocol states (octoprint.comm.protocol.ProtocolState) *)

Inductive ProtocolState : Type :=
| DISCONNECTED | DISCONNECTED_WITH_ERROR | CONNECTING | CONNECTED
| PROCESSING | PAUSING | PAUSED | RESUMING | CANCELLING | FINISHING.

Definition state_eqb (a b : ProtocolState) : bool :=
  match a, b with
  | DISCONNECTED, DISCONNECTED
  | DISCONNECTED_WITH_ERROR, DISCONNECTED_WITH_ERROR
  | CONNECTING, CONNECTING
  | CONNECTED, CONNECTED
  | PROCESSING, PROCESSING
  | PAUSING, PAUSING
  | PAUSED, PAUSED
  | RESUMING, RESUMING
  | CANCELLING, CANCELLING
  | FINISHING, FINISHING => true
  | _, _ => false
  end.

Definition state_in (s : ProtocolState) (l : list ProtocolState) : bool :=
  existsb (state_eqb s) l.

(** ** Jobs (octoprint.job) *)

Inductive JobKind : Type :=
| LocalGcodeFilePrintjob | SDFilePrintjob | LocalGcodeStreamjob.

Record JobLine : Type := mkJobLine {
  jl_line : string;
  jl_pos : Z;
  jl_read_lines : Z;
  jl_actual_lines : Z
}.

(** Modelled from the spec: the job classes are external.  Section 6 gives
    the contract: [get_next()] yields the next line or none at the end,
    [pos], [read_lines] and [actual_lines] are position accessors, [active]
    and [runs_parallel] are booleans.  A job is the list of the lines it has
    yet to yield, each with the positions the accessors show once it has
    been read. *)
Record Job : Type := mkJob {
  job_kind : JobKind;
  job_active : bool;
  runs_parallel : bool;
  job_pos : Z;
  job_read_lines : Z;
  job_actual_lines : Z;
  job_upcoming : list JobLine
}.

Definition get_next (j : Job) : option string * Job :=
  match job_upcoming j with
  | [] => (None, j)
  | l :: rest =>
      (Some (jl_line l),
       mkJob (job_kind j) (job_active j) (runs_parallel j)
             (jl_pos l) (jl_read_lines l) (jl_actual_lines l) rest)
  end.

(** ** Queues, history and credit (octoprint.util, reprap.util) *)

Definition Callback : Type := string.

(** What [send_commands] puts on the command queue: Python tuples, whose
    length [_send_from_queue] inspects, or bare commands. *)
Inductive TupleElem : Type :=
| ECommand (c : Command)
| ECallback (cb : option Callback).

Inductive QueueEntry : Type :=
| QTuple (elems : list TupleElem)
| QCommand (c : Command).

(** Modelled from the spec: [TypedQueue] is external.  Section 4.D: a FIFO
    with type dedup; an enqueue whose type is already queued fails. *)
Definition TypedQueue : Type := list (QueueEntry * option string).

Definition type_queued {A : Type} (t : string) (q : list (A * option string)) : bool :=
  existsb (fun e => match snd e with Some t' => (t =? t')%string | None => false end) q.

(** [put(item, item_type=t)]: [None] stands for [TypeAlreadyInQueue]. *)
Definition typed_put {A : Type} (item : A) (t : option string)
  (q : list (A * option string)) : option (list (A * option string)) :=
  match t with
  | Some ty => if type_queued ty q then None else Some (q ++ [(item, t)])%list
  | None => Some (q ++ [(item, t)])%list
  end.

(** [get(block=False)]: [None] stands for [queue.Empty]. *)
Definition typed_get {A : Type} (q : list (A * option string))
  : option (A * list (A * option string)) :=
  match q with
  | [] => None
  | (item, _) :: q' => Some (item, q')
  end.

(** An entry of the send queue: [(command, linenumber, on_sent, processed)]. *)
Record SendEntry : Type := mkSendEntry {
  se_command : Command;
  se_linenumber : option Z;
  se_on_sent : option Callback;
  se_processed : bool
}.

(** Modelled from the spec: [SendQueue] is external.  Section 4.C: two
    tracks, dedup by type within a track, resend entries first, and a
    [resend_active] flag that holds back ordinary sends. *)
Record SendQueue : Type := mkSendQueue {
  sq_send : list (SendEntry * option string);
  sq_resend : list (SendEntry * option string);
  resend_active : bool
}.

Inductive Target : Type := TSend | TResend.

Definition send_queue_put (e : SendEntry) (t : option string) (target : Target)
  (q : SendQueue) : option SendQueue :=
  match target with
  | TSend =>
      match typed_put e t (sq_send q) with
      | Some s => Some (mkSendQueue s (sq_resend q) (resend_active q))
      | None => None
      end
  | TResend =>
      match typed_put e t (sq_resend q) with
      | Some r => Some (mkSendQueue (sq_send q) r (resend_active q))
      | None => None
      end
  end.

(** [get()] when it does not block. *)
Definition send_queue_get (q : SendQueue) : option (SendEntry * SendQueue) :=
  match sq_resend q with
  | (e, _) :: r => Some (e, mkSendQueue (sq_send q) r (resend_active q))
  | [] =>
      if resend_active q then None
      else match sq_send q with
           | (e, _) :: s => Some (e, mkSendQueue s (sq_resend q) (resend_active q))
           | [] => None
           end
  end.

Definition set_resend_active (b : bool) (q : SendQueue) : SendQueue :=
  mkSendQueue (sq_send q) (sq_resend q) b.

(** Modelled from the spec: [LineHistory] is external.  Sections 3 and 4.B:
    the last 50 sent lines by line number; the oldest goes when full. *)
Definition LineHistory : Type := list (option Z * string).

Definition history_maxlen : nat := 50.

Definition history_append (l : string) (n : option Z) (h : LineHistory) : LineHistory :=
  let h' := (h ++ [(n, l)])%list in
  if (history_maxlen <? List.length h')%nat then tl h' else h'.

Definition opt_Z_eqb (a b : option Z) : bool :=
  match a, b with
  | Some x, Some y => x =? y
  | None, None => true
  | _, _ => false
  end.

(** [n in history] *)
Definition history_contains (n : option Z) (h : LineHistory) : bool :=
  existsb (fun e => opt_Z_eqb n (fst e)) h.

(** [history[n]]: [None] stands for [KeyError]. *)
Definition history_get (n : option Z) (h : LineHistory) : option string :=
  match find (fun e => opt_Z_eqb n (fst e)) h with
  | Some e => Some (snd e)
  | None => None
  end.

(** Modelled from the spec: [CountedEvent] is external.  Section 4.E: a
    counter in [0, max]; [set] increments and saturates, [clear] decrements
    down to 0, [blocked] holds at 0. *)
Definition counted_max : Z := 10.
Definition counted_set (c : Z) : Z := Z.min (c + 1) counted_max.
Definition counted_clear (c : Z) : Z := Z.max (c - 1) 0.
Definition counted_blocked (c : Z) : bool := c =? 0.

(** ** Transport (octoprint.comm.transport) *)

Record Transport : Type := mkTransport {
  t_active : bool;
  message_integrity : bool;
  written : list string
}.

(** ** Log and listener trace *)

Inductive LogEntry : Type :=
| LogInfo (msg : string)
| LogError (msg : string)
| LogException (msg : string).

Inductive Event : Type :=
| Notify (name : string) (arg : string)   (* notify_listeners(name, self, ...) *)
| OnSent (cb : Callback)                  (* on_sent() *)
| PauseProcessing (tags : list string)    (* self.pause_processing(tags=...) *)
| CancelProcessing (error : bool) (tags : list string)
| ResumeProcessing (tags : list string).
(** ** The object

    [InternalState] is the dictionary [self._internal_state]; the SD-card and
    firmware-identification entries, which only the [message_*] handlers
    touch, are left out.  [heatup_start] is the key the [M109], [M190] and
    [M116] handlers write; [_finish_heatup] reads [heating_start]. *)


Record InternalState : Type := mkInternalState {
  temperatures : list (string * (option Q * option Q));
  heating_start : option Q;
  heatup_start : option Q;
  heating_lost : Q;
  heating : bool;
  temperature_autoreporting : bool;
  current_tool : PyVal;
  former_tool : PyVal;
  current_z : PyVal;
  sd_status_autoreporting : bool;
  resend_requested : option Z;
  resend_linenumber : option Z;
  resend_count : option Z;
  long_running_command : bool;
  only_from_job : bool;
  trigger_events : bool;
  ignore_ok : Z;
  timeout : option Q;
  timeout_consecutive : Z;
  firmware_capabilities : list (string * bool)
}.
(** [World] is [self]: the attributes [__init__] sets up, the [state] and
    [_job] the [Protocol] base class owns, and three fields of the model's
    own: what was logged, what listeners and callbacks saw, and the value
    [monotonic_time()] returns.  [temperature_poller] tells whether
    [self._temperature_poller] holds a started timer. *)
Record World : Type := mkWorld {
  state : ProtocolState;
  job : option Job;
  flavor : Flavor;
  timeouts : list (string * Q);
  internal_state : InternalState;
  command_queue : TypedQueue;
  clear_to_send : Z;
  send_queue : SendQueue;
  current_linenumber : option Z;
  last_lines : LineHistory;
  last_communication_error : option string;
  gcode_hooks : list (string * list (string * Hook));
  atcommand_hooks : list (string * list (string * AtcommandHook));
  log_resends : bool;
  log_resends_rate_start : option Q;
  log_resends_rate_count : Z;
  send_queue_active : bool;
  temperature_poller : bool;
  transport : option Transport;
  logged : list LogEntry;
  events : list Event;
  clock : Q
}.
(** Field updates. *)

Definition set_temperatures (v : list (string * (option Q * option Q))) (i : InternalState) : InternalState :=
  mkInternalState v (heating_start i) (heatup_start i) (heating_lost i)
    (heating i) (temperature_autoreporting i) (current_tool i) (former_tool i)
    (current_z i) (sd_status_autoreporting i) (resend_requested i)
    (resend_linenumber i) (resend_count i) (long_running_command i)
    (only_from_job i) (trigger_events i) (ignore_ok i) (timeout i)
    (timeout_consecutive i) (firmware_capabilities i).
Definition set_heating_start (v : option Q) (i : InternalState) : InternalState :=
  mkInternalState (temperatures i) v (heatup_start i) (heating_lost i)
    (heating i) (temperature_autoreporting i) (current_tool i) (former_tool i)
    (current_z i) (sd_status_autoreporting i) (resend_requested i)
    (resend_linenumber i) (resend_count i) (long_running_command i)
    (only_from_job i) (trigger_events i) (ignore_ok i) (timeout i)
    (timeout_consecutive i) (firmware_capabilities i).
Definition set_heatup_start (v : option Q) (i : InternalState) : InternalState :=
  mkInternalState (temperatures i) (heating_start i) v (heating_lost i)
    (heating i) (temperature_autoreporting i) (current_tool i) (former_tool i)
    (current_z i) (sd_status_autoreporting i) (resend_requested i)
    (resend_linenumber i) (resend_count i) (long_running_command i)
    (only_from_job i) (trigger_events i) (ignore_ok i) (timeout i)
    (timeout_consecutive i) (firmware_capabilities i).
Definition set_heating_lost (v : Q) (i : InternalState) : InternalState :=
  mkInternalState (temperatures i) (heating_start i) (heatup_start i) v
    (heating i) (temperature_autoreporting i) (current_tool i) (former_tool i)
    (current_z i) (sd_status_autoreporting i) (resend_requested i)
    (resend_linenumber i) (resend_count i) (long_running_command i)
    (only_from_job i) (trigger_events i) (ignore_ok i) (timeout i)
    (timeout_consecutive i) (firmware_capabilities i).
Definition set_heating (v : bool) (i : InternalState) : InternalState :=
  mkInternalState (temperatures i) (heating_start i) (heatup_start i)
    (heating_lost i) v (temperature_autoreporting i) (current_tool i)
    (former_tool i) (current_z i) (sd_status_autoreporting i)
    (resend_requested i) (resend_linenumber i) (resend_count i)
    (long_running_command i) (only_from_job i) (trigger_events i) (ignore_ok
    i) (timeout i) (timeout_consecutive i) (firmware_capabilities i).
Definition set_temperature_autoreporting (v : bool) (i : InternalState) : InternalState :=
  mkInternalState (temperatures i) (heating_start i) (heatup_start i)
    (heating_lost i) (heating i) v (current_tool i) (former_tool i) (current_z
    i) (sd_status_autoreporting i) (resend_requested i) (resend_linenumber i)
    (resend_count i) (long_running_command i) (only_from_job i)
    (trigger_events i) (ignore_ok i) (timeout i) (timeout_consecutive i)
    (firmware_capabilities i).
Definition set_current_tool (v : PyVal) (i : InternalState) : InternalState :=
  mkInternalState (temperatures i) (heating_start i) (heatup_start i)
    (heating_lost i) (heating i) (temperature_autoreporting i) v (former_tool
    i) (current_z i) (sd_status_autoreporting i) (resend_requested i)
    (resend_linenumber i) (resend_count i) (long_running_command i)
    (only_from_job i) (trigger_events i) (ignore_ok i) (timeout i)
    (timeout_consecutive i) (firmware_capabilities i).
Definition set_former_tool (v : PyVal) (i : InternalState) : InternalState :=
  mkInternalState (temperatures i) (heating_start i) (heatup_start i)
    (heating_lost i) (heating i) (temperature_autoreporting i) (current_tool
    i) v (current_z i) (sd_status_autoreporting i) (resend_requested i)
    (resend_linenumber i) (resend_count i) (long_running_command i)
    (only_from_job i) (trigger_events i) (ignore_ok i) (timeout i)
    (timeout_consecutive i) (firmware_capabilities i).
Definition set_current_z (v : PyVal) (i : InternalState) : InternalState :=
  mkInternalState (temperatures i) (heating_start i) (heatup_start i)
    (heating_lost i) (heating i) (temperature_autoreporting i) (current_tool
    i) (former_tool i) v (sd_status_autoreporting i) (resend_requested i)
    (resend_linenumber i) (resend_count i) (long_running_command i)
    (only_from_job i) (trigger_events i) (ignore_ok i) (timeout i)
    (timeout_consecutive i) (firmware_capabilities i).
Definition set_sd_status_autoreporting (v : bool) (i : InternalState) : InternalState :=
  mkInternalState (temperatures i) (heating_start i) (heatup_start i)
    (heating_lost i) (heating i) (temperature_autoreporting i) (current_tool
    i) (former_tool i) (current_z i) v (resend_requested i) (resend_linenumber
    i) (resend_count i) (long_running_command i) (only_from_job i)
    (trigger_events i) (ignore_ok i) (timeout i) (timeout_consecutive i)
    (firmware_capabilities i).
Definition set_resend_requested (v : option Z) (i : InternalState) : InternalState :=
  mkInternalState (temperatures i) (heating_start i) (heatup_start i)
    (heating_lost i) (heating i) (temperature_autoreporting i) (current_tool
    i) (former_tool i) (current_z i) (sd_status_autoreporting i) v
    (resend_linenumber i) (resend_count i) (long_running_command i)
    (only_from_job i) (trigger_events i) (ignore_ok i) (timeout i)
    (timeout_consecutive i) (firmware_capabilities i).
Definition set_resend_linenumber (v : option Z) (i : InternalState) : InternalState :=
  mkInternalState (temperatures i) (heating_start i) (heatup_start i)
    (heating_lost i) (heating i) (temperature_autoreporting i) (current_tool
    i) (former_tool i) (current_z i) (sd_status_autoreporting i)
    (resend_requested i) v (resend_count i) (long_running_command i)
    (only_from_job i) (trigger_events i) (ignore_ok i) (timeout i)
    (timeout_consecutive i) (firmware_capabilities i).
Definition set_resend_count (v : option Z) (i : InternalState) : InternalState :=
  mkInternalState (temperatures i) (heating_start i) (heatup_start i)
    (heating_lost i) (heating i) (temperature_autoreporting i) (current_tool
    i) (former_tool i) (current_z i) (sd_status_autoreporting i)
    (resend_requested i) (resend_linenumber i) v (long_running_command i)
    (only_from_job i) (trigger_events i) (ignore_ok i) (timeout i)
    (timeout_consecutive i) (firmware_capabilities i).
Definition set_long_running_command (v : bool) (i : InternalState) : InternalState :=
  mkInternalState (temperatures i) (heating_start i) (heatup_start i)
    (heating_lost i) (heating i) (temperature_autoreporting i) (current_tool
    i) (former_tool i) (current_z i) (sd_status_autoreporting i)
    (resend_requested i) (resend_linenumber i) (resend_count i) v
    (only_from_job i) (trigger_events i) (ignore_ok i) (timeout i)
    (timeout_consecutive i) (firmware_capabilities i).
Definition set_only_from_job (v : bool) (i : InternalState) : InternalState :=
  mkInternalState (temperatures i) (heating_start i) (heatup_start i)
    (heating_lost i) (heating i) (temperature_autoreporting i) (current_tool
    i) (former_tool i) (current_z i) (sd_status_autoreporting i)
    (resend_requested i) (resend_linenumber i) (resend_count i)
    (long_running_command i) v (trigger_events i) (ignore_ok i) (timeout i)
    (timeout_consecutive i) (firmware_capabilities i).
Definition set_trigger_events (v : bool) (i : InternalState) : InternalState :=
  mkInternalState (temperatures i) (heating_start i) (heatup_start i)
    (heating_lost i) (heating i) (temperature_autoreporting i) (current_tool
    i) (former_tool i) (current_z i) (sd_status_autoreporting i)
    (resend_requested i) (resend_linenumber i) (resend_count i)
    (long_running_command i) (only_from_job i) v (ignore_ok i) (timeout i)
    (timeout_consecutive i) (firmware_capabilities i).
Definition set_ignore_ok (v : Z) (i : InternalState) : InternalState :=
  mkInternalState (temperatures i) (heating_start i) (heatup_start i)
    (heating_lost i) (heating i) (temperature_autoreporting i) (current_tool
    i) (former_tool i) (current_z i) (sd_status_autoreporting i)
    (resend_requested i) (resend_linenumber i) (resend_count i)
    (long_running_command i) (only_from_job i) (trigger_events i) v (timeout
    i) (timeout_consecutive i) (firmware_capabilities i).
Definition set_timeout (v : option Q) (i : InternalState) : InternalState :=
  mkInternalState (temperatures i) (heating_start i) (heatup_start i)
    (heating_lost i) (heating i) (temperature_autoreporting i) (current_tool
    i) (former_tool i) (current_z i) (sd_status_autoreporting i)
    (resend_requested i) (resend_linenumber i) (resend_count i)
    (long_running_command i) (only_from_job i) (trigger_events i) (ignore_ok
    i) v (timeout_consecutive i) (firmware_capabilities i).
Definition set_timeout_consecutive (v : Z) (i : InternalState) : InternalState :=
  mkInternalState (temperatures i) (heating_start i) (heatup_start i)
    (heating_lost i) (heating i) (temperature_autoreporting i) (current_tool
    i) (former_tool i) (current_z i) (sd_status_autoreporting i)
    (resend_requested i) (resend_linenumber i) (resend_count i)
    (long_running_command i) (only_from_job i) (trigger_events i) (ignore_ok
    i) (timeout i) v (firmware_capabilities i).
Definition set_firmware_capabilities (v : list (string * bool)) (i : InternalState) : InternalState :=
  mkInternalState (temperatures i) (heating_start i) (heatup_start i)
    (heating_lost i) (heating i) (temperature_autoreporting i) (current_tool
    i) (former_tool i) (current_z i) (sd_status_autoreporting i)
    (resend_requested i) (resend_linenumber i) (resend_count i)
    (long_running_command i) (only_from_job i) (trigger_events i) (ignore_ok
    i) (timeout i) (timeout_consecutive i) v.
Definition set_state (v : ProtocolState) (w : World) : World :=
  mkWorld v (job w) (flavor w) (timeouts w) (internal_state w) (command_queue
    w) (clear_to_send w) (send_queue w) (current_linenumber w) (last_lines w)
    (last_communication_error w) (gcode_hooks w) (atcommand_hooks w)
    (log_resends w) (log_resends_rate_start w) (log_resends_rate_count w)
    (send_queue_active w) (temperature_poller w) (transport w) (logged w)
    (events w) (clock w).
Definition set_job (v : option Job) (w : World) : World :=
  mkWorld (state w) v (flavor w) (timeouts w) (internal_state w)
    (command_queue w) (clear_to_send w) (send_queue w) (current_linenumber w)
    (last_lines w) (last_communication_error w) (gcode_hooks w)
    (atcommand_hooks w) (log_resends w) (log_resends_rate_start w)
    (log_resends_rate_count w) (send_queue_active w) (temperature_poller w)
    (transport w) (logged w) (events w) (clock w).
Definition set_flavor (v : Flavor) (w : World) : World :=
  mkWorld (state w) (job w) v (timeouts w) (internal_state w) (command_queue
    w) (clear_to_send w) (send_queue w) (current_linenumber w) (last_lines w)
    (last_communication_error w) (gcode_hooks w) (atcommand_hooks w)
    (log_resends w) (log_resends_rate_start w) (log_resends_rate_count w)
    (send_queue_active w) (temperature_poller w) (transport w) (logged w)
    (events w) (clock w).
Definition set_timeouts (v : list (string * Q)) (w : World) : World :=
  mkWorld (state w) (job w) (flavor w) v (internal_state w) (command_queue w)
    (clear_to_send w) (send_queue w) (current_linenumber w) (last_lines w)
    (last_communication_error w) (gcode_hooks w) (atcommand_hooks w)
    (log_resends w) (log_resends_rate_start w) (log_resends_rate_count w)
    (send_queue_active w) (temperature_poller w) (transport w) (logged w)
    (events w) (clock w).
Definition set_internal_state (v : InternalState) (w : World) : World :=
  mkWorld (state w) (job w) (flavor w) (timeouts w) v (command_queue w)
    (clear_to_send w) (send_queue w) (current_linenumber w) (last_lines w)
    (last_communication_error w) (gcode_hooks w) (atcommand_hooks w)
    (log_resends w) (log_resends_rate_start w) (log_resends_rate_count w)
    (send_queue_active w) (temperature_poller w) (transport w) (logged w)
    (events w) (clock w).
Definition set_command_queue (v : TypedQueue) (w : World) : World :=
  mkWorld (state w) (job w) (flavor w) (timeouts w) (internal_state w) v
    (clear_to_send w) (send_queue w) (current_linenumber w) (last_lines w)
    (last_communication_error w) (gcode_hooks w) (atcommand_hooks w)
    (log_resends w) (log_resends_rate_start w) (log_resends_rate_count w)
    (send_queue_active w) (temperature_poller w) (transport w) (logged w)
    (events w) (clock w).
Definition set_clear_to_send (v : Z) (w : World) : World :=
  mkWorld (state w) (job w) (flavor w) (timeouts w) (internal_state w)
    (command_queue w) v (send_queue w) (current_linenumber w) (last_lines w)
    (last_communication_error w) (gcode_hooks w) (atcommand_hooks w)
    (log_resends w) (log_resends_rate_start w) (log_resends_rate_count w)
    (send_queue_active w) (temperature_poller w) (transport w) (logged w)
    (events w) (clock w).
Definition set_send_queue (v : SendQueue) (w : World) : World :=
  mkWorld (state w) (job w) (flavor w) (timeouts w) (internal_state w)
    (command_queue w) (clear_to_send w) v (current_linenumber w) (last_lines
    w) (last_communication_error w) (gcode_hooks w) (atcommand_hooks w)
    (log_resends w) (log_resends_rate_start w) (log_resends_rate_count w)
    (send_queue_active w) (temperature_poller w) (transport w) (logged w)
    (events w) (clock w).
Definition set_current_linenumber (v : option Z) (w : World) : World :=
  mkWorld (state w) (job w) (flavor w) (timeouts w) (internal_state w)
    (command_queue w) (clear_to_send w) (send_queue w) v (last_lines w)
    (last_communication_error w) (gcode_hooks w) (atcommand_hooks w)
    (log_resends w) (log_resends_rate_start w) (log_resends_rate_count w)
    (send_queue_active w) (temperature_poller w) (transport w) (logged w)
    (events w) (clock w).
Definition set_last_lines (v : LineHistory) (w : World) : World :=
  mkWorld (state w) (job w) (flavor w) (timeouts w) (internal_state w)
    (command_queue w) (clear_to_send w) (send_queue w) (current_linenumber w)
    v (last_communication_error w) (gcode_hooks w) (atcommand_hooks w)
    (log_resends w) (log_resends_rate_start w) (log_resends_rate_count w)
    (send_queue_active w) (temperature_poller w) (transport w) (logged w)
    (events w) (clock w).
Definition set_last_communication_error (v : option string) (w : World) : World :=
  mkWorld (state w) (job w) (flavor w) (timeouts w) (internal_state w)
    (command_queue w) (clear_to_send w) (send_queue w) (current_linenumber w)
    (last_lines w) v (gcode_hooks w) (atcommand_hooks w) (log_resends w)
    (log_resends_rate_start w) (log_resends_rate_count w) (send_queue_active
    w) (temperature_poller w) (transport w) (logged w) (events w) (clock w).
Definition set_gcode_hooks (v : list (string * list (string * Hook))) (w : World) : World :=
  mkWorld (state w) (job w) (flavor w) (timeouts w) (internal_state w)
    (command_queue w) (clear_to_send w) (send_queue w) (current_linenumber w)
    (last_lines w) (last_communication_error w) v (atcommand_hooks w)
    (log_resends w) (log_resends_rate_start w) (log_resends_rate_count w)
    (send_queue_active w) (temperature_poller w) (transport w) (logged w)
    (events w) (clock w).
Definition set_atcommand_hooks (v : list (string * list (string * AtcommandHook))) (w : World) : World :=
  mkWorld (state w) (job w) (flavor w) (timeouts w) (internal_state w)
    (command_queue w) (clear_to_send w) (send_queue w) (current_linenumber w)
    (last_lines w) (last_communication_error w) (gcode_hooks w) v (log_resends
    w) (log_resends_rate_start w) (log_resends_rate_count w)
    (send_queue_active w) (temperature_poller w) (transport w) (logged w)
    (events w) (clock w).
Definition set_log_resends (v : bool) (w : World) : World :=
  mkWorld (state w) (job w) (flavor w) (timeouts w) (internal_state w)
    (command_queue w) (clear_to_send w) (send_queue w) (current_linenumber w)
    (last_lines w) (last_communication_error w) (gcode_hooks w)
    (atcommand_hooks w) v (log_resends_rate_start w) (log_resends_rate_count
    w) (send_queue_active w) (temperature_poller w) (transport w) (logged w)
    (events w) (clock w).
Definition set_log_resends_rate_start (v : option Q) (w : World) : World :=
  mkWorld (state w) (job w) (flavor w) (timeouts w) (internal_state w)
    (command_queue w) (clear_to_send w) (send_queue w) (current_linenumber w)
    (last_lines w) (last_communication_error w) (gcode_hooks w)
    (atcommand_hooks w) (log_resends w) v (log_resends_rate_count w)
    (send_queue_active w) (temperature_poller w) (transport w) (logged w)
    (events w) (clock w).
Definition set_log_resends_rate_count (v : Z) (w : World) : World :=
  mkWorld (state w) (job w) (flavor w) (timeouts w) (internal_state w)
    (command_queue w) (clear_to_send w) (send_queue w) (current_linenumber w)
    (last_lines w) (last_communication_error w) (gcode_hooks w)
    (atcommand_hooks w) (log_resends w) (log_resends_rate_start w) v
    (send_queue_active w) (temperature_poller w) (transport w) (logged w)
    (events w) (clock w).
Definition set_send_queue_active (v : bool) (w : World) : World :=
  mkWorld (state w) (job w) (flavor w) (timeouts w) (internal_state w)
    (command_queue w) (clear_to_send w) (send_queue w) (current_linenumber w)
    (last_lines w) (last_communication_error w) (gcode_hooks w)
    (atcommand_hooks w) (log_resends w) (log_resends_rate_start w)
    (log_resends_rate_count w) v (temperature_poller w) (transport w) (logged
    w) (events w) (clock w).
Definition set_temperature_poller (v : bool) (w : World) : World :=
  mkWorld (state w) (job w) (flavor w) (timeouts w) (internal_state w)
    (command_queue w) (clear_to_send w) (send_queue w) (current_linenumber w)
    (last_lines w) (last_communication_error w) (gcode_hooks w)
    (atcommand_hooks w) (log_resends w) (log_resends_rate_start w)
    (log_resends_rate_count w) (send_queue_active w) v (transport w) (logged
    w) (events w) (clock w).
Definition set_transport (v : option Transport) (w : World) : World :=
  mkWorld (state w) (job w) (flavor w) (timeouts w) (internal_state w)
    (command_queue w) (clear_to_send w) (send_queue w) (current_linenumber w)
    (last_lines w) (last_communication_error w) (gcode_hooks w)
    (atcommand_hooks w) (log_resends w) (log_resends_rate_start w)
    (log_resends_rate_count w) (send_queue_active w) (temperature_poller w) v
    (logged w) (events w) (clock w).
Definition set_logged (v : list LogEntry) (w : World) : World :=
  mkWorld (state w) (job w) (flavor w) (timeouts w) (internal_state w)
    (command_queue w) (clear_to_send w) (send_queue w) (current_linenumber w)
    (last_lines w) (last_communication_error w) (gcode_hooks w)
    (atcommand_hooks w) (log_resends w) (log_resends_rate_start w)
    (log_resends_rate_count w) (send_queue_active w) (temperature_poller w)
    (transport w) v (events w) (clock w).
Definition set_events (v : list Event) (w : World) : World :=
  mkWorld (state w) (job w) (flavor w) (timeouts w) (internal_state w)
    (command_queue w) (clear_to_send w) (send_queue w) (current_linenumber w)
    (last_lines w) (last_communication_error w) (gcode_hooks w)
    (atcommand_hooks w) (log_resends w) (log_resends_rate_start w)
    (log_resends_rate_count w) (send_queue_active w) (temperature_poller w)
    (transport w) (logged w) v (clock w).
Definition set_clock (v : Q) (w : World) : World :=
  mkWorld (state w) (job w) (flavor w) (timeouts w) (internal_state w)
    (command_queue w) (clear_to_send w) (send_queue w) (current_linenumber w)
    (last_lines w) (last_communication_error w) (gcode_hooks w)
    (atcommand_hooks w) (log_resends w) (log_resends_rate_start w)
    (log_resends_rate_count w) (send_queue_active w) (temperature_poller w)
    (transport w) (logged w) (events w) v.

(** Reading and writing an entry of [self._internal_state]. *)
Definition ist {A : Type} (f : InternalState -> A) (w : World) : A :=
  f (internal_state w).

Definition upd_ist (f : InternalState -> InternalState) (w : World) : World :=
  set_internal_state (f (internal_state w)) w.

(** ** The interpreter and the collaborators outside this class

    [int_of_str] and [float_of_str] are [int(s)] and [float(s)] on a string
    ([None] when they raise [ValueError]); [to_command] is the factory of the
    [commands] package; the three [base_*] functions are what the job
    control of the [Protocol] base class does to [state] and [_job]. *)
Record Env : Type := mkEnv {
  int_of_str : string -> option Z;
  float_of_str : string -> option Q;
  to_command : string -> option string -> option (list string) -> Command;
  base_pause_processing : ProtocolState -> option Job -> ProtocolState * option Job;
  base_cancel_processing : bool -> ProtocolState -> option Job -> ProtocolState * option Job;
  base_resume_processing : ProtocolState -> option Job -> ProtocolState * option Job
}.

(** ** A state and exception monad over [World] *)

Inductive Res (A : Type) : Type :=
| Ok (a : A) (w : World)          (* returned [a] *)
| Raised (e : PyExc) (w : World)  (* raised [e] *)
| OutOfFuel (w : World).          (* the bound of the model was hit in [w] *)

Arguments Ok {A} a w.
Arguments Raised {A} e w.
Arguments OutOfFuel {A} w.

Definition M (A : Type) : Type := World -> Res A.

Definition ret {A : Type} (a : A) : M A := fun w => Ok a w.

Definition bind {A B : Type} (m : M A) (k : A -> M B) : M B :=
  fun w =>
    match m w with
    | Ok a w' => k a w'
    | Raised e w' => Raised e w'
    | OutOfFuel w' => OutOfFuel w'
    end.

Definition raise {A : Type} (e : PyExc) : M A := fun w => Raised e w.

Definition out_of_fuel {A : Type} : M A := fun w => OutOfFuel w.

Definition gets {A : Type} (f : World -> A) : M A := fun w => Ok (f w) w.

Definition modify (f : World -> World) : M unit := fun w => Ok tt (f w).

(** [try: m except: h] *)
Definition try_except {A : Type} (m : M A) (h : PyExc -> M A) : M A :=
  fun w =>
    match m w with
    | Raised e w' => h e w'
    | r => r
    end.

Declare Scope monad_scope.
Delimit Scope monad_scope with monad.
Notation "x <- m ;; k" := (bind m (fun x => k))
  (at level 61, m at next level, right associativity) : monad_scope.
Notation "m ;; k" := (bind m (fun _ => k))
  (at level 61, right associativity) : monad_scope.
Local Open Scope monad_scope.

Definition when (b : bool) (m : M unit) : M unit :=
  if b then m else ret tt.

(** The world a computation leaves behind, however it ended. *)
Definition final {A : Type} (r : Res A) : World :=
  match r with
  | Ok _ w => w
  | Raised _ w => w
  | OutOfFuel w => w
  end.

Definition log_info (msg : string) : M unit :=
  modify (fun w => set_logged (logged w ++ [LogInfo msg])%list w).
Definition log_error (msg : string) : M unit :=
  modify (fun w => set_logged (logged w ++ [LogError msg])%list w).
Definition log_exception (msg : string) : M unit :=
  modify (fun w => set_logged (logged w ++ [LogException msg])%list w).

Definition notify_listeners (name arg : string) : M unit :=
  modify (fun w => set_events (events w ++ [Notify name arg])%list w).

Definition monotonic_time : M Q := gets clock.

(** [int(v)] and [float(v)] *)
Definition py_int (E : Env) (v : PyVal) : M Z :=
  match v with
  | PyInt z => ret z
  | PyStr s => match int_of_str E s with Some z => ret z | None => raise ValueError end
  | PyNone => raise TypeError
  end.

Definition py_float (E : Env) (v : PyVal) : M Q :=
  match v with
  | PyInt z => ret (inject_Z z)
  | PyStr s => match float_of_str E s with Some q => ret q | None => raise ValueError end
  | PyNone => raise TypeError
  end.

(** ** Properties ([_active], [_is_operational], [_is_busy], [_is_streaming]) *)

Definition _active (w : World) : bool :=
  match transport w with
  | Some t => t_active t && send_queue_active w
  | None => false
  end.

Definition _is_operational (w : World) : bool :=
  negb (state_in (state w) [DISCONNECTED; DISCONNECTED_WITH_ERROR]).

Definition _is_busy (w : World) : bool :=
  state_in (state w) [PROCESSING; PAUSED].

Definition is_job_kind (k : JobKind) (j : option Job) : bool :=
  match j with
  | Some j' =>
      match job_kind j', k with
      | LocalGcodeFilePrintjob, LocalGcodeFilePrintjob
      | SDFilePrintjob, SDFilePrintjob
      | LocalGcodeStreamjob, LocalGcodeStreamjob => true
      | _, _ => false
      end
  | None => false
  end.

Definition _is_streaming (w : World) : bool :=
  _is_busy w
  && match job w with Some _ => true | None => false end
  && is_job_kind LocalGcodeStreamjob (job w).

Definition can_send (w : World) : bool :=
  negb (ist long_running_command w) && negb (ist heating w).

(** ** Writing to the transport (lines 1219-1251) *)

Definition LF : string := String "010"%char "".

Definition _do_send_without_checksum (data : string) : M unit :=
  fun w =>
    match transport w with
    | Some t =>
        Ok tt (set_transport
                 (Some (mkTransport (t_active t) (message_integrity t)
                                    (written t ++ [(data ++ LF)%string])%list))
                 w)
    | None => Raised AttributeError w
    end.

(** What has gone out on the wire. *)
Definition wire (w : World) : list string :=
  match transport w with
  | Some t => written t
  | None => []
  end.

(** The running XOR of [for c in bytearray(command_to_send): checksum ^= c]. *)
Definition checksum_of (s : string) : Z :=
  fold_left (fun acc c => Z.lxor acc (Z.of_N (N_of_ascii c)))
            (list_ascii_of_string s) 0.

Definition _do_send_with_checksum (line : string) (line_number : option Z) : M unit :=
  let command_to_send :=
    "N" ++ match line_number with Some n => str_of_int n | None => "None" end
        ++ " " ++ line in
  let checksum := checksum_of command_to_send in
  _do_send_without_checksum (command_to_send ++ "*" ++ str_of_int checksum).

Definition _add_to_last_lines (command : string) (line_number : option Z) : M unit :=
  modify (fun w => set_last_lines (history_append command line_number (last_lines w)) w).

Definition _do_increment_and_send_with_checksum (line : string) : M unit :=
  line_number <- gets current_linenumber ;;
  _add_to_last_lines line line_number ;;
  match line_number with
  | Some n => modify (set_current_linenumber (Some (n + 1)))
  | None => raise TypeError    (* [None += 1] *)
  end ;;
  _do_send_with_checksum line line_number.

(** ** Enqueueing for sending (lines 976-997) *)

Definition _enqueue_for_sending (command : Command) (linenumber : option Z)
  (on_sent : option Callback) (processed resend : bool) : M bool :=
  fun w =>
    let target := if resend then TResend else TSend in
    match send_queue_put (mkSendEntry command linenumber on_sent processed)
                         (type command) target (send_queue w) with
    | Some q => Ok true (set_send_queue q w)
    | None => Ok false w     (* TypeAlreadyInQueue *)
    end.

(** ** The phase pipeline (lines 1123-1196)

    The handler tables [self._handlers_gcode] and
    [self._handlers_command_phase] are dictionaries from method names to
    methods; the pipeline is written over them and they are filled in
    further down. *)

Definition Handler : Type := Command -> M HandlerResult.

Section Pipeline.

Variable handlers_gcode : list (string * Handler).
Variable handlers_command_phase : list (string * Handler).

(** The inner loop over [results] for one hook (lines 1135-1157). *)
Fixpoint run_hook (name : string) (hook : Hook) (phase : string)
  (results : list Command) : M (list Command) :=
  match results with
  | [] => ret []
  | command :: rest =>
      new <- match hook phase command with
             | None =>
                 log_exception ("Error while processing hook " ++ name
                                ++ " for phase " ++ phase) ;;
                 ret []
             | Some hook_results =>
                 let normalized :=
                   normalize_command_handler_result command hook_results
                     (Some ["source:rewrite"; "phase:" ++ phase; "plugin:" ++ name]) in
                 if negb (mem_string phase ["queuing"])
                    && (1 <? List.length normalized)%nat
                 then
                   log_error ("Hook " ++ name
                              ++ " returned multi-entry result for phase " ++ phase) ;;
                   ret [command]
                 else ret normalized
             end ;;
      more <- run_hook name hook phase rest ;;
      ret (new ++ more)%list
  end.

(** The loop over the hooks of the phase (lines 1133-1161); [None] is the
    early [return []]. *)
Fixpoint run_hooks (hooks : list (string * Hook)) (phase : string)
  (results : list Command) : M (option (list Command)) :=
  match hooks with
  | [] => ret (Some results)
  | (name, hook) :: hooks' =>
      new_results <- run_hook name hook phase results ;;
      if is_nil new_results then ret None
      else run_hooks hooks' phase new_results
  end.

(** The loop over [results] for the built-in G-code handler (lines
    1164-1177); the boolean is [modified]. *)
Fixpoint run_gcode_handlers (phase : string) (results : list Command)
  : M (list Command * bool) :=
  match results with
  | [] => ret ([], false)
  | command :: rest =>
      r <- match code_of command with
           | Some code =>
               let gcode_handler := "_gcode_" ++ code ++ "_" ++ phase in
               match assoc gcode_handler handlers_gcode with
               | Some handler =>
                   handler_results <- handler command ;;
                   ret (normalize_command_handler_result command handler_results None,
                        true)
               | None => ret ([command], false)
               end
           | None => ret ([command], false)
           end ;;
      rs <- run_gcode_handlers phase rest ;;
      ret ((fst r ++ fst rs)%list, snd r || snd rs)
  end.

(** The loop over [results] for the phase handler (lines 1190-1192). *)
Fixpoint run_phase_handler (handler : Handler) (results : list Command)
  : M (list Command) :=
  match results with
  | [] => ret []
  | command :: rest =>
      handler_results <- handler command ;;
      more <- run_phase_handler handler rest ;;
      ret (normalize_command_handler_result command handler_results None ++ more)%list
  end.

Definition hooks_for (phase : string) : M (list (string * Hook)) :=
  fun w =>
    match assoc phase (gcode_hooks w) with
    | Some hooks => Ok hooks w
    | None => Raised KeyError w
    end.

Definition _process_command_phase (phase : string) (command : Command)
  : M (list Command) :=
  let results := [command] in
  if negb (mem_string phase ["queueing"; "queued"; "sending"; "sent"]) then
    ret results
  else
    hooks <- hooks_for phase ;;
    hooked <- run_hooks hooks phase results ;;
    match hooked with
    | None => ret []
    | Some results =>
        handled <- run_gcode_handlers phase results ;;
        let (new_results, modified) := handled in
        if modified && is_nil new_results then ret []
        else
          let results := if modified then new_results else results in
          match assoc ("_command_phase_" ++ phase) handlers_command_phase with
          | Some handler => run_phase_handler handler results
          | None => ret results
          end
    end.

End Pipeline.

Section Engine.

Variable E : Env.

(** ** Job control of the base class *)

Definition pause_processing (tags : list string) : M unit :=
  modify (fun w =>
    let (s, j) := base_pause_processing E (state w) (job w) in
    set_events (events w ++ [PauseProcessing tags])%list (set_job j (set_state s w))).

Definition cancel_processing (error : bool) (tags : list string) : M unit :=
  modify (fun w =>
    let (s, j) := base_cancel_processing E error (state w) (job w) in
    set_events (events w ++ [CancelProcessing error tags])%list
               (set_job j (set_state s w))).

Definition resume_processing (tags : list string) : M unit :=
  modify (fun w =>
    let (s, j) := base_resume_processing E (state w) (job w) in
    set_events (events w ++ [ResumeProcessing tags])%list (set_job j (set_state s w))).

(** ** At-commands (lines 1198-1215, 1416-1436) *)

Definition has_tag (t : string) (c : Command) : bool :=
  match tags c with Some l => mem_string t l | None => false end.

Definition _atcommand_pause_queuing (command : Command) : M unit :=
  when (negb (has_tag "script:afterPrintPaused" command))
       (pause_processing ["trigger:atcommand_pause"]).

Definition _atcommand_cancel_queuing (command : Command) : M unit :=
  when (negb (has_tag "script:afterPrintCancelled" command))
       (cancel_processing false ["trigger:atcommand_cancel"]).

Definition _atcommand_abort_queuing := _atcommand_cancel_queuing.

Definition _atcommand_resume_queuing (command : Command) : M unit :=
  when (negb (has_tag "script:beforePrintResumed" command))
       (resume_processing ["trigger:atcommand_resume"]).

(** [self._handlers_atcommand] *)
Definition handlers_atcommand : list (string * (Command -> M unit)) :=
  [ ("_atcommand_abort_queuing", _atcommand_abort_queuing);
    ("_atcommand_cancel_queuing", _atcommand_cancel_queuing);
    ("_atcommand_pause_queuing", _atcommand_pause_queuing);
    ("_atcommand_resume_queuing", _atcommand_resume_queuing) ].

(** The loop over the plugin hooks of the phase (lines 1203-1207): a hook
    that raises is logged and the loop goes on. *)
Fixpoint run_atcommand_hooks (hooks : list (string * AtcommandHook))
  (phase atcommand : string) (command : Command) : M unit :=
  match hooks with
  | [] => ret tt
  | (name, hook) :: hooks' =>
      when (negb (hook phase command))
        (log_exception ("Error while processing hook " ++ name ++ " for phase "
                        ++ phase ++ " and command " ++ atcommand ++ ":")) ;;
      run_atcommand_hooks hooks' phase atcommand command
  end.

Definition atcommand_hooks_for (phase : string)
  : M (list (string * AtcommandHook)) :=
  fun w =>
    match assoc phase (atcommand_hooks w) with
    | Some hooks => Ok hooks w
    | None => Raised KeyError w
    end.

Definition _process_atcommand_phase (phase : string) (command : Command) : M unit :=
  streaming <- gets _is_streaming ;;
  if streaming || negb (mem_string phase ["queuing"; "sending"]) then ret tt
  else
    hooks <- atcommand_hooks_for phase ;;
    match kind command with
    | AtCommand atcommand _ =>
        run_atcommand_hooks hooks phase atcommand command ;;
        let atcommand_handler := "_atcommand_" ++ atcommand ++ "_" ++ phase in
        match assoc atcommand_handler handlers_atcommand with
        | Some handler =>
            try_except (handler command)
              (fun _ => log_exception ("Error in handler for phase " ++ phase
                                       ++ " and command " ++ atcommand))
        | None => ret tt
        end
    | _ => raise AttributeError   (* [command.atcommand] *)
    end.

(** ** Built-in handlers that send nothing (lines 1255-1263, 1284-1368,
    1405-1412, 1440-1442, 1464-1476) *)

Definition _set_temperature (tool : string) (actual target : option Q) : M unit :=
  modify (upd_ist (fun i =>
    let temps := temperatures i in
    let actual :=
      match actual, assoc tool temps with
      | None, Some (a, _) => a
      | _, _ => actual
      end in
    let target :=
      match target, assoc tool temps with
      | None, Some (_, t) => t
      | _, _ => target
      end in
    set_temperatures (assoc_set tool (actual, target) temps) i)).

Definition _get_timeout (timeout_type : string) : M Q :=
  now <- monotonic_time ;;
  known <- gets (fun w => assoc timeout_type (timeouts w)) ;;
  match known with
  | Some t => ret (now + t)%Q
  | None => ret now
  end.

Definition _gcode_T_sent (command : Command) : M HandlerResult :=
  (if truthy (attr command "tool") then
     tool <- py_int E (attr command "tool") ;;
     modify (upd_ist (set_current_tool (PyInt tool)))
   else ret tt) ;;
  ret HNone.

Definition _gcode_G0_sent (command : Command) : M HandlerResult :=
  z <- gets (ist current_z) ;;
  (if negb (is_none (attr command "z")) && negb (pyval_eqb z (attr command "z")) then
     modify (upd_ist (set_current_z (attr command "z"))) ;;
     notify_listeners "on_protocol_position_z_update" (py_format (attr command "z"))
   else ret tt) ;;
  ret HNone.

Definition _gcode_G1_sent := _gcode_G0_sent.

Definition _gcode_M140_queuing (command : Command) : M HandlerResult :=
  ret HNone.

Definition _gcode_M190_queuing := _gcode_M140_queuing.

Definition CAPABILITY_AUTOREPORT_TEMP : string := "AUTOREPORT_TEMP".
Definition CAPABILITY_AUTOREPORT_SD_STATUS : string := "AUTOREPORT_SD_STATUS".

Definition capability (cap : string) (w : World) : bool :=
  match assoc cap (ist firmware_capabilities w) with
  | Some b => b
  | None => false
  end.

Definition _gcode_M155_sending (command : Command) : M HandlerResult :=
  try_except
    (interval <- py_int E (attr command "s") ;;
     modify (fun w =>
       upd_ist (set_temperature_autoreporting
                  (capability CAPABILITY_AUTOREPORT_TEMP w && (0 <? interval))) w))
    (fun _ => ret tt) ;;
  ret HNone.

Definition _gcode_M27_sending (command : Command) : M HandlerResult :=
  try_except
    (interval <- py_int E (attr command "s") ;;
     modify (fun w =>
       upd_ist (set_sd_status_autoreporting
                  (capability CAPABILITY_AUTOREPORT_SD_STATUS w && (0 <? interval))) w))
    (fun _ => ret tt) ;;
  ret HNone.

(** [target] of [_gcode_M104_sent] and [_gcode_M140_sent]. *)
Definition target_of (command : Command) (support_r : bool) : M (option Q) :=
  if negb (is_none (attr command "s")) then
    t <- py_float E (attr command "s") ;; ret (Some t)
  else if negb (is_none (attr command "r")) && support_r then
    t <- py_float E (attr command "r") ;; ret (Some t)
  else ret None.

Definition float_truthy (t : option Q) : bool :=
  match t with
  | Some q => negb (Qeq_bool q 0)
  | None => false
  end.

Definition _gcode_M104_sent (command : Command) (wait support_r : bool)
  : M HandlerResult :=
  current <- gets (ist current_tool) ;;
  tool_num <-
    (if truthy (attr command "t") then
       (if wait then
          modify (upd_ist (set_former_tool current)) ;;
          modify (upd_ist (set_current_tool (attr command "t")))
        else ret tt) ;;
       ret (attr command "t")
     else ret current) ;;
  target <- target_of command support_r ;;
  (if float_truthy target then
     _set_temperature ("tool" ++ py_format tool_num) None target ;;
     notify_listeners "on_protocol_temperature" ""
   else ret tt) ;;
  ret HNone.

Definition _gcode_M140_sent (command : Command) (wait support_r : bool)
  : M HandlerResult :=
  target <- target_of command support_r ;;
  (if float_truthy target then
     _set_temperature "bed" None target ;;
     notify_listeners "on_protocol_temperature" ""
   else ret tt) ;;
  ret HNone.

Definition start_heatup : M unit :=
  now <- monotonic_time ;;
  modify (upd_ist (set_heatup_start (Some now))) ;;
  modify (upd_ist (set_long_running_command true)) ;;
  modify (upd_ist (set_heating true)).

Definition _gcode_M109_sent (command : Command) : M HandlerResult :=
  start_heatup ;;
  _gcode_M104_sent command true true ;;
  ret HNone.

Definition _gcode_M190_sent (command : Command) : M HandlerResult :=
  start_heatup ;;
  _gcode_M140_sent command true true ;;
  ret HNone.

Definition _gcode_M116_sent (command : Command) : M HandlerResult :=
  start_heatup ;;
  ret HNone.

Definition fmt_line (n : option Z) : string :=
  match n with Some z => str_of_int z | None => "None" end.

(** [_gcode_M110_sending] (lines 1350-1368) is written in the three parts
    another thread can tell apart: the lines before
    [with self._line_mutex:], the block under the lock, and the line after
    it. *)
Definition M110_new_line_number (command : Command) : M (option Z) :=
  if truthy (attr command "n") then
    try_except (n <- py_int E (attr command "n") ;; ret (Some n))
               (fun _ => ret None)
  else ret (Some 0).

Definition M110_under_line_mutex (new_line_number : option Z) : M unit :=
  log_info ("M110 detected, setting current line number to "
            ++ fmt_line new_line_number) ;;
  modify (set_current_linenumber new_line_number) ;;
  modify (set_last_lines []).

Definition M110_after_line_mutex : M unit :=
  modify (upd_ist (set_resend_linenumber None)).

Definition _gcode_M110_sending (command : Command) : M HandlerResult :=
  new_line_number <- M110_new_line_number command ;;
  M110_under_line_mutex new_line_number ;;
  M110_after_line_mutex ;;
  ret HNone.

(** The handler when another thread, which may hold [_line_mutex] or none,
    runs [other] between the release of the lock and line 1368. *)
Definition M110_with_a_thread_in_between (command : Command) (other : M unit)
  : M HandlerResult :=
  new_line_number <- M110_new_line_number command ;;
  M110_under_line_mutex new_line_number ;;
  other ;;
  M110_after_line_mutex ;;
  ret HNone.

Definition _gcode_G4_sent (cmd : Command) : M HandlerResult :=
  timeout <-
    (if truthy (attr cmd "p") then
       p <- py_float E (attr cmd "p") ;; ret (p / 1000)%Q
     else if truthy (attr cmd "s") then
       py_float E (attr cmd "s")
     else ret 0%Q) ;;
  base <- _get_timeout "communication" ;;
  modify (upd_ist (set_timeout (Some (base + timeout)%Q))) ;;
  ret HNone.

Definition _command_phase_sending (cmd : Command) (gcode : option Command)
  : M HandlerResult :=
  long_running <- gets (fun w => long_running_commands (flavor w)) ;;
  (match gcode with
   | Some g =>
       match code_of g with
       | Some code =>
           when (mem_string code long_running)
                (modify (upd_ist (set_long_running_command true)))
       | None => raise AttributeError
       end
   | None => ret tt
   end) ;;
  ret HNone.

(** [self._handlers_command_phase]; the pipeline calls the handler with the
    command alone, so [gcode] keeps its default. *)
Definition handlers_command_phase : list (string * Handler) :=
  [ ("_command_phase_sending", fun cmd => _command_phase_sending cmd None) ].

(** ** Handlers that write or send (lines 1265-1274, 1370-1403) *)

(** A call of [_do_send_with_checksum]: the method has the two parameters
    [line] and [line_number], neither with a default, and a call that leaves
    one out raises [TypeError] before the body runs. *)
Definition call_do_send_with_checksum (line : string)
  (line_number : option (option Z)) : M unit :=
  match line_number with
  | Some n => _do_send_with_checksum line n
  | None => raise TypeError
  end.

Definition _gcode_M112_queuing (command : Command) : M HandlerResult :=
  stop <- gets (fun w => line (command_emergency_stop (flavor w))) ;;
  call_do_send_with_checksum stop None ;;
  _do_increment_and_send_with_checksum stop ;;
  ret (HEntries [None]).

(** What [_send_command] may be handed: a line or a command. *)
Inductive CommandArg : Type :=
| Raw (s : string)
| Cmd (c : Command).

Section Sending.

(** [self._handlers_gcode], as far as the recursion has been unrolled. *)
Variable handlers_gcode : list (string * Handler).

Definition process_command_phase := _process_command_phase handlers_gcode handlers_command_phase.

(** The local helper [process] of [_send_command] (lines 932-953). *)
Definition process (command : Command) (on_sent : option Callback) : M bool :=
  when (is_atcommand command) (_process_atcommand_phase "queuing" command) ;;
  enqueued <- _enqueue_for_sending command None on_sent false false ;;
  if enqueued then
    streaming <- gets _is_streaming ;;
    when (negb streaming) (process_command_phase "queued" command ;; ret tt) ;;
    ret true
  else ret false.

Fixpoint process_all (results : list Command) (enqueued_something : bool) : M bool :=
  match results with
  | [] => ret enqueued_something
  | command :: rest =>
      r <- process command None ;;
      process_all rest (r || enqueued_something)
  end.

Definition _send_command_with (command : CommandArg) (command_type : option string)
  (tags : option (list string)) (on_sent : option Callback) : M bool :=
  let command :=
    match command with
    | Cmd c => c
    | Raw s => to_command E s command_type tags
    end in
  trigger <- gets (ist trigger_events) ;;
  results <- (if trigger then process_command_phase "queuing" command
              else ret [command]) ;;
  match rev results with
  | [] => ret false
  | last_command :: rev_results =>
      enqueued_something <- process_all (rev rev_results) false ;;
      r <- process last_command on_sent ;;
      ret (r || enqueued_something)
  end.

Fixpoint send_each (n : nat) (commands : list CommandArg)
  (command_type : option string) (tags : option (list string)) (result : bool)
  : M bool :=
  match commands with
  | [] => ret result
  | command :: rest =>
      let command_type := if (1 <? n)%nat then None else command_type in
      r <- _send_command_with command command_type tags None ;;
      send_each n rest command_type tags (r || result)
  end.

Definition _send_commands_with (commands : list CommandArg)
  (command_type : option string) (tags : option (list string)) : M bool :=
  send_each (List.length commands) commands command_type tags false.

End Sending.

(** [pause_file_print], [_gcode_M0_queuing] and [_gcode_M25_queuing] over a
    given [_send_commands]. *)
Section Pausing.

Variable send_commands_ : list CommandArg -> option string -> option (list string) -> M bool.

Definition pause_file_print_with : M unit :=
  pause <- gets (fun w => command_sd_pause (flavor w)) ;;
  send_commands_ [Cmd pause] None None ;;
  ret tt.

Definition _gcode_M0_queuing_with (command : Command) : M HandlerResult :=
  pause_file_print_with ;;
  ret (HEntries [None]).

Definition _gcode_M25_queuing_with (command : Command) : M HandlerResult :=
  w <- gets (fun w => w) ;;
  when (state_eqb (state w) PROCESSING && negb (is_job_kind SDFilePrintjob (job w)))
       pause_file_print_with ;;
  ret HNone.

End Pausing.

(** [self._handlers_gcode]: every attribute of the class whose name starts
    with [_gcode_].  The handlers for [M0], [M1] and [M25] send a command,
    which runs the pipeline and so looks into this table again; [fuel]
    bounds that nesting. *)
Fixpoint handlers_gcode (fuel : nat) : list (string * Handler) :=
  let send_commands_ :=
    match fuel with
    | O => fun _ _ _ => out_of_fuel
    | S fuel' => _send_commands_with (handlers_gcode fuel')
    end in
  [ ("_gcode_G0_sent", _gcode_G0_sent);
    ("_gcode_G1_sent", _gcode_G1_sent);
    ("_gcode_G4_sent", _gcode_G4_sent);
    ("_gcode_M0_queuing", _gcode_M0_queuing_with send_commands_);
    ("_gcode_M104_sent", fun c => _gcode_M104_sent c false false);
    ("_gcode_M109_sent", _gcode_M109_sent);
    ("_gcode_M110_sending", _gcode_M110_sending);
    ("_gcode_M112_queuing", _gcode_M112_queuing);
    ("_gcode_M116_sent", _gcode_M116_sent);
    ("_gcode_M140_queuing", _gcode_M140_queuing);
    ("_gcode_M140_sent", fun c => _gcode_M140_sent c false false);
    ("_gcode_M155_sending", _gcode_M155_sending);
    ("_gcode_M190_queuing", _gcode_M190_queuing);
    ("_gcode_M190_sent", _gcode_M190_sent);
    ("_gcode_M1_queuing", _gcode_M0_queuing_with send_commands_);
    ("_gcode_M25_queuing", _gcode_M25_queuing_with send_commands_);
    ("_gcode_M27_sending", _gcode_M27_sending);
    ("_gcode_T_sent", _gcode_T_sent) ].

(** ** Sending (lines 908-974) *)

Definition _send_command (fuel : nat) := _send_command_with (handlers_gcode fuel).
Definition _send_commands (fuel : nat) := _send_commands_with (handlers_gcode fuel).
Definition pause_file_print (fuel : nat) := pause_file_print_with (_send_commands fuel).
Definition _gcode_M0_queuing (fuel : nat) := _gcode_M0_queuing_with (_send_commands fuel).
Definition _gcode_M1_queuing := _gcode_M0_queuing.
Definition _gcode_M25_queuing (fuel : nat) := _gcode_M25_queuing_with (_send_commands fuel).

(** ** Feeding the send queue (lines 782-906) *)

(** [_send_from_queue]: [fuel] bounds the number of entries looked at and
    the nesting of the commands sent. *)
Fixpoint _send_from_queue (fuel : nat) : M bool :=
  match fuel with
  | O => out_of_fuel
  | S fuel' =>
      only_job <- gets (ist only_from_job) ;;
      if only_job then ret false
      else
        q <- gets command_queue ;;
        match typed_get q with
        | None => ret false      (* queue.Empty *)
        | Some (entry, q') =>
            modify (set_command_queue q') ;;
            match entry with
            | QTuple elems =>
                if negb (List.length elems =? 3)%nat then
                  (* something with that entry is broken: fetch the next one *)
                  _send_from_queue fuel'
                else
                  (* [cmd, callback = entry] on a tuple of three *)
                  raise ValueError
            | QCommand cmd =>
                sent <- _send_command fuel' (Cmd cmd) None None None ;;
                if sent then ret true else _send_from_queue fuel'
            end
        end
  end.

(** [_send_next_from_job]; falling out of the loop returns nothing, which
    reads as false where the result is tested. *)
Fixpoint _send_next_from_job (fuel : nat) : M bool :=
  match fuel with
  | O => out_of_fuel
  | S fuel' =>
      active <- gets _active ;;
      if negb active then ret false
      else
        st <- gets state ;;
        if negb (state_eqb st PROCESSING) then ret false
        else
          j <- gets job ;;
          match j with
          | None => raise AttributeError
          | Some j =>
              let (next, j') := get_next j in
              modify (set_job (Some j')) ;;
              match next with
              | None => ret false
              | Some l =>
                  let command :=
                    to_command E l None
                      (Some ["source:file";
                             "filepos:" ++ str_of_int (job_pos j');
                             "fileline:" ++ str_of_int (job_read_lines j');
                             "fileactualline:" ++ str_of_int (job_actual_lines j')]) in
                  sent <- _send_command fuel' (Cmd command) None None None ;;
                  if sent then ret true else _send_next_from_job fuel'
              end
          end
  end.

Definition job_feeds (w : World) : bool :=
  state_in (state w) [PROCESSING]
  && negb (match job w with
           | None => true
           | Some j => negb (job_active j) || is_job_kind SDFilePrintjob (job w)
           end).

Fixpoint _continue_sending (fuel : nat) : M bool :=
  match fuel with
  | O => out_of_fuel
  | S fuel' =>
      active <- gets _active ;;
      if negb active then ret false
      else
        feeds <- gets job_feeds ;;
        if feeds then
          from_queue <- _send_from_queue fuel' ;;
          if from_queue then ret true
          else
            from_job <- _send_next_from_job fuel' ;;
            if from_job then ret true
            else _continue_sending fuel'
        else _send_from_queue fuel'
  end.

Definition _send_next_from_resend (again : bool) : M bool :=
  modify (set_last_communication_error None) ;;
  when again
    (cursor <- gets (ist resend_linenumber) ;;
     cursor <- (match cursor with
                | None => gets current_linenumber
                | Some _ => ret cursor
                end) ;;
     match cursor with
     | Some n => modify (upd_ist (set_resend_linenumber (Some (n - 1))))
     | None =>
         modify (upd_ist (set_resend_linenumber None)) ;;
         raise TypeError    (* [None -= 1] *)
     end) ;;
  linenumber <- gets (ist resend_linenumber) ;;
  history <- gets last_lines ;;
  match history_get linenumber history with
  | None => ret false      (* KeyError *)
  | Some command =>
      result <- _enqueue_for_sending (Command_of_line command) linenumber None true true ;;
      match linenumber with
      | Some n =>
          modify (upd_ist (set_resend_linenumber (Some (n + 1)))) ;;
          current <- gets current_linenumber ;;
          when (opt_Z_eqb (Some (n + 1)) current)
            (modify (upd_ist (set_resend_requested None)) ;;
             modify (upd_ist (set_resend_linenumber None)) ;;
             modify (upd_ist (set_resend_count (Some 0))) ;;
             modify (fun w => set_send_queue (set_resend_active false (send_queue w)) w)) ;;
          ret result
      | None => raise TypeError    (* [None += 1] *)
      end
  end.

Definition _send_same_from_resend : M bool := _send_next_from_resend true.

(** ** State changes (lines 364-405)

    Modelled from the spec: the [state] property belongs to the [Protocol]
    base class.  Section 4.J: a transition runs the entry action of the new
    state, [_on_state_<name>(old_state)]; listeners see
    [on_protocol_state]. *)

Definition credit_set : M unit :=
  modify (fun w => set_clear_to_send (counted_set (clear_to_send w)) w).

Definition credit_clear : M unit :=
  modify (fun w => set_clear_to_send (counted_clear (clear_to_send w)) w).

Definition _on_state_connecting (fuel : nat) (old_state : ProtocolState) : M unit :=
  if negb (state_eqb old_state DISCONNECTED) then ret tt
  else
    hello <- gets (fun w => command_hello (flavor w)) ;;
    match hello with
    | Some h => _send_command fuel (Cmd h) None None None ;; credit_set
    | None => ret tt
    end.

(** The temperature poller is created and started here; what its thread
    does from then on ([poll_temperature], first at once because of
    [run_first=True]) is not followed. *)
Definition _on_state_connected (fuel : nat) (old_state : ProtocolState) : M unit :=
  when (state_eqb old_state CONNECTING)
    (t <- _get_timeout "communication" ;;
     modify (upd_ist (set_timeout (Some t))) ;;
     set_line <- gets (fun w => command_set_line (flavor w) 0) ;;
     _send_command fuel (Cmd set_line) None None None ;;
     credit_set ;;
     modify (set_temperature_poller true)).

Definition _handle_disconnected (old_state : ProtocolState) (error : bool) : M unit :=
  modify (set_temperature_poller false).

Definition _on_state_disconnected (old_state : ProtocolState) : M unit :=
  _handle_disconnected old_state false.

Definition _on_state_disconnected_with_error (old_state : ProtocolState) : M unit :=
  _handle_disconnected old_state true.

Definition assign_state (fuel : nat) (new_state : ProtocolState) : M unit :=
  old_state <- gets state ;;
  modify (set_state new_state) ;;
  notify_listeners "on_protocol_state" "" ;;
  match new_state with
  | CONNECTING => _on_state_connecting fuel old_state
  | CONNECTED => _on_state_connected fuel old_state
  | DISCONNECTED => _on_state_disconnected old_state
  | DISCONNECTED_WITH_ERROR => _on_state_disconnected_with_error old_state
  | _ => ret tt
  end.

(** ** Receiving (lines 504-698, 773-778) *)

Definition _on_comm_any (fuel : nat) : M unit :=
  st <- gets state ;;
  when (state_eqb st CONNECTING)
    (hello <- gets (fun w => command_hello (flavor w)) ;;
     match hello with
     | Some h => _send_command fuel (Cmd h) None None None ;; credit_set
     | None => ret tt
     end).

Definition _finish_heatup : M unit :=
  heating_now <- gets (ist heating) ;;
  when heating_now
    (start <- gets (ist heating_start) ;;
     match start with
     | Some s =>
         if negb (Qeq_bool s 0) then
           now <- monotonic_time ;;
           modify (upd_ist (fun i => set_heating_lost (heating_lost i + (now - s))%Q i)) ;;
           modify (upd_ist (set_heating_start None))
         else ret tt
     | None => ret tt
     end ;;
     modify (upd_ist (set_heating false))).

(** The three-way choice of [consecutive_max] (lines 519-525). *)
Definition consecutive_max (w : World) : Z :=
  if ist long_running_command w then 5
  else if state_in (state w) [PROCESSING; PAUSING; CANCELLING] then 10
  else 15.

(** The chain of cases after the count (lines 531-566); [w] is the object
    as the chain finds it. *)
Definition timeout_recovery (fuel : nat) (max : Z) (w : World) : M unit :=
  if (0 <? max) && (max <? ist timeout_consecutive w) then
    (* too many consecutive timeouts, we give up; TODO implement *)
    ret tt
  else if match ist resend_requested w with Some _ => true | None => false end then
    log_info "Communication timeout during an active resend, resending same line again to trigger response from printer." ;;
    notify_listeners "on_protocol_log" "" ;;
    again <- _send_same_from_resend ;;
    when again credit_set
  else if ist heating w then
    log_info "Timeout while in an active heatup, considering heatup to be over" ;;
    _finish_heatup
  else if ist long_running_command w then
    ret tt
  else if state_in (state w) [PROCESSING; PAUSED] then
    log_info "Communication timeout while printing, trying to trigger response from printer." ;;
    notify_listeners "on_protocol_log_message" "" ;;
    sent <- _send_command fuel (Raw "M105") (Some "temperature") None None ;;
    when sent credit_set
  else if counted_blocked (clear_to_send w) then
    log_info "Communication timeout while idle, trying to trigger response from printer." ;;
    notify_listeners "on_protocol_log_message" "" ;;
    credit_set
  else ret tt.

(** [_on_comm_timeout]; [None] is the bare [return] of the first lines. *)
Definition _on_comm_timeout (fuel : nat) : M (option bool) :=
  st <- gets state ;;
  if negb (state_in st [PROCESSING; PAUSED; CONNECTED]) then ret None
  else
    max <- gets consecutive_max ;;
    modify (upd_ist (fun i => set_timeout_consecutive (timeout_consecutive i + 1) i)) ;;
    w <- gets (fun w => w) ;;
    timeout_recovery fuel max w ;;
    st' <- gets state ;;
    ret (Some (negb (state_eqb st' PROCESSING))).

Definition _on_comm_ok (fuel : nat) : M unit :=
  ignore <- gets (ist ignore_ok) ;;
  if 0 <? ignore then
    modify (upd_ist (set_ignore_ok (ignore - 1))) ;;
    when (ignore - 1 <? 0) (modify (upd_ist (set_ignore_ok 0)))
  else
    st <- gets state ;;
    if state_eqb st CONNECTING then assign_state fuel CONNECTED
    else
      credit_set ;;
      modify (upd_ist (set_long_running_command false)) ;;
      former <- gets (ist former_tool) ;;
      when (truthy former)
        (modify (upd_ist (set_current_tool former)) ;;
         modify (upd_ist (set_former_tool PyNone))) ;;
      _finish_heatup ;;
      st <- gets state ;;
      if negb (state_in st [PROCESSING; CONNECTED; PAUSED]) then ret tt
      else
        requested <- gets (ist resend_requested) ;;
        match requested with
        | Some _ => _send_next_from_resend false ;; ret tt
        | None => _continue_sending fuel ;; ret tt
        end.

Definition _on_comm_ignore_ok : M unit :=
  modify (upd_ist (fun i => set_ignore_ok (ignore_ok i + 1) i)) ;;
  log_info "Ignoring next ok".

Definition _on_comm_wait (fuel : nat) : M unit :=
  st <- gets state ;;
  when (state_eqb st PROCESSING) (_on_comm_ok fuel).

Definition _on_comm_start (fuel : nat) : M unit :=
  st <- gets state ;;
  when (state_eqb st CONNECTING) (assign_state fuel CONNECTED).

Definition _on_error_communication (error_type : string) : M unit :=
  modify (set_last_communication_error (Some error_type)).

Definition log_resends_rate_frame : Q := 60.
Definition log_resends_max : Z := 5.

(** The rate-limited log entry of [_on_comm_resend] (lines 654-666). *)
Definition log_resend_request (linenumber : Z) : M unit :=
  enabled <- gets log_resends ;;
  when enabled
    (now <- monotonic_time ;;
     w <- gets (fun w => w) ;;
     let new_rate_window :=
       match log_resends_rate_start w with
       | None => true
       | Some start =>
           match (start + log_resends_rate_frame ?= now)%Q with Lt => true | _ => false end
       end in
     let in_rate := log_resends_rate_count w <? log_resends_max in
     when (new_rate_window || in_rate)
       (when new_rate_window
          (modify (set_log_resends_rate_start (Some now)) ;;
           modify (set_log_resends_rate_count 0)) ;;
        log_info ("Got a resend request from the printer: requested line = "
                  ++ str_of_int linenumber ++ ", current line = "
                  ++ fmt_line (current_linenumber w)) ;;
        modify (fun w => set_log_resends_rate_count (log_resends_rate_count w + 1) w))).

(** [resend_count < current_linenumber - linenumber - 1]; in Python 2
    [None] is below every integer, and [None - n] raises. *)
Definition stale_resend (linenumber : Z) : M bool :=
  count <- gets (ist resend_count) ;;
  current <- gets current_linenumber ;;
  match current with
  | None => raise TypeError
  | Some c =>
      match count with
      | None => ret true
      | Some k => ret (k <? c - linenumber - 1)
      end
  end.

(** [_on_comm_resend]; the argument is [None] when the flavor's parser found
    no line number. *)
Definition _on_comm_resend (linenumber : option Z) : M unit :=
  match linenumber with
  | None => ret tt
  | Some n =>
      w <- gets (fun w => w) ;;
      if match ist resend_requested w with None => true | Some _ => false end
         && opt_Z_eqb (Some n) (current_linenumber w)
      then ret tt
      else
        let last_error := last_communication_error w in
        modify (set_last_communication_error None) ;;
        stale <-
          (if match last_error with
              | Some e => (e =? "linenumber")%string
              | None => false
              end
              && opt_Z_eqb (Some n) (ist resend_requested w)
           then stale_resend n
           else ret false) ;;
        if stale then
          match ist resend_count w with
          | Some k => modify (upd_ist (set_resend_count (Some (k + 1))))
          | None => raise TypeError    (* [None += 1] *)
          end
        else
          proceed <-
            (if negb (history_contains (Some n) (last_lines w)) then
               log_error ("Printer requested to resend a line we don't have: "
                          ++ str_of_int n) ;;
               busy <- gets _is_busy ;;
               if busy then cancel_processing true [] ;; ret true
               else ret false
             else ret true) ;;
          if negb proceed then ret tt
          else
            modify (upd_ist (set_resend_requested (Some n))) ;;
            modify (upd_ist (set_resend_linenumber (Some n))) ;;
            modify (upd_ist (set_resend_count (Some 0))) ;;
            log_resend_request n ;;
            modify (fun w => set_send_queue (set_resend_active true (send_queue w)) w)
  end.

(** ** The public entry point (lines 329-350)

    [None] is falling off the end of the method. *)
Definition send_commands (fuel : nat) (commands : list CommandArg)
  (command_type : option string) (on_sent : option Callback)
  (tags : option (list string)) (force : bool) : M (option bool) :=
  w <- gets (fun w => w) ;;
  parallel <-
    (if state_eqb (state w) PROCESSING then
       match job w with
       | Some j => ret (runs_parallel j)
       | None => raise AttributeError
       end
     else ret true) ;;
  if state_eqb (state w) PROCESSING && negb parallel && negb force then
    let command_type :=
      if (1 <? List.length commands)%nat then None else command_type in
    match commands with
    | [] => ret None
    | command :: _ =>
        let command :=
          match command with
          | Cmd c => c
          | Raw s => to_command E s command_type tags
          end in
        q <- gets command_queue ;;
        match typed_put (QTuple [ECommand command; ECallback on_sent]) command_type q with
        | Some q' => modify (set_command_queue q') ;; ret (Some true)
        | None => ret (Some false)     (* TypeAlreadyInQueue *)
        end
    end
  else if _is_operational w || force then
    _send_commands fuel commands command_type tags ;;
    ret None
  else ret None.

(** ** The send loop (lines 999-1117) *)

(** [send_with_checksum] (lines 1069-1079). *)
Definition send_with_checksum (command : Command) (w : World) (t : Transport) : bool :=
  if negb (message_integrity t) then
    let command_requiring_checksum :=
      match code_of command with
      | Some code => mem_string code (checksum_requiring_commands (flavor w))
      | None => false
      end in
    let command_allowing_checksum :=
      is_gcode command || unknown_with_checksum (flavor w) in
    let checksum_enabled :=
      always_send_checksum (flavor w)
      || (state_eqb (state w) PROCESSING && negb (never_send_checksum (flavor w))) in
    command_requiring_checksum || (command_allowing_checksum && checksum_enabled)
  else false.

(** Lines 1069-1085: the choice and the write. *)
Definition emit (command : Command) : M unit :=
  w <- gets (fun w => w) ;;
  match transport w with
  | None => raise AttributeError
  | Some t =>
      let command_to_send := encode_ascii_replace (line command) in
      if send_with_checksum command w t then
        _do_increment_and_send_with_checksum command_to_send
      else
        _do_send_without_checksum command_to_send
  end.

(** Lines 1018-1085 for one entry: [None] is one of the [continue]s, else
    the command that went out. *)
Definition _send_loop_emit (fuel : nat) (entry : SendEntry) : M (option Command) :=
  let command := se_command entry in
  match se_linenumber entry with
  | Some n =>
      _do_send_with_checksum (line command) (Some n) ;;
      ret (Some command)
  | None =>
      first <-
        (if negb (se_processed entry) then
           results <- process_command_phase (handlers_gcode fuel) "sending" command ;;
           match results with
           | [] => _continue_sending fuel ;; ret None
           | [c] => ret (Some c)
           | _ => raise AssertionError
           end
         else ret (Some command)) ;;
      match first with
      | None => ret None
      | Some command =>
          if (py_strip (line command) =? "")%string then
            log_info "Refusing to send an empty line to the printer" ;;
            _continue_sending fuel ;;
            ret None
          else if is_atcommand command then
            process_command_phase (handlers_gcode fuel) "sending" command ;;
            _continue_sending fuel ;;
            ret None
          else
            emit command ;;
            ret (Some command)
      end
  end.

(** Lines 1087-1106: the [on_sent] callback, the [sent] phase and the
    credit. *)
Definition _send_loop_sent (fuel : nat) (entry : SendEntry) (command : Command)
  : M unit :=
  match se_on_sent entry with
  | Some cb => modify (fun w => set_events (events w ++ [OnSent cb])%list w)
  | None => ret tt
  end ;;
  process_command_phase (handlers_gcode fuel) "sent" command ;;
  requires_ack <- gets (fun w => unknown_requires_ack (flavor w)) ;;
  let use_up_clear := if is_gcode command then true else requires_ack in
  if use_up_clear then credit_clear
  else _continue_sending fuel ;; ret tt.

(** One pass through the body of the [while] loop, from a successful
    [get()] to the next [wait()]; the result tells whether the loop goes
    on. *)
Definition _send_loop_step (fuel : nat) : M bool :=
  active <- gets send_queue_active ;;
  if negb active then
    notify_listeners "on_protocol_log" "Closing down send loop" ;;
    ret false
  else
    q <- gets send_queue ;;
    match send_queue_get q with
    | None => ret true        (* [get()] blocks *)
    | Some (entry, q') =>
        modify (set_send_queue q') ;;
        still_active <- gets send_queue_active ;;
        if negb still_active then
          notify_listeners "on_protocol_log" "Closing down send loop" ;;
          ret false
        else
        try_except
          (sent <- _send_loop_emit fuel entry ;;
           match sent with
           | None => ret tt
           | Some command => _send_loop_sent fuel entry command
           end)
          (fun _ => log_exception "Caught an exception in the send loop") ;;
        ret true
    end.

(** ** The operations of the engine

    [OpSendCommands] is the public [send_commands]; [OpHelper] stands for
    [move], [home], [change_tool], the [set_*] methods and the file
    streaming methods (lines 255-324), each of which hands the commands of
    the flavor to [_send_commands]; the [OpComm*] and
    [OpErrorCommunication] are the handlers the receiving side calls;
    [OpSendLoop] is one pass of the send loop. *)

Inductive Op : Type :=
| OpSendCommands (commands : list CommandArg) (command_type : option string)
    (on_sent : option Callback) (tags : option (list string)) (force : bool)
| OpHelper (commands : list CommandArg) (tags : option (list string))
| OpCommAny
| OpCommOk
| OpCommWait
| OpCommStart
| OpCommIgnoreOk
| OpCommResend (linenumber : option Z)
| OpCommTimeout
| OpErrorCommunication (error_type : string)
| OpSendLoop.

Definition run_op (fuel : nat) (op : Op) : M unit :=
  match op with
  | OpSendCommands commands command_type on_sent tags force =>
      send_commands fuel commands command_type on_sent tags force ;; ret tt
  | OpHelper commands tags => _send_commands fuel commands None tags ;; ret tt
  | OpCommAny => _on_comm_any fuel
  | OpCommOk => _on_comm_ok fuel
  | OpCommWait => _on_comm_wait fuel
  | OpCommStart => _on_comm_start fuel
  | OpCommIgnoreOk => _on_comm_ignore_ok
  | OpCommResend linenumber => _on_comm_resend linenumber
  | OpCommTimeout => _on_comm_timeout fuel ;; ret tt
  | OpErrorCommunication error_type => _on_error_communication error_type
  | OpSendLoop => _send_loop_step fuel ;; ret tt
  end.

End Engine.

(** ** A concrete setting for the worked examples *)

Module Example.

(** [int()] on a string of decimal digits with an optional minus sign. *)
Definition int_of_decimal (s : string) : option Z :=
  match NilZero.int_of_string s with
  | Some d => Some (Z.of_int d)
  | None => None
  end.

Definition gcode (code : string) (l : string) (attrs : list (string * PyVal)) : Command :=
  mkCommand (GcodeCommand code PyNone attrs) l None None.

Definition is_digit (c : ascii) : bool :=
  let n := nat_of_ascii c in ((48 <=? n) && (n <=? 57))%nat.

Fixpoint span_digits (s : string) : string * string :=
  match s with
  | String c s' =>
      if is_digit c then let (d, r) := span_digits s' in (String c d, r)
      else (EmptyString, s)
  | EmptyString => (EmptyString, EmptyString)
  end.

(** The words of a line, [cur] being the word read so far. *)
Fixpoint split_spaces (s cur : string) : list string :=
  match s with
  | EmptyString => if (cur =? "")%string then [] else [cur]
  | String c s' =>
      if is_space c then
        if (cur =? "")%string then split_spaces s' "" else cur :: split_spaces s' ""
      else split_spaces s' (cur ++ String c "")
  end.

Definition lower (c : ascii) : ascii :=
  let n := nat_of_ascii c in
  if ((65 <=? n) && (n <=? 90))%nat then ascii_of_nat (n + 32) else c.

(** [X10] gives the attribute [x] with the value ["10"]. *)
Definition attr_of_word (word : string) : list (string * PyVal) :=
  match word with
  | String c v => [(String (lower c) "", PyStr v)]
  | EmptyString => []
  end.

(** Modelled from the spec: the factory [to_command] belongs to the
    [commands] package, which is not part of the sources at hand.  Section
    4.A: a raw line is parsed for a leading G, M or T token; section 3: the
    parameters map a letter to a string, and a line starting with [@] is an
    at-command. *)
Definition to_command0 (l : string) (ty : option string) (tg : option (list string))
  : Command :=
  let words := split_spaces l "" in
  let kind :=
    match l with
    | String "@" rest =>
        match split_spaces rest "" with
        | name :: params => AtCommand name (String.concat " " params)
        | [] => Generic
        end
    | String c rest =>
        let (digits, _) := span_digits rest in
        if (digits =? "")%string then Generic
        else if (Ascii.eqb c "G" || Ascii.eqb c "M")%bool then
          GcodeCommand (String c digits) PyNone (flat_map attr_of_word (tl words))
        else if Ascii.eqb c "T" then
          GcodeCommand "T" PyNone [("tool", PyStr digits)]
        else Generic
    | EmptyString => Generic
    end in
  mkCommand kind l ty tg.

(** Modelled from the spec: the job control of the [Protocol] base class
    is not part of the sources at hand.  Section 4.J: pausing and
    cancelling leave [PROCESSING] for [PAUSING] and [CANCELLING], resuming
    leaves [PAUSED] for [RESUMING]. *)
Definition env0 : Env :=
  mkEnv int_of_decimal
        (fun s => match int_of_decimal s with Some z => Some (inject_Z z) | None => None end)
        to_command0
        (fun s j => (if state_eqb s PROCESSING then PAUSING else s, j))
        (fun _ s j => (if state_in s [PROCESSING; PAUSED] then CANCELLING else s, j))
        (fun s j => (if state_eqb s PAUSED then RESUMING else s, j)).

Definition M0 : Command := gcode "M0" "M0" [].
Definition M105 : Command := gcode "M105" "M105" [].
Definition M112 : Command := gcode "M112" "M112" [].
Definition M25 : Command := gcode "M25" "M25" [].
Definition G28 : Command := gcode "G28" "G28" [].
Definition M109_T1 : Command :=
  gcode "M109" "M109 T1 S200" [("t", PyInt 1); ("s", PyInt 200)].

Definition flavor0 : Flavor :=
  mkFlavor [] [] false false false false None
           (fun n => gcode "M110" ("M110 N" ++ str_of_int n) [("n", PyInt n)])
           M112 M25
           (fun i => gcode "M155" ("M155 S" ++ str_of_int i) [("s", PyInt i)])
           (fun i => gcode "M27" ("M27 S" ++ str_of_int i) [("s", PyInt i)]).

(** [self._internal_state] as [__init__] leaves it. *)
Definition internal_state0 : InternalState :=
  mkInternalState [] None None 0 false false (PyInt 0) (PyInt 0) PyNone false
                  None None None false false true 0 None 0 [].

(** The object as [__init__] leaves it, with an open transport, the send
    loop running, the temperature poller started and one credit: connected
    and idle. *)
Definition idle : World :=
  mkWorld CONNECTED None flavor0
          [("connection", 30%Q); ("communication", 10%Q)]
          internal_state0 [] 1 (mkSendQueue [] [] false) (Some 1) [] None
          [("queuing", []); ("queued", []); ("sending", []); ("sent", [])]
          [("queuing", []); ("sending", [])]
          true None 0 true true (Some (mkTransport true false [])) [] [] 0.

Definition file_job (lines : list JobLine) : Job :=
  mkJob LocalGcodeFilePrintjob true false 0 0 0 lines.

(** Printing a local file whose lines are [lines]. *)
Definition printing (lines : list JobLine) : World :=
  set_job (Some (file_job lines)) (set_state PROCESSING idle).

(** [n] times the same step. *)
Fixpoint times {A : Type} (n : nat) (m : M A) : M unit :=
  match n with
  | O => ret tt
  | S n' => bind m (fun _ => times n' m)
  end.

End Example.

(** * Properties of the engine *)

(** ** Vocabulary *)

(** The XOR of the bytes of a string, byte by byte from the left end of the
    string to the right. *)
Fixpoint xor_bytes (s : string) : Z :=
  match s with
  | EmptyString => 0
  | String c s' => Z.lxor (Z.of_N (N_of_ascii c)) (xor_bytes s')
  end.

(** The line [_do_send_with_checksum] puts together for line [l] and line
    number [n]. *)
Definition checksummed (l : string) (n : Z) : string :=
  let payload := "N" ++ str_of_int n ++ " " ++ l in
  payload ++ "*" ++ str_of_int (xor_bytes payload) ++ LF.

(** The computation came back: it returned or raised. *)
Definition returned {A : Type} (r : Res A) : Prop :=
  match r with
  | OutOfFuel _ => False
  | _ => True
  end.

(** [stable strict R m]: whatever [m] does to a world, the world it leaves
    is [R]-related to the one it found; when [strict], [m] also comes
    back. *)
Definition stable (strict : bool) (R : World -> World -> Prop) {A : Type}
  (m : M A) : Prop :=
  forall w, R w (final (m w)) /\ (strict = true -> returned (m w)).

(** A handler table all of whose entries are stable. *)
Definition stable_table (strict : bool) (R : World -> World -> Prop)
  (table : list (string * Handler)) : Prop :=
  forall name handler command,
    assoc name table = Some handler -> stable strict R (handler command).

(** The log entry [_gcode_M110_sending] writes. *)
Definition is_m110_log (e : LogEntry) : bool :=
  match e with
  | LogInfo msg => String.prefix "M110 detected" msg
  | _ => false
  end.

(** How often a line reset has been handled so far. *)
Definition m110_count (w : World) : nat :=
  List.length (filter is_m110_log (logged w)).

(** The order on line counters: an unset counter stays unset. *)
Definition line_le (a b : option Z) : Prop :=
  match a, b with
  | Some x, Some y => x <= y
  | None, None => True
  | _, _ => False
  end.

(** The line counter does not go down unless a line reset was handled. *)
Definition line_order (w w' : World) : Prop :=
  (m110_count w <= m110_count w')%nat
  /\ (m110_count w = m110_count w' ->
      line_le (current_linenumber w) (current_linenumber w')).

(** The line number an [M110] asks for: the value of its [N] parameter, 0
    when there is none. *)
Definition requested_line (E : Env) (c : Command) : option Z :=
  if truthy (attr c "n") then
    match attr c "n" with
    | PyInt z => Some z
    | PyStr s => int_of_str E s
    | PyNone => None
    end
  else Some 0.

(** The line reset is atomic for an operation [other] of another thread
    when letting [other] run between the release of [_line_mutex] and line
    1368 ends as one of the two orders of the handler and [other] does. *)
Definition line_reset_atomic (E : Env) (command : Command) (other : M unit)
  (w : World) : Prop :=
  let mixed := final (M110_with_a_thread_in_between E command other w) in
  mixed = final ((_gcode_M110_sending E command ;; other) w)
  \/ mixed = final ((other ;; _gcode_M110_sending E command) w).

(** The line counter is left alone. *)
Definition keeps_line (w w' : World) : Prop :=
  current_linenumber w' = current_linenumber w.

(** The count of consecutive timeouts is left alone. *)
Definition keeps_timeouts (w w' : World) : Prop :=
  ist timeout_consecutive w' = ist timeout_consecutive w.

(** [s] ends with the characters of [suffix]. *)
Fixpoint is_prefix (p l : list ascii) : bool :=
  match p, l with
  | [], _ => true
  | a :: p', b :: l' => Ascii.eqb a b && is_prefix p' l'
  | _ :: _, [] => false
  end.

Definition ends_with (suffix s : string) : bool :=
  is_prefix (rev (list_ascii_of_string suffix)) (rev (list_ascii_of_string s)).

(** A relation on worlds that only looks at the log, the line counter and
    the count of consecutive timeouts, and does not mind log entries other
    than the one of a line reset. *)
Class Tolerant (R : World -> World -> Prop) : Prop := {
  tolerant_refl : forall w, R w w;
  tolerant_trans : forall a b c, R a b -> R b c -> R a c;
  tolerant_frame : forall w w',
    logged w' = logged w ->
    current_linenumber w' = current_linenumber w ->
    ist timeout_consecutive w' = ist timeout_consecutive w ->
    R w w';
  tolerant_log : forall w e,
    is_m110_log e = false -> R w (set_logged (logged w ++ [e])%list w)
}.

(** ** Messages of the printer (lines 702-717, 735-744, 1446-1460) *)

(** [range(n)] *)
Definition py_range (n : Z) : list Z := map Z.of_nat (seq 0 (Z.to_nat n)).

(** [potential_tools]: ["T0"] to ["T<max_tool_num>"] for the tools and
    ["B"] for the bed, each with the key it has in [temperatures]. *)
Definition potential_tools (max_tool_num : Z) : list (string * string) :=
  (map (fun x => (("T" ++ str_of_int x)%string, ("tool" ++ str_of_int x)%string))
       (py_range (max_tool_num + 1))
   ++ [("B", "bed")])%list.

(** The loop over [potential_tools] (lines 711-715). *)
Fixpoint set_reported (tools : list (string * string))
  (temperatures : list (string * (option Q * option Q))) : M unit :=
  match tools with
  | [] => ret tt
  | (tool_rep, tool) :: rest =>
      match assoc tool_rep temperatures with
      | None => ret tt             (* [continue] *)
      | Some (actual, target) => _set_temperature tool actual target
      end ;;
      set_reported rest temperatures
  end.

Definition _on_message_temperature (max_tool_num : Z)
  (temperatures : list (string * (option Q * option Q))) (heatup_detected : bool)
  : M unit :=
  when heatup_detected
    (modify (upd_ist (set_heating true)) ;;
     now <- monotonic_time ;;
     modify (upd_ist (set_heatup_start (Some now)))) ;;
  set_reported (potential_tools max_tool_num) temperatures ;;
  notify_listeners "on_protocol_temperature" "".

(** [int(x)] of a float: towards zero. *)
Definition py_int_of_float (q : Q) : Z := Z.quot (Qnum q) (Zpos (Qden q)).

(** [self._capability_support] as [__init__] leaves it; nothing changes it. *)
Definition capability_support : list (string * bool) :=
  [(CAPABILITY_AUTOREPORT_TEMP, true)].

Section Autoreport.

Variable E : Env.

(** [self.interval], the dictionary of the intervals [__init__] is given. *)
Variable interval : list (string * Q).

Definition _set_autoreport_temperature_interval (fuel : nat) (given : option Z)
  : M unit :=
  let i :=
    match given with
    | Some i => i
    | None =>
        match assoc "temperature_autoreport" interval with
        | Some q => py_int_of_float q
        | None => 2
        end
    end in
  command <- gets (fun w => command_autoreport_temperature (flavor w) i) ;;
  send_commands E fuel [Cmd command] None None None false ;;
  ret tt.

Definition _set_autoreport_sdstatus_interval (fuel : nat) (given : option Z)
  : M unit :=
  let i :=
    match given with
    | Some i => i
    | None =>
        match assoc "sd_status_autoreport" interval with
        | Some q => py_int_of_float q
        | None => 1
        end
    end in
  command <- gets (fun w => command_autoreport_sd_status (flavor w) i) ;;
  send_commands E fuel [Cmd command] None None None false ;;
  ret tt.

Definition _on_message_firmware_capability (fuel : nat) (cap : string)
  (enabled : bool) : M unit :=
  modify (upd_ist (fun i =>
    set_firmware_capabilities (assoc_set cap enabled (firmware_capabilities i)) i)) ;;
  if match assoc cap capability_support with Some b => b | None => false end then
    if (cap =? CAPABILITY_AUTOREPORT_TEMP)%string && enabled then
      log_info "Firmware states that it supports temperature autoreporting" ;;
      _set_autoreport_temperature_interval fuel None
    else if (cap =? CAPABILITY_AUTOREPORT_SD_STATUS)%string && enabled then
      log_info "Firmware states that it supports sd status autoreporting" ;;
      _set_autoreport_sdstatus_interval fuel None
    else ret tt
  else ret tt.

End Autoreport.

(** ** More vocabulary *)

(** The history holds only line numbers below the line counter. *)
Definition history_below (w : World) : Prop :=
  forall c, current_linenumber w = Some c ->
    Forall (fun e => exists k, fst e = Some k /\ k < c) (last_lines w).

(** What every operation but a pass of the send loop respects: the
    transport is not touched; the history and the line counter stay as
    they are, unless the history is emptied; both
    tracks of the send queue keep what they hold, in order, and grow at the
    tail only; credit is granted, up to the maximum, but not used up; the
    heat-up accounting does not move while no heat-up start is on record;
    and what the firmware said it can do stays on record. *)
Definition quiet (w w' : World) : Prop :=
  transport w' = transport w
  /\ ((last_lines w' = last_lines w
       /\ current_linenumber w' = current_linenumber w)
      \/ last_lines w' = [])
  /\ (exists extra,
         sq_send (send_queue w') = (sq_send (send_queue w) ++ extra)%list)
  /\ (exists extra,
         sq_resend (send_queue w') = (sq_resend (send_queue w) ++ extra)%list)
  /\ (clear_to_send w <= counted_max ->
      clear_to_send w <= clear_to_send w' <= counted_max)
  /\ (ist heating_start w = None ->
      ist heating_start w' = None /\ ist heating_lost w' = ist heating_lost w)
  /\ ist firmware_capabilities w' = ist firmware_capabilities w.

(** No heat-up start comes on record and the time lost to heat-ups stays
    what it is. *)
Definition heat_kept (w w' : World) : Prop :=
  ist heating_start w = None ->
  ist heating_start w' = None /\ ist heating_lost w' = ist heating_lost w.

(** The history holds consecutive line numbers, in order, the first of
    them being [n]. *)
Fixpoint numbered_from (n : Z) (h : LineHistory) : Prop :=
  match h with
  | [] => True
  | (k, _) :: h' => k = Some n /\ numbered_from (n + 1) h'
  end.

(** The history holds the lines sent last, without a gap: consecutive
    line numbers that end just below the line counter. *)
Definition history_contiguous (w : World) : Prop :=
  forall c, current_linenumber w = Some c ->
    numbered_from (c - Z.of_nat (List.length (last_lines w))) (last_lines w).

(** The history stays without a gap. *)
Definition contiguous_kept (w w' : World) : Prop :=
  history_contiguous w -> history_contiguous w'.

(** The lines the history holds from line number [n] on. *)
Definition lines_from (n : Z) (w : World) : list string :=
  match current_linenumber w with
  | Some c =>
      skipn (List.length (last_lines w) - Z.to_nat (c - n)) (map snd (last_lines w))
  | None => []
  end.

(** At most [n] lines went out. *)
Definition wrote (n : nat) (w w' : World) : Prop :=
  exists ls, wire w' = (wire w ++ ls)%list /\ (List.length ls <= n)%nat.

(** A reflexive and transitive relation on worlds. *)
Class Ordered (R : World -> World -> Prop) : Prop := {
  ordered_refl : forall w, R w w;
  ordered_trans : forall a b c, R a b -> R b c -> R a c
}.

(** The value a computation returns, if it returns, satisfies [P]. *)
Definition yields {A : Type} (P : A -> Prop) (m : M A) : Prop :=
  forall w, match m w with Ok a _ => P a | _ => True end.

(** A handler result that stands for at most one command. *)
Definition at_most_one (r : HandlerResult) : Prop :=
  match r with
  | HNone => True
  | HEntries l => (List.length (somes l) <= 1)%nat
  end.

(** The entries that repeat [lines] under the numbers [n], [n + 1], ...:
    [(Command(line), linenumber, None, True)], untyped. *)
Fixpoint resend_entries (n : Z) (lines : list string)
  : list (SendEntry * option string) :=
  match lines with
  | [] => []
  | l :: rest =>
      (mkSendEntry (Command_of_line l) (Some n) None true, None)
        :: resend_entries (n + 1) rest
  end.

(** The history holds [lines] under the numbers [n], [n + 1], ... *)
Fixpoint holds_from (n : Z) (lines : list string) (h : LineHistory) : Prop :=
  match lines with
  | [] => True
  | l :: rest => history_get (Some n) h = Some l /\ holds_from (n + 1) rest h
  end.

(** A handler table all of whose entries stand for at most one command. *)
Definition table_yields (table : list (string * Handler)) : Prop :=
  forall name handler command,
    assoc name table = Some handler -> yields at_most_one (handler command).

(** A reading laid over what is known of a tool: a half the reading leaves
    out keeps the value on record. *)
Definition reading_over (old : option (option Q * option Q))
  (new : option Q * option Q) : option Q * option Q :=
  (match fst new, old with
   | None, Some (a, _) => a
   | a, _ => a
   end,
   match snd new, old with
   | None, Some (_, t) => t
   | t, _ => t
   end).

(** Ordinary sending is held back: no line is read from the job, nothing is
    taken from the command queue and nothing is put on the send track. *)
Definition holds_back (w w' : World) : Prop :=
  job w' = job w
  /\ command_queue w' = command_queue w
  /\ sq_send (send_queue w') = sq_send (send_queue w).

(** What the at-command hooks of a phase leave in the log: one entry for
    each hook that raises, in the order of the hooks. *)
Definition atcommand_hook_errors (hooks : list (string * AtcommandHook))
  (phase atcommand : string) (c : Command) : list LogEntry :=
  flat_map (fun h : string * AtcommandHook =>
              if snd h phase c then []
              else [LogException ("Error while processing hook " ++ fst h
                                  ++ " for phase " ++ phase ++ " and command "
                                  ++ atcommand ++ ":")])
           hooks.

(** [k] calls of the same operation, with what each of them returned. *)
Fixpoint calls {A : Type} (k : nat) (m : M A) : M (list A) :=
  match k with
  | O => ret []
  | S k' => r <- m ;; rs <- calls k' m ;; ret (r :: rs)
  end.

(** ** The wire format of checksummed lines *)

Lemma append_assoc (a b c : string) : ((a ++ b) ++ c = a ++ (b ++ c))%string.
Proof.
  induction a as [|x a IH]; simpl; [reflexivity|now rewrite IH].
Qed.

Lemma checksum_of_acc (l : list ascii) (acc : Z) :
  fold_left (fun a c => Z.lxor a (Z.of_N (N_of_ascii c))) l acc
  = Z.lxor acc (xor_bytes (string_of_list_ascii l)).
Proof.
  revert acc; induction l as [|c l IH]; intro acc; simpl.
  - now rewrite Z.lxor_0_r.
  - now rewrite IH, Z.lxor_assoc.
Qed.

Lemma checksum_of_xor_bytes (s : string) : checksum_of s = xor_bytes s.
Proof.
  unfold checksum_of.
  now rewrite checksum_of_acc, Z.lxor_0_l, string_of_list_ascii_of_string.
Qed.

Lemma lxor_byte (a b : Z) : 0 <= a < 256 -> 0 <= b < 256 -> 0 <= Z.lxor a b < 256.
Proof.
  intros Ha Hb.
  assert (H0 : 0 <= Z.lxor a b) by (apply Z.lxor_nonneg; lia).
  split; [exact H0|].
  destruct (Z.eq_dec (Z.lxor a b) 0) as [->|Hne]; [lia|].
  change 256 with (2 ^ 8).
  apply Z.log2_lt_pow2; [lia|].
  pose proof (Z.log2_lxor a b (proj1 Ha) (proj1 Hb)) as Hl.
  assert (La : Z.log2 a < 8).
  { destruct (Z.eq_dec a 0) as [->|]; [simpl; lia|].
    apply Z.log2_lt_pow2; [lia|]. change (2 ^ 8) with 256. lia. }
  assert (Lb : Z.log2 b < 8).
  { destruct (Z.eq_dec b 0) as [->|]; [simpl; lia|].
    apply Z.log2_lt_pow2; [lia|]. change (2 ^ 8) with 256. lia. }
  lia.
Qed.

Lemma xor_bytes_byte (s : string) : 0 <= xor_bytes s < 256.
Proof.
  induction s as [|c s IH]; simpl; [lia|].
  apply lxor_byte; [|exact IH].
  pose proof (N_ascii_bounded c). lia.
Qed.

Lemma str_of_int_roundtrip (z : Z) :
  Example.int_of_decimal (str_of_int z) = Some z.
Proof.
  unfold Example.int_of_decimal, str_of_int.
  rewrite NilZero.isi.
  - now rewrite DecimalZ.of_to.
  - destruct z; simpl; try discriminate.
    intro H; injection H as H. now apply DecimalPos.Unsigned.to_uint_nonnil in H.
  - destruct z; simpl; try discriminate.
    intro H; injection H as H. now apply DecimalPos.Unsigned.to_uint_nonnil in H.
Qed.

Lemma do_send_with_checksum_effect (l : string) (n : Z) (w : World) (t : Transport) :
  transport w = Some t ->
  _do_send_with_checksum l (Some n) w
  = Ok tt (set_transport
             (Some (mkTransport (t_active t) (message_integrity t)
                                (written t ++ [checksummed l n])%list)) w).
Proof.
  intro Ht. unfold _do_send_with_checksum, _do_send_without_checksum, checksummed.
  rewrite Ht, checksum_of_xor_bytes. now rewrite !append_assoc.
Qed.

Lemma do_increment_effect (l : string) (n : Z) (w : World) (t : Transport) :
  transport w = Some t -> current_linenumber w = Some n ->
  _do_increment_and_send_with_checksum l w
  = Ok tt (set_transport
             (Some (mkTransport (t_active t) (message_integrity t)
                                (written t ++ [checksummed l n])%list))
             (set_current_linenumber (Some (n + 1))
                (set_last_lines (history_append l (Some n) (last_lines w)) w))).
Proof.
  intros Ht Hn.
  unfold _do_increment_and_send_with_checksum, bind, gets, _add_to_last_lines, modify.
  rewrite Hn. now rewrite (@do_send_with_checksum_effect l n _ t).
Qed.

(** C4.  A checksummed line goes out as [N<line_number> <line>*<checksum>]
    and a line feed, where the checksum is the decimal numeral of the XOR of
    the bytes of [N<line_number> <line>]; the checksum is a byte, and the
    numeral reads back as that byte.  The same holds for the line that
    [_do_increment_and_send_with_checksum] numbers itself. *)
Theorem checksummed_line_format :
  forall (l : string) (n : Z) (w : World) (t : Transport),
    transport w = Some t ->
    let payload := "N" ++ str_of_int n ++ " " ++ l in
    let c := xor_bytes payload in
    let sent := payload ++ "*" ++ str_of_int c ++ LF in
    _do_send_with_checksum l (Some n) w
    = Ok tt (set_transport
               (Some (mkTransport (t_active t) (message_integrity t)
                                  (written t ++ [sent])%list)) w)
    /\ 0 <= c < 256
    /\ Example.int_of_decimal (str_of_int c) = Some c
    /\ (current_linenumber w = Some n ->
        wire (final (_do_increment_and_send_with_checksum l w))
        = (written t ++ [sent])%list).
Proof.
  intros l n w t Ht payload c sent.
  split; [now apply do_send_with_checksum_effect|].
  split; [apply xor_bytes_byte|].
  split; [apply str_of_int_roundtrip|].
  intro Hn. now rewrite (@do_increment_effect l n w t Ht Hn).
Qed.

Lemma checksummed_line_format_witness :
  transport Example.idle = Some (mkTransport true false [])
  /\ _do_send_with_checksum "G28" (Some 1) Example.idle
     = Ok tt (set_transport
                (Some (mkTransport true false ["N1 G28*18" ++ LF])) Example.idle).
Proof.
  split; [reflexivity|].
  exact (proj1 (checksummed_line_format "G28" 1 Example.idle eq_refl)).
Defined.

(** ** Reasoning about the monad *)

Section StableRules.

Context {R : World -> World -> Prop} {T : Tolerant R}.
Variable strict : bool.

Lemma stable_ret {A : Type} (a : A) : stable strict R (ret a).
Proof. intro w; simpl; split; [apply tolerant_refl|auto]. Qed.

Lemma stable_raise {A : Type} (e : PyExc) : stable strict R (@raise A e).
Proof. intro w; simpl; split; [apply tolerant_refl|auto]. Qed.

Lemma stable_gets {A : Type} (f : World -> A) : stable strict R (gets f).
Proof. intro w; simpl; split; [apply tolerant_refl|auto]. Qed.

Lemma stable_modify (f : World -> World) :
  (forall w, R w (f w)) -> stable strict R (modify f).
Proof. intros H w; simpl; auto. Qed.

Lemma stable_bind {A B : Type} (m : M A) (k : A -> M B) :
  stable strict R m -> (forall a, stable strict R (k a)) ->
  stable strict R (bind m k).
Proof.
  intros Hm Hk w. unfold bind.
  destruct (Hm w) as [HR Hret].
  destruct (m w) as [a w'|e w'|w'] eqn:Em; simpl in *; auto.
  destruct (Hk a w') as [HR' Hret']. split; [|exact Hret'].
  eapply tolerant_trans; eassumption.
Qed.

Lemma stable_try_except {A : Type} (m : M A) (h : PyExc -> M A) :
  stable strict R m -> (forall e, stable strict R (h e)) ->
  stable strict R (try_except m h).
Proof.
  intros Hm Hh w. unfold try_except.
  destruct (Hm w) as [HR Hret].
  destruct (m w) as [a w'|e w'|w'] eqn:Em; simpl in *; auto.
  destruct (Hh e w') as [HR' Hret']. split; [|exact Hret'].
  eapply tolerant_trans; eassumption.
Qed.

Lemma stable_when (b : bool) (m : M unit) :
  stable strict R m -> stable strict R (when b m).
Proof. intro H; destruct b; simpl; [exact H|apply stable_ret]. Qed.

Lemma stable_log_info (msg : string) :
  String.prefix "M110 detected" msg = false -> stable strict R (log_info msg).
Proof. intro H. apply stable_modify. intro w. now apply tolerant_log. Qed.

Lemma stable_log_error (msg : string) : stable strict R (log_error msg).
Proof. apply stable_modify. intro w. now apply tolerant_log. Qed.

Lemma stable_log_exception (msg : string) : stable strict R (log_exception msg).
Proof. apply stable_modify. intro w. now apply tolerant_log. Qed.

End StableRules.

Lemma stable_out_of_fuel {R : World -> World -> Prop} {T : Tolerant R} {A : Type} :
  stable false R (@out_of_fuel A).
Proof. intro w; simpl; split; [apply tolerant_refl|discriminate]. Qed.

Lemma stable_weaken {R : World -> World -> Prop} {A : Type} (strict : bool) (m : M A) :
  stable true R m -> stable strict R m.
Proof. intros H w; destruct (H w); split; auto. Qed.

Create HintDb stable_db.

(** One step through a monadic term: split a bind, decide a test, or close
    the goal with a rule; [side] proves what a [modify] asks for. *)
Ltac stable_step side :=
  lazymatch goal with
  | |- stable _ _ (bind _ _) => apply stable_bind; [ | intro]
  | |- stable _ _ (ret _) => apply stable_ret
  | |- stable _ _ (raise _) => apply stable_raise
  | |- stable _ _ (gets _) => apply stable_gets
  | |- stable _ _ monotonic_time => apply stable_gets
  | |- stable _ _ (modify _) => apply stable_modify; intro; side
  | |- stable _ _ (when _ _) => apply stable_when
  | |- stable _ _ (try_except _ _) => apply stable_try_except; [ | intro]
  | |- stable _ _ (log_info _) => apply stable_log_info; reflexivity
  | |- stable _ _ (log_error _) => apply stable_log_error
  | |- stable _ _ (log_exception _) => apply stable_log_exception
  | |- stable false _ out_of_fuel => apply stable_out_of_fuel
  | |- stable _ _ (if ?b then _ else _) => destruct b
  | |- stable _ _ (match ?x with _ => _ end) => destruct x
  | |- stable _ _ (let (_, _) := ?x in _) => destruct x
  end.

Ltac framed := apply tolerant_frame; reflexivity.

Ltac stable_auto side :=
  repeat first [ solve [eauto with stable_db] | stable_step side ].

(** ** What sending a command leaves alone *)

Section Tolerance.

Context {R : World -> World -> Prop} {T : Tolerant R}.
Variable strict : bool.
Variable E : Env.

Lemma stable_notify_listeners (name arg : string) :
  stable strict R (notify_listeners name arg).
Proof. unfold notify_listeners. stable_auto framed. Qed.

Lemma stable_credit_set : stable strict R credit_set.
Proof. unfold credit_set. stable_auto framed. Qed.

Lemma stable_credit_clear : stable strict R credit_clear.
Proof. unfold credit_clear. stable_auto framed. Qed.

Lemma stable__enqueue_for_sending c n cb p r :
  stable strict R (_enqueue_for_sending c n cb p r).
Proof.
  intro w. unfold _enqueue_for_sending.
  destruct (send_queue_put _ _ _ _); simpl; split; auto;
    try apply tolerant_refl; framed.
Qed.

Lemma stable__do_send_without_checksum data :
  stable strict R (_do_send_without_checksum data).
Proof.
  intro w. unfold _do_send_without_checksum.
  destruct (transport w); simpl; split; auto; try apply tolerant_refl; framed.
Qed.

Lemma stable__do_send_with_checksum l n :
  stable strict R (_do_send_with_checksum l n).
Proof. unfold _do_send_with_checksum. apply stable__do_send_without_checksum. Qed.

Lemma stable__add_to_last_lines c n : stable strict R (_add_to_last_lines c n).
Proof. unfold _add_to_last_lines. stable_auto framed. Qed.

Lemma stable_py_int v : stable strict R (py_int E v).
Proof. unfold py_int. stable_auto framed. Qed.

Lemma stable_py_float v : stable strict R (py_float E v).
Proof. unfold py_float. stable_auto framed. Qed.

Lemma stable_run_hook name hook phase results :
  stable strict R (run_hook name hook phase results).
Proof.
  induction results as [|c rest IH]; simpl; stable_auto framed.
Qed.

Lemma stable_run_hooks hooks phase results :
  stable strict R (run_hooks hooks phase results).
Proof.
  revert results; induction hooks as [|[name hook] hooks IH]; intro results; simpl.
  - stable_auto framed.
  - apply stable_bind; [apply stable_run_hook|intro a].
    destruct (is_nil a); [apply stable_ret|apply IH].
Qed.

Lemma stable_hooks_for phase : stable strict R (hooks_for phase).
Proof.
  intro w. unfold hooks_for.
  destruct (assoc phase (gcode_hooks w)); simpl; split; auto; apply tolerant_refl.
Qed.

Lemma stable_run_gcode_handlers table phase results :
  stable_table strict R table ->
  stable strict R (run_gcode_handlers table phase results).
Proof.
  intro Ht. induction results as [|c rest IH]; simpl; [apply stable_ret|].
  apply stable_bind.
  - destruct (code_of c) as [code|]; [|apply stable_ret].
    destruct (assoc _ table) as [h|] eqn:Eh; [|apply stable_ret].
    apply stable_bind; [eapply Ht; eassumption|intro; apply stable_ret].
  - intro a. apply stable_bind; [exact IH|intro; apply stable_ret].
Qed.

Lemma stable_run_phase_handler (handler : Handler) results :
  (forall c, stable strict R (handler c)) ->
  stable strict R (run_phase_handler handler results).
Proof.
  intro Hh. induction results as [|c rest IH]; simpl; [apply stable_ret|].
  apply stable_bind; [apply Hh|intro].
  apply stable_bind; [exact IH|intro; apply stable_ret].
Qed.

Lemma stable__process_command_phase hg hp phase c :
  stable_table strict R hg -> stable_table strict R hp ->
  stable strict R (_process_command_phase hg hp phase c).
Proof.
  intros Hg Hp. unfold _process_command_phase.
  destruct (negb _); [apply stable_ret|].
  apply stable_bind; [apply stable_hooks_for|intro hooks].
  apply stable_bind; [apply stable_run_hooks|intros [results|]]; [|apply stable_ret].
  apply stable_bind; [now apply stable_run_gcode_handlers|intros [new modified]].
  destruct (modified && is_nil new); [apply stable_ret|].
  destruct (assoc _ hp) as [h|] eqn:Eh; [|apply stable_ret].
  apply stable_run_phase_handler. intro c'. eapply Hp; eassumption.
Qed.

Lemma stable_pause_processing tg : stable strict R (pause_processing E tg).
Proof.
  apply stable_modify. intro w.
  destruct (base_pause_processing E (state w) (job w)). framed.
Qed.

Lemma stable_cancel_processing e tg : stable strict R (cancel_processing E e tg).
Proof.
  apply stable_modify. intro w.
  destruct (base_cancel_processing E e (state w) (job w)). framed.
Qed.

Lemma stable_resume_processing tg : stable strict R (resume_processing E tg).
Proof.
  apply stable_modify. intro w.
  destruct (base_resume_processing E (state w) (job w)). framed.
Qed.

Lemma stable_atcommand_hooks_for phase : stable strict R (atcommand_hooks_for phase).
Proof.
  intro w. unfold atcommand_hooks_for.
  destruct (assoc phase (atcommand_hooks w)); simpl; split; auto;
    apply tolerant_refl.
Qed.

Lemma stable_run_atcommand_hooks hooks phase atcommand c :
  stable strict R (run_atcommand_hooks hooks phase atcommand c).
Proof.
  induction hooks as [|[name hook] hooks IH]; simpl; [apply stable_ret|].
  apply stable_bind; [|intros _; exact IH].
  apply stable_when, stable_log_exception.
Qed.

Lemma stable__process_atcommand_phase phase c :
  stable strict R (_process_atcommand_phase E phase c).
Proof.
  unfold _process_atcommand_phase.
  apply stable_bind; [apply stable_gets|intro streaming].
  destruct (streaming || _); [apply stable_ret|].
  apply stable_bind; [apply stable_atcommand_hooks_for|intro hooks].
  destruct (kind c) as [| |atcommand parameters]; try apply stable_raise.
  apply stable_bind; [apply stable_run_atcommand_hooks|intros _].
  destruct (assoc _ _) as [h|] eqn:Eh; [|apply stable_ret].
  apply stable_try_except; [|intro; apply stable_log_exception].
  unfold handlers_atcommand in Eh. simpl in Eh.
  repeat match type of Eh with
         | (if ?b then _ else _) = _ => destruct b
         end;
    try discriminate; injection Eh as <-;
    unfold _atcommand_abort_queuing, _atcommand_cancel_queuing,
      _atcommand_pause_queuing, _atcommand_resume_queuing;
    apply stable_when;
    first [apply stable_pause_processing | apply stable_cancel_processing
          | apply stable_resume_processing].
Qed.

(** No handler is registered for the [queued] phase: every name in the
    table ends in [_sent], [_sending] or [_queuing]. *)

Lemma list_ascii_of_string_app (a b : string) :
  list_ascii_of_string (a ++ b) = (list_ascii_of_string a ++ list_ascii_of_string b)%list.
Proof. induction a as [|x a IH]; simpl; [reflexivity|now rewrite IH]. Qed.

Lemma is_prefix_app (p x : list ascii) : is_prefix p (p ++ x) = true.
Proof.
  induction p as [|a p IH]; simpl; [reflexivity|].
  now rewrite Ascii.eqb_refl, IH.
Qed.

Lemma ends_with_append (a suffix : string) : ends_with suffix (a ++ suffix) = true.
Proof.
  unfold ends_with. rewrite list_ascii_of_string_app, rev_app_distr.
  apply is_prefix_app.
Qed.

Lemma no_queued_handler (fuel : nat) (code : string) :
  assoc ("_gcode_" ++ code ++ "_queued") (handlers_gcode E fuel) = None.
Proof.
  assert (Hk : ends_with "_queued" ("_gcode_" ++ code ++ "_queued") = true).
  { rewrite <- append_assoc. apply ends_with_append. }
  generalize dependent ("_gcode_" ++ code ++ "_queued"). intros k Hk.
  destruct fuel; cbn [handlers_gcode assoc];
    repeat match goal with
           | |- (if (k =? ?s)%string then _ else _) = None =>
               destruct (String.eqb_spec k s) as [->|_]; [discriminate Hk|]
           end; reflexivity.
Qed.

Lemma stable_queued_handlers fuel results :
  stable strict R (run_gcode_handlers (handlers_gcode E fuel) "queued" results).
Proof.
  induction results as [|c rest IH]; simpl; [apply stable_ret|].
  apply stable_bind.
  - destruct (code_of c) as [code|]; [|apply stable_ret].
    change (String "_" (String "g" (String "c" (String "o" (String "d"
             (String "e" (String "_" (code ++ "_queued"))))))))
      with ("_gcode_" ++ code ++ "_queued").
    rewrite no_queued_handler. apply stable_ret.
  - intro a. apply stable_bind; [exact IH|intro; apply stable_ret].
Qed.

Lemma stable_queued_phase fuel c :
  stable strict R (process_command_phase (handlers_gcode E fuel) "queued" c).
Proof.
  unfold process_command_phase, _process_command_phase.
  cbn [mem_string existsb String.eqb Ascii.eqb Bool.eqb negb orb andb].
  apply stable_bind; [apply stable_hooks_for|intro hooks].
  apply stable_bind; [apply stable_run_hooks|intros [results|]]; [|apply stable_ret].
  apply stable_bind; [apply stable_queued_handlers|intros [new modified]].
  destruct (modified && is_nil new); apply stable_ret.
Qed.

(** The [queuing] phase is spelled [queueing] in the list of phases the
    pipeline knows, so it hands the command back as it came. *)
Lemma queuing_phase_is_skipped hg hp c :
  _process_command_phase hg hp "queuing" c = ret [c].
Proof. reflexivity. Qed.

Lemma stable_queuing_phase hg c :
  stable strict R (process_command_phase hg "queuing" c).
Proof.
  unfold process_command_phase. rewrite queuing_phase_is_skipped. apply stable_ret.
Qed.

Section SendCommand.

Variable hg : list (string * Handler).
Hypothesis queued_stable :
  forall c, stable strict R (process_command_phase hg "queued" c).

Lemma stable_process c cb : stable strict R (process E hg c cb).
Proof.
  unfold process.
  apply stable_bind; [apply stable_when, stable__process_atcommand_phase|intros _].
  apply stable_bind; [apply stable__enqueue_for_sending|intros [|]];
    [|apply stable_ret].
  apply stable_bind; [apply stable_gets|intro streaming].
  apply stable_bind; [|intro; apply stable_ret].
  apply stable_when. apply stable_bind; [apply queued_stable|intro; apply stable_ret].
Qed.

Lemma stable_process_all results b : stable strict R (process_all E hg results b).
Proof.
  revert b; induction results as [|c rest IH]; intro b; simpl; [apply stable_ret|].
  apply stable_bind; [apply stable_process|intro; apply IH].
Qed.

Lemma stable__send_command_with c ty tg cb :
  stable strict R (_send_command_with E hg c ty tg cb).
Proof.
  unfold _send_command_with.
  apply stable_bind; [apply stable_gets|intro trigger].
  apply stable_bind.
  - destruct trigger; [apply stable_queuing_phase|apply stable_ret].
  - intro results. destruct (rev results); [apply stable_ret|].
    apply stable_bind; [apply stable_process_all|intro].
    apply stable_bind; [apply stable_process|intro; apply stable_ret].
Qed.

Lemma stable_send_each n cs ty tg b : stable strict R (send_each E hg n cs ty tg b).
Proof.
  revert ty b; induction cs as [|c rest IH]; intros ty b; simpl; [apply stable_ret|].
  apply stable_bind; [apply stable__send_command_with|intro; apply IH].
Qed.

Lemma stable__send_commands_with cs ty tg :
  stable strict R (_send_commands_with E hg cs ty tg).
Proof. apply stable_send_each. Qed.

End SendCommand.

Lemma stable__send_command fuel c ty tg cb :
  stable strict R (_send_command E fuel c ty tg cb).
Proof. apply stable__send_command_with. intro; apply stable_queued_phase. Qed.

Lemma stable__send_commands fuel cs ty tg :
  stable strict R (_send_commands E fuel cs ty tg).
Proof. apply stable__send_commands_with. intro; apply stable_queued_phase. Qed.

End Tolerance.

(** ** What the handlers and the loops leave alone *)

Section Handlers.

Context {R : World -> World -> Prop} {T : Tolerant R}.
Variable E : Env.
Hypothesis line_reset_stable :
  forall c, stable false R (_gcode_M110_sending E c).
Hypothesis increment_stable :
  forall l, stable false R (_do_increment_and_send_with_checksum l).

Local Hint Resolve stable_py_int stable_py_float stable_notify_listeners
  stable_credit_set stable_credit_clear stable__enqueue_for_sending
  stable__do_send_without_checksum stable__do_send_with_checksum
  stable__add_to_last_lines stable_hooks_for stable_run_hooks
  stable_pause_processing stable_cancel_processing stable_resume_processing
  stable__process_atcommand_phase stable__send_command stable__send_commands
  line_reset_stable increment_stable : stable_db.

Lemma stable__set_temperature tool a t : stable false R (_set_temperature tool a t).
Proof. unfold _set_temperature. stable_auto framed. Qed.

Lemma stable__get_timeout ty : stable false R (_get_timeout ty).
Proof. unfold _get_timeout. stable_auto framed. Qed.

Local Hint Resolve stable__set_temperature stable__get_timeout : stable_db.

Lemma stable__gcode_T_sent c : stable false R (_gcode_T_sent E c).
Proof. unfold _gcode_T_sent. stable_auto framed. Qed.

Lemma stable__gcode_G0_sent c : stable false R (_gcode_G0_sent c).
Proof. unfold _gcode_G0_sent. stable_auto framed. Qed.

Lemma stable__gcode_M140_queuing c : stable false R (_gcode_M140_queuing c).
Proof. unfold _gcode_M140_queuing. stable_auto framed. Qed.

Lemma stable__gcode_M155_sending c : stable false R (_gcode_M155_sending E c).
Proof. unfold _gcode_M155_sending. stable_auto framed. Qed.

Lemma stable__gcode_M27_sending c : stable false R (_gcode_M27_sending E c).
Proof. unfold _gcode_M27_sending. stable_auto framed. Qed.

Lemma stable_target_of c r : stable false R (target_of E c r).
Proof. unfold target_of. stable_auto framed. Qed.

Local Hint Resolve stable_target_of : stable_db.

Lemma stable__gcode_M104_sent c wait r : stable false R (_gcode_M104_sent E c wait r).
Proof. unfold _gcode_M104_sent. stable_auto framed. Qed.

Lemma stable__gcode_M140_sent c wait r : stable false R (_gcode_M140_sent E c wait r).
Proof. unfold _gcode_M140_sent. stable_auto framed. Qed.

Lemma stable_start_heatup : stable false R start_heatup.
Proof. unfold start_heatup. stable_auto framed. Qed.

Local Hint Resolve stable__gcode_M104_sent stable__gcode_M140_sent
  stable_start_heatup : stable_db.

Lemma stable__gcode_M109_sent c : stable false R (_gcode_M109_sent E c).
Proof. unfold _gcode_M109_sent. stable_auto framed. Qed.

Lemma stable__gcode_M190_sent c : stable false R (_gcode_M190_sent E c).
Proof. unfold _gcode_M190_sent. stable_auto framed. Qed.

Lemma stable__gcode_M116_sent c : stable false R (_gcode_M116_sent c).
Proof. unfold _gcode_M116_sent. stable_auto framed. Qed.

Lemma stable__gcode_G4_sent c : stable false R (_gcode_G4_sent E c).
Proof. unfold _gcode_G4_sent. stable_auto framed. Qed.

Lemma stable__command_phase_sending c g : stable false R (_command_phase_sending c g).
Proof. unfold _command_phase_sending. stable_auto framed. Qed.

Lemma stable__gcode_M112_queuing c : stable false R (_gcode_M112_queuing c).
Proof.
  unfold _gcode_M112_queuing, call_do_send_with_checksum. stable_auto framed.
Qed.

Lemma stable_handlers_command_phase :
  stable_table false R handlers_command_phase.
Proof.
  intros name h c H. unfold handlers_command_phase in H. simpl in H.
  destruct (name =? _)%string; [|discriminate].
  injection H as <-. apply stable__command_phase_sending.
Qed.

Lemma stable_pause_file_print_with send :
  (forall cs ty tg, stable false R (send cs ty tg)) ->
  stable false R (pause_file_print_with send).
Proof. intro H. unfold pause_file_print_with. stable_auto framed. Qed.

Lemma stable__gcode_M0_queuing_with send c :
  (forall cs ty tg, stable false R (send cs ty tg)) ->
  stable false R (_gcode_M0_queuing_with send c).
Proof.
  intro H. unfold _gcode_M0_queuing_with.
  apply stable_bind; [now apply stable_pause_file_print_with|intro; apply stable_ret].
Qed.

Lemma stable__gcode_M25_queuing_with send c :
  (forall cs ty tg, stable false R (send cs ty tg)) ->
  stable false R (_gcode_M25_queuing_with send c).
Proof.
  intro H. unfold _gcode_M25_queuing_with.
  apply stable_bind; [apply stable_gets|intro w].
  apply stable_bind; [|intro; apply stable_ret].
  apply stable_when. now apply stable_pause_file_print_with.
Qed.

Local Hint Resolve stable__gcode_T_sent stable__gcode_G0_sent
  stable__gcode_M140_queuing stable__gcode_M155_sending stable__gcode_M27_sending
  stable__gcode_M109_sent stable__gcode_M190_sent stable__gcode_M116_sent
  stable__gcode_G4_sent stable__gcode_M112_queuing : stable_db.

Lemma stable_handlers_gcode fuel : stable_table false R (handlers_gcode E fuel).
Proof.
  assert (Hsend : forall cs ty tg,
            stable false R
              (match fuel with
               | O => fun _ _ _ => out_of_fuel
               | S fuel' => _send_commands_with E (handlers_gcode E fuel')
               end cs ty tg)).
  { intros cs ty tg. destruct fuel; [apply stable_out_of_fuel|].
    apply stable__send_commands. }
  intros name h c H.
  destruct fuel; cbn [handlers_gcode assoc] in H;
    repeat match type of H with
           | (if ?b then _ else _) = _ => destruct b
           end;
    try discriminate; injection H as <-;
    unfold _gcode_G1_sent, _gcode_M190_queuing;
    first [ solve [eauto with stable_db]
          | apply stable__gcode_M0_queuing_with; exact Hsend
          | apply stable__gcode_M25_queuing_with; exact Hsend ].
Qed.

Lemma stable_process_command_phase fuel phase c :
  stable false R (process_command_phase (handlers_gcode E fuel) phase c).
Proof.
  apply stable__process_command_phase;
    [apply stable_handlers_gcode|apply stable_handlers_command_phase].
Qed.

Local Hint Resolve stable_process_command_phase : stable_db.

Lemma stable__send_from_queue fuel : stable false R (_send_from_queue E fuel).
Proof. induction fuel as [|fuel IH]; simpl; stable_auto framed. Qed.

Lemma stable__send_next_from_job fuel : stable false R (_send_next_from_job E fuel).
Proof. induction fuel as [|fuel IH]; simpl; stable_auto framed. Qed.

Local Hint Resolve stable__send_from_queue stable__send_next_from_job : stable_db.

Lemma stable__continue_sending fuel : stable false R (_continue_sending E fuel).
Proof. induction fuel as [|fuel IH]; simpl; stable_auto framed. Qed.

Lemma stable__send_next_from_resend again :
  stable false R (_send_next_from_resend again).
Proof. unfold _send_next_from_resend. stable_auto framed. Qed.

Lemma stable__finish_heatup : stable false R _finish_heatup.
Proof. unfold _finish_heatup. stable_auto framed. Qed.

Local Hint Resolve stable__continue_sending stable__send_next_from_resend
  stable__finish_heatup : stable_db.

Lemma stable_assign_state fuel s : stable false R (assign_state E fuel s).
Proof.
  unfold assign_state, _on_state_connecting, _on_state_connected,
    _on_state_disconnected, _on_state_disconnected_with_error,
    _handle_disconnected.
  stable_auto framed.
Qed.

Local Hint Resolve stable_assign_state : stable_db.

Lemma stable__on_comm_any fuel : stable false R (_on_comm_any E fuel).
Proof. unfold _on_comm_any. stable_auto framed. Qed.

Lemma stable__on_comm_ok fuel : stable false R (_on_comm_ok E fuel).
Proof. unfold _on_comm_ok. stable_auto framed. Qed.

Local Hint Resolve stable__on_comm_ok : stable_db.

Lemma stable__on_comm_wait fuel : stable false R (_on_comm_wait E fuel).
Proof. unfold _on_comm_wait. stable_auto framed. Qed.

Lemma stable__on_comm_start fuel : stable false R (_on_comm_start E fuel).
Proof. unfold _on_comm_start. stable_auto framed. Qed.

Lemma stable__on_comm_ignore_ok : stable false R _on_comm_ignore_ok.
Proof. unfold _on_comm_ignore_ok. stable_auto framed. Qed.

Lemma stable__on_error_communication e : stable false R (_on_error_communication e).
Proof. unfold _on_error_communication. stable_auto framed. Qed.

Lemma stable_log_resend_request n : stable false R (log_resend_request n).
Proof. unfold log_resend_request. stable_auto framed. Qed.

Lemma stable_stale_resend n : stable false R (stale_resend n).
Proof. unfold stale_resend. stable_auto framed. Qed.

Local Hint Resolve stable_log_resend_request stable_stale_resend : stable_db.

Lemma stable__on_comm_resend n : stable false R (_on_comm_resend E n).
Proof. unfold _on_comm_resend. stable_auto framed. Qed.

Lemma stable_send_commands fuel cs ty cb tg force :
  stable false R (send_commands E fuel cs ty cb tg force).
Proof. unfold send_commands. stable_auto framed. Qed.

Lemma stable_emit c : stable false R (emit c).
Proof. unfold emit. stable_auto framed. Qed.

Local Hint Resolve stable_emit : stable_db.

Lemma stable__send_loop_emit fuel e : stable false R (_send_loop_emit E fuel e).
Proof. unfold _send_loop_emit. stable_auto framed. Qed.

Lemma stable__send_loop_sent fuel e c : stable false R (_send_loop_sent E fuel e c).
Proof. unfold _send_loop_sent. stable_auto framed. Qed.

Local Hint Resolve stable__send_loop_emit stable__send_loop_sent : stable_db.

Lemma stable__send_loop_step fuel : stable false R (_send_loop_step E fuel).
Proof. unfold _send_loop_step. stable_auto framed. Qed.

End Handlers.

(** ** The line counter *)

Lemma line_le_refl (a : option Z) : line_le a a.
Proof. destruct a; simpl; [lia|exact I]. Qed.

Lemma line_le_trans (a b c : option Z) : line_le a b -> line_le b c -> line_le a c.
Proof. destruct a, b, c; simpl; try tauto; lia. Qed.

Lemma m110_count_log (w : World) (e : LogEntry) :
  m110_count (set_logged (logged w ++ [e])%list w)
  = (m110_count w + if is_m110_log e then 1 else 0)%nat.
Proof.
  unfold m110_count. cbn [logged set_logged].
  rewrite filter_app, length_app. simpl. now destruct (is_m110_log e).
Qed.

Lemma line_order_same (w w' : World) :
  logged w' = logged w -> current_linenumber w' = current_linenumber w ->
  line_order w w'.
Proof.
  intros Hl Hc. unfold line_order, m110_count. rewrite Hl, Hc.
  split; [lia|intros _; apply line_le_refl].
Qed.

#[export] Instance line_order_tolerant : Tolerant line_order.
Proof.
  constructor.
  - intro w. now apply line_order_same.
  - intros a b c [H1 H2] [H3 H4]. split; [lia|].
    intro H. eapply line_le_trans; [apply H2|apply H4]; lia.
  - intros w w' Hl Hc _. now apply line_order_same.
  - intros w e He. unfold line_order. rewrite m110_count_log, He.
    split; [lia|intros _; apply line_le_refl].
Qed.

#[export] Instance keeps_timeouts_tolerant : Tolerant keeps_timeouts.
Proof.
  constructor; unfold keeps_timeouts.
  - reflexivity.
  - intros a b c H1 H2. now rewrite H2.
  - intros w w' _ _ H. exact H.
  - reflexivity.
Qed.

#[export] Instance keeps_line_tolerant : Tolerant keeps_line.
Proof.
  constructor; unfold keeps_line.
  - reflexivity.
  - intros a b c H1 H2. now rewrite H2.
  - intros w w' _ H _. exact H.
  - reflexivity.
Qed.

(** What handling an [M110] does, in one equation. *)
Lemma line_reset_effect (E : Env) (c : Command) (w : World) :
  _gcode_M110_sending E c w
  = Ok HNone
       (upd_ist (set_resend_linenumber None)
          (set_last_lines []
             (set_current_linenumber (requested_line E c)
                (set_logged
                   (logged w ++ [LogInfo ("M110 detected, setting current line number to "
                                          ++ fmt_line (requested_line E c))])%list
                   w)))).
Proof.
  unfold _gcode_M110_sending, M110_new_line_number, M110_under_line_mutex,
    M110_after_line_mutex, requested_line.
  destruct (truthy (attr c "n")); [|reflexivity].
  destruct (attr c "n") as [|z|s]; try reflexivity.
  unfold bind, try_except, py_int. destruct (int_of_str E s); reflexivity.
Qed.

Lemma line_reset_counted (E : Env) (c : Command) (w : World) :
  m110_count (final (_gcode_M110_sending E c w)) = S (m110_count w).
Proof.
  rewrite line_reset_effect. cbn [final].
  unfold m110_count. cbn [logged upd_ist set_internal_state set_last_lines
    set_current_linenumber set_logged].
  rewrite filter_app, length_app. cbn. lia.
Qed.

Lemma line_order__gcode_M110_sending (E : Env) (c : Command) :
  stable false line_order (_gcode_M110_sending E c).
Proof.
  intro w. split; [|discriminate].
  unfold line_order. rewrite line_reset_counted. split; [lia|]. lia.
Qed.

Lemma line_order__do_increment (l : string) :
  stable false line_order (_do_increment_and_send_with_checksum l).
Proof.
  intro w. split; [|discriminate].
  unfold _do_increment_and_send_with_checksum, bind, gets, _add_to_last_lines,
    modify, raise, _do_send_with_checksum, _do_send_without_checksum.
  destruct (current_linenumber w) as [n|] eqn:En; cbn.
  - destruct (transport w); cbn; unfold line_order, m110_count; cbn;
      rewrite En; cbn; (split; [lia|intros _; lia]).
  - unfold line_order, m110_count; cbn. rewrite En. cbn. split; [lia|auto].
Qed.

Ltac same_line := apply line_order_same; reflexivity.

Lemma line_order__on_comm_timeout (E : Env) (fuel : nat) :
  stable false line_order (_on_comm_timeout E fuel).
Proof.
  pose proof (@stable__send_command line_order _ false E).
  pose proof (@stable__send_next_from_resend line_order _).
  pose proof (@stable__finish_heatup line_order _).
  pose proof (@stable_credit_set line_order _ false).
  pose proof (@stable_notify_listeners line_order _ false).
  unfold _on_comm_timeout, timeout_recovery, _send_same_from_resend.
  stable_auto same_line.
Qed.

Lemma line_order_run_op (E : Env) (fuel : nat) (op : Op) :
  stable false line_order (run_op E fuel op).
Proof.
  pose proof (line_order__gcode_M110_sending E) as H110.
  pose proof line_order__do_increment as Hinc.
  destruct op; cbn [run_op].
  - apply stable_bind; [now apply stable_send_commands|intro; apply stable_ret].
  - apply stable_bind; [apply stable__send_commands|intro; apply stable_ret].
  - now apply stable__on_comm_any.
  - now apply stable__on_comm_ok.
  - now apply stable__on_comm_wait.
  - now apply stable__on_comm_start.
  - apply stable__on_comm_ignore_ok.
  - now apply stable__on_comm_resend.
  - apply stable_bind; [apply line_order__on_comm_timeout|intro; apply stable_ret].
  - apply stable__on_error_communication.
  - apply stable_bind; [now apply stable__send_loop_step|intro; apply stable_ret].
Qed.

Lemma keeps_line__on_comm_timeout (E : Env) (fuel : nat) :
  stable false keeps_line (_on_comm_timeout E fuel).
Proof.
  pose proof (@stable__send_command keeps_line _ false E).
  pose proof (@stable__send_next_from_resend keeps_line _).
  pose proof (@stable__finish_heatup keeps_line _).
  pose proof (@stable_credit_set keeps_line _ false).
  pose proof (@stable_notify_listeners keeps_line _ false).
  unfold _on_comm_timeout, timeout_recovery, _send_same_from_resend.
  stable_auto reflexivity.
Qed.

(** Only the send loop moves the line counter. *)
Lemma keeps_line_run_op (E : Env) (fuel : nat) (op : Op) :
  op <> OpSendLoop -> stable false keeps_line (run_op E fuel op).
Proof.
  intro Hop. destruct op; cbn [run_op]; try congruence.
  - apply stable_bind; [now apply stable_send_commands|intro; apply stable_ret].
  - apply stable_bind; [apply stable__send_commands|intro; apply stable_ret].
  - now apply stable__on_comm_any.
  - now apply stable__on_comm_ok.
  - now apply stable__on_comm_wait.
  - now apply stable__on_comm_start.
  - apply stable__on_comm_ignore_ok.
  - now apply stable__on_comm_resend.
  - apply stable_bind; [apply keeps_line__on_comm_timeout|intro; apply stable_ret].
  - apply stable__on_error_communication.
Qed.

(** The block under [_line_mutex], in one equation. *)
Lemma under_line_mutex_effect (n : option Z) (w : World) :
  M110_under_line_mutex n w
  = Ok tt
       (set_last_lines []
          (set_current_linenumber n
             (set_logged
                (logged w ++ [LogInfo ("M110 detected, setting current line number to "
                                       ++ fmt_line n)])%list
                w))).
Proof. reflexivity. Qed.

Lemma new_line_number_effect (E : Env) (c : Command) (w : World) :
  M110_new_line_number E c w = Ok (requested_line E c) w.
Proof.
  unfold M110_new_line_number, requested_line.
  destruct (truthy (attr c "n")); [|reflexivity].
  destruct (attr c "n") as [|z|s]; try reflexivity.
  unfold bind, try_except, py_int. destruct (int_of_str E s); reflexivity.
Qed.



(** ** Communication timeouts *)

Lemma keeps_timeouts_recovery (E : Env) (fuel : nat) (max : Z) (w0 : World) :
  stable true keeps_timeouts (timeout_recovery E fuel max w0).
Proof.
  pose proof (@stable__send_command keeps_timeouts _ true E).
  pose proof (@stable_credit_set keeps_timeouts _ true).
  pose proof (@stable_notify_listeners keeps_timeouts _ true).
  pose proof (@stable__enqueue_for_sending keeps_timeouts _ true).
  unfold timeout_recovery, _send_same_from_resend, _send_next_from_resend,
    _finish_heatup.
  stable_auto reflexivity.
Qed.

Lemma count_nothing (w : World) :
  upd_ist (fun i => set_timeout_consecutive (timeout_consecutive i + 0) i) w = w.
Proof.
  destruct w as [? ? ? ? i]. destruct i.
  unfold upd_ist, set_internal_state, set_timeout_consecutive. cbn.
  now rewrite Z.add_0_r.
Qed.

Lemma count_again (a b : Z) (w : World) :
  upd_ist (fun i => set_timeout_consecutive (timeout_consecutive i + b) i)
    (upd_ist (fun i => set_timeout_consecutive (timeout_consecutive i + a) i) w)
  = upd_ist (fun i => set_timeout_consecutive (timeout_consecutive i + (a + b)) i) w.
Proof.
  unfold upd_ist, set_internal_state, set_timeout_consecutive. cbn.
  now rewrite Z.add_assoc.
Qed.

(** A timeout with the count already at the maximum. *)
Lemma timeout_beyond_the_maximum (E : Env) (fuel : nat) (w : World) :
  state_in (state w) [PROCESSING; PAUSED; CONNECTED] = true ->
  (if ist long_running_command w then 5
   else if state_in (state w) [PROCESSING; PAUSING; CANCELLING] then 10 else 15)
  < ist timeout_consecutive w + 1 ->
  _on_comm_timeout E fuel w
  = Ok (Some (negb (state_eqb (state w) PROCESSING)))
       (upd_ist (fun i => set_timeout_consecutive (timeout_consecutive i + 1) i) w).
Proof.
  intros Hs Hmax.
  unfold _on_comm_timeout, bind at 1, gets at 1. rewrite Hs. cbn [negb].
  unfold bind at 1, gets at 1. unfold bind at 1, modify at 1.
  unfold bind at 1, gets at 1.
  set (w1 := upd_ist _ w).
  unfold bind at 1, timeout_recovery.
  change (ist timeout_consecutive w1) with (ist timeout_consecutive w + 1).
  unfold consecutive_max.
  replace (_ <? ist timeout_consecutive w + 1) with true
    by (symmetry; apply Z.ltb_lt; exact Hmax).
  replace (0 <? _) with true
    by (symmetry; apply Z.ltb_lt;
        destruct (ist long_running_command w);
        [|destruct (state_in (state w) [PROCESSING; PAUSING; CANCELLING])]; lia).
  reflexivity.
Qed.

(** C6.  A communication timeout outside [PROCESSING], [PAUSED] and
    [CONNECTED] is ignored.  In those three states the handler comes back
    and the count of consecutive timeouts goes up by one.  The maximum is
    5 while a long-running command is active, else 10 in [PROCESSING] and
    15 in [PAUSED] and [CONNECTED]; once the count exceeds it the handler
    does nothing but count: the state stays what it is, however many
    timeouts follow, and [DISCONNECTED_WITH_ERROR] is never entered. *)
Theorem timeouts_beyond_the_maximum_only_count :
  forall (E : Env) (fuel : nat) (w : World),
    (state_in (state w) [PROCESSING; PAUSED; CONNECTED] = false ->
     _on_comm_timeout E fuel w = Ok None w)
    /\ (state_in (state w) [PROCESSING; PAUSED; CONNECTED] = true ->
        let r := _on_comm_timeout E fuel w in
        let max := if ist long_running_command w then 5
                   else if state_in (state w) [PROCESSING; PAUSING; CANCELLING]
                        then 10 else 15 in
        returned r
        /\ ist timeout_consecutive (final r) = ist timeout_consecutive w + 1
        /\ (max < ist timeout_consecutive w + 1 ->
            r = Ok (Some (negb (state_eqb (state w) PROCESSING)))
                   (upd_ist (fun i => set_timeout_consecutive
                                        (timeout_consecutive i + 1) i) w)
            /\ forall k : nat,
                Example.times k (_on_comm_timeout E fuel) w
                = Ok tt (upd_ist (fun i => set_timeout_consecutive
                                             (timeout_consecutive i + Z.of_nat k) i)
                                 w))).
Proof.
  intros E fuel w. split.
  - intro Hs. unfold _on_comm_timeout, bind, gets. rewrite Hs. reflexivity.
  - intros Hs r max. split; [|split].
    + subst r. unfold _on_comm_timeout, bind at 1 2 3 4 5, gets at 1 2 3, modify.
      rewrite Hs. cbn [negb].
      set (w1 := upd_ist _ w).
      destruct (keeps_timeouts_recovery E fuel (consecutive_max w) w1 w1) as [_ Hret].
      specialize (Hret eq_refl).
      unfold bind.
      destruct (timeout_recovery E fuel (consecutive_max w) w1 w1); simpl in *; auto.
    + subst r. unfold _on_comm_timeout, bind at 1 2 3 4 5, gets at 1 2 3, modify.
      rewrite Hs. cbn [negb].
      set (w1 := upd_ist _ w).
      destruct (keeps_timeouts_recovery E fuel (consecutive_max w) w1 w1) as [Hk _].
      unfold keeps_timeouts in Hk.
      unfold bind.
      destruct (timeout_recovery E fuel (consecutive_max w) w1 w1); simpl in *;
        rewrite Hk; reflexivity.
    + intro Hmax. split; [now apply timeout_beyond_the_maximum|].
      intro k. subst r max. revert w Hs Hmax.
      induction k as [|k IH]; intros w Hs Hmax.
      * cbn [Example.times Z.of_nat]. unfold ret. now rewrite count_nothing.
      * cbn [Example.times]. unfold bind.
        rewrite (timeout_beyond_the_maximum E fuel w Hs Hmax).
        rewrite IH.
        -- rewrite count_again.
           replace (Z.of_nat (S k)) with (1 + Z.of_nat k) by lia. reflexivity.
        -- exact Hs.
        -- change (ist timeout_consecutive (upd_ist _ w))
             with (ist timeout_consecutive w + 1).
           change (ist long_running_command (upd_ist _ w))
             with (ist long_running_command w).
           change (state (upd_ist _ w)) with (state w).
           eapply Z.lt_trans; [exact Hmax|lia].
Qed.

Lemma timeouts_beyond_the_maximum_only_count_witness :
  let w := final (Example.times 10 (_on_comm_timeout Example.env0 1)
                                (Example.printing [])) in
  state w = PROCESSING
  /\ ist timeout_consecutive w = 10
  /\ state (final (_on_comm_timeout Example.env0 1 w)) = PROCESSING
  /\ ist timeout_consecutive (final (_on_comm_timeout Example.env0 1 w)) = 11
  /\ state (final (Example.times 100 (_on_comm_timeout Example.env0 1) w))
     = PROCESSING
  /\ _on_comm_timeout Example.env0 1 (set_state PAUSING Example.idle)
     = Ok None (set_state PAUSING Example.idle).
Proof.
  intro w.
  assert (Hs : state_in (state w) [PROCESSING; PAUSED; CONNECTED] = true)
    by reflexivity.
  assert (Hmax : (if ist long_running_command w then 5
                  else if state_in (state w) [PROCESSING; PAUSING; CANCELLING]
                       then 10 else 15) < ist timeout_consecutive w + 1)
    by (vm_compute; reflexivity).
  destruct (proj2 (timeouts_beyond_the_maximum_only_count Example.env0 1 w) Hs)
    as (_ & _ & Hover).
  destruct (Hover Hmax) as [Hone Hmany].
  split; [reflexivity|]. split; [reflexivity|].
  split; [rewrite Hone; reflexivity|].
  split; [rewrite Hone; reflexivity|].
  split; [rewrite (Hmany 100%nat); reflexivity|].
  exact (proj1 (timeouts_beyond_the_maximum_only_count Example.env0 1
                  (set_state PAUSING Example.idle)) eq_refl).
Defined.
(** ** Resend requests *)

Lemma log_resend_request_effect (n : Z) (w : World) :
  exists w',
    log_resend_request n w = Ok tt w'
    /\ internal_state w' = internal_state w
    /\ events w' = events w
    /\ send_queue w' = send_queue w
    /\ last_lines w' = last_lines w
    /\ last_communication_error w' = last_communication_error w
    /\ (forall msg, In (LogError msg) (logged w') -> In (LogError msg) (logged w))
    /\ (forall e, In e (logged w) -> In e (logged w')).
Proof.
  cbv beta iota zeta delta [log_resend_request bind gets monotonic_time when modify log_info ret].
  destruct (log_resends w); [|eexists; repeat split; auto].
  match goal with
  | |- context [(?a || ?b)%bool] => destruct a; destruct b
  end;
    cbn; eexists; (split; [reflexivity|]); cbn; repeat split; auto;
    first [ intros msg Hin; apply in_app_or in Hin as [Hin|[Hin|[]]];
            [assumption|discriminate]
          | intros e Hin; apply in_or_app; now left ].
Qed.

Lemma history_get_absent (n : option Z) (h : LineHistory) :
  history_contains n h = false -> history_get n h = None.
Proof.
  unfold history_contains, history_get.
  induction h as [|e h IH]; [reflexivity|].
  cbn [existsb find]. destruct (opt_Z_eqb n (fst e)); [discriminate|exact IH].
Qed.

(** An [ok] finds nothing to resend when the cursor stands at a line the
    history does not have, and leaves the request as it is. *)
Lemma nothing_to_resend (n : Z) (w : World) :
  last_communication_error w = None ->
  ist resend_linenumber w = Some n ->
  history_contains (Some n) (last_lines w) = false ->
  _send_next_from_resend false w = Ok false w.
Proof.
  intros He Hn Hh.
  assert (Hw : set_last_communication_error None w = w).
  { destruct w. cbn in He. subst. reflexivity. }
  unfold _send_next_from_resend, bind at 1, modify at 1. rewrite Hw.
  cbn [when]. unfold bind at 1, ret at 1. unfold bind at 1, gets at 1.
  rewrite Hn. unfold bind at 1, gets at 1.
  now rewrite (history_get_absent _ _ Hh).
Qed.

(** C7.  A resend request for line [n] that is not one of the two kinds
    ignored up front (a request for the line about to be sent while no
    resend is outstanding, and a stale repetition after a line-number
    error) is handled as follows.  If [n] is in the line history, the
    request is recorded: [resend_requested] and the resend cursor become
    [n], the count becomes 0 and the send queue's [resend_active] flag is
    set; no error is logged and nothing is cancelled.  If [n] is not in
    the history an error is logged; when idle, the request is then dropped
    and nothing is recorded.  When busy, processing is cancelled with
    error, and then, the branch having no [return], the request is
    recorded all the same, for a line that cannot be resent: the next [ok]
    finds nothing to resend and leaves the request standing, and with
    [resend_active] set and an empty resend track the send queue gives out
    nothing any more. *)
Theorem resend_request_handling :
  forall (E : Env) (n c : Z) (w : World),
    current_linenumber w = Some c ->
    ~ (ist resend_requested w = None /\ n = c) ->
    ~ (last_communication_error w = Some "linenumber"
       /\ ist resend_requested w = Some n
       /\ match ist resend_count w with Some k => k < c - n - 1 | None => True end) ->
    exists w',
      _on_comm_resend E (Some n) w = Ok tt w'
      /\ let recorded :=
           ist resend_requested w' = Some n
           /\ ist resend_linenumber w' = Some n
           /\ ist resend_count w' = Some 0
           /\ resend_active (send_queue w') = true in
         let missing :=
           LogError ("Printer requested to resend a line we don't have: "
                     ++ str_of_int n) in
         if history_contains (Some n) (last_lines w) then
           recorded
           /\ events w' = events w
           /\ (forall msg, In (LogError msg) (logged w') -> In (LogError msg) (logged w))
         else if _is_busy w then
           In missing (logged w')
           /\ events w' = (events w ++ [CancelProcessing true []])%list
           /\ recorded
           /\ last_lines w' = last_lines w
           /\ _send_next_from_resend false w' = Ok false w'
           /\ (sq_resend (send_queue w) = [] -> send_queue_get (send_queue w') = None)
         else
           w' = set_logged (logged w ++ [missing])%list
                  (set_last_communication_error None w).
Proof.
  intros E n c w Hc Hfirst Hstale.
  unfold _on_comm_resend.
  unfold bind at 1, gets at 1.
  rewrite Hc. cbn [opt_Z_eqb].
  assert (G1 : (match ist resend_requested w with None => true | Some _ => false end
                && (n =? c)) = false).
  { destruct (ist resend_requested w) eqn:Er; [reflexivity|].
    simpl. apply Z.eqb_neq. intro Hn. apply Hfirst. now split. }
  rewrite G1.
  unfold bind at 1, modify at 1.
  assert (G2 : forall w0 : World,
             current_linenumber w0 = Some c ->
             internal_state w0 = internal_state w ->
             (if match last_communication_error w with
                 | Some e => (e =? "linenumber")%string
                 | None => false
                 end && opt_Z_eqb (Some n) (ist resend_requested w)
              then stale_resend n else ret false) w0 = Ok false w0).
  { intros w0 Hc0 Hi0.
    destruct (match last_communication_error w with
              | Some e => (e =? "linenumber")%string
              | None => false
              end) eqn:El; [|reflexivity].
    destruct (opt_Z_eqb (Some n) (ist resend_requested w)) eqn:Eq; [|reflexivity].
    simpl. unfold stale_resend, bind, gets, ist. rewrite Hc0, Hi0.
    assert (Hle : last_communication_error w = Some "linenumber").
    { destruct (last_communication_error w) as [e|]; [|discriminate].
      apply String.eqb_eq in El. now subst. }
    assert (Hrq : ist resend_requested w = Some n).
    { destruct (ist resend_requested w) as [z|]; [|discriminate].
      simpl in Eq. apply Z.eqb_eq in Eq. now subst. }
    fold (ist resend_count w).
    destruct (ist resend_count w) as [k|] eqn:Ek.
    - unfold ret. f_equal. apply Z.ltb_ge.
      destruct (Z.lt_ge_cases k (c - n - 1)) as [Hlt|Hge]; [|lia].
      exfalso. apply Hstale. repeat split; assumption.
    - exfalso. apply Hstale. repeat split; auto. }
  unfold bind at 1.
  rewrite G2; [|exact Hc|reflexivity].
  cbv beta iota zeta delta [bind gets modify ret when log_error cancel_processing negb].
  destruct (history_contains (Some n) (last_lines w)) eqn:Eh; cbv beta iota.
  - (* the line is in the history *)
    match goal with
    | |- context [log_resend_request n ?w0] =>
        destruct (log_resend_request_effect n w0)
          as (w2 & Hlog & Hi & He & Hq & Hl & Hce & Herr & Hold)
    end.
    rewrite Hlog. eexists. split; [reflexivity|].
    unfold ist. cbn [internal_state set_send_queue send_queue events logged
                     resend_active set_resend_active].
    rewrite Hi, He. repeat split; auto.
  - match goal with
    | |- context [_is_busy (set_logged ?l ?w0)] =>
        change (_is_busy (set_logged l w0)) with (_is_busy w)
    end.
    destruct (_is_busy w) eqn:Eb; cbv beta iota.
    + (* not in the history, busy *)
      match goal with
      | |- context [log_resend_request n ?w0] =>
          destruct (log_resend_request_effect n w0)
            as (w2 & Hlog & Hi & He & Hq & Hl & Hce & Herr & Hold)
      end.
      rewrite Hlog. eexists. split; [reflexivity|].
      assert (Hin : In (LogError ("Printer requested to resend a line we don't have: "
                                  ++ str_of_int n)) (logged w2)).
      { apply Hold. cbn [logged upd_ist set_internal_state set_events set_job
                              set_state set_logged].
        destruct (base_cancel_processing E true _ _).
        cbn [logged upd_ist set_internal_state set_events set_job
               set_state set_logged].
        apply in_or_app. right. now left. }
      assert (Hrec : ist resend_requested w2 = Some n
                     /\ ist resend_linenumber w2 = Some n
                     /\ ist resend_count w2 = Some 0).
      { unfold ist. rewrite Hi. repeat split. }
      assert (Hhist : last_lines w2 = last_lines w).
      { rewrite Hl. cbn [state job set_logged set_last_communication_error].
        now destruct (base_cancel_processing E true (state w) (job w)). }
      assert (Herror : last_communication_error w2 = None).
      { rewrite Hce. cbn [state job set_logged set_last_communication_error].
        now destruct (base_cancel_processing E true (state w) (job w)). }
      assert (Hev : events w2 = (events w ++ [CancelProcessing true []])%list).
      { rewrite He. cbn [state job set_logged set_last_communication_error].
        now destruct (base_cancel_processing E true (state w) (job w)). }
      assert (Hres : sq_resend (send_queue w2) = sq_resend (send_queue w)).
      { rewrite Hq. cbn [state job set_logged set_last_communication_error].
        now destruct (base_cancel_processing E true (state w) (job w)). }
      destruct Hrec as (R1 & R2 & R3).
      split; [exact Hin|]. split; [exact Hev|].
      split; [repeat split; assumption|].
      split; [exact Hhist|]. split.
      * apply (@nothing_to_resend n).
        -- exact Herror.
        -- exact R2.
        -- cbn [last_lines set_send_queue]. now rewrite Hhist.
      * intro Hempty. unfold send_queue_get.
        cbn [send_queue set_send_queue set_resend_active sq_resend resend_active].
        now rewrite Hres, Hempty.
    + (* not in the history, idle *)
      eexists. split; reflexivity.
Qed.

Lemma resend_request_handling_witness :
  let w := set_current_linenumber (Some 5) (Example.printing []) in
  exists w',
    _on_comm_resend Example.env0 (Some 2) w = Ok tt w'
    /\ history_contains (Some 2) (last_lines w) = false
    /\ events w' = [CancelProcessing true []]
    /\ ist resend_requested w' = Some 2
    /\ ist resend_linenumber w' = Some 2
    /\ ist resend_count w' = Some 0
    /\ resend_active (send_queue w') = true
    /\ _send_next_from_resend false w' = Ok false w'
    /\ send_queue_get (send_queue w') = None.
Proof.
  intro w.
  destruct (@resend_request_handling Example.env0 2 5 w eq_refl) as (w' & H1 & H2).
  - intros [_ H]. discriminate H.
  - intros [H _]. discriminate H.
  - change (history_contains (Some 2) (last_lines w)) with false in H2.
    change (_is_busy w) with true in H2. cbv beta iota zeta in H2.
    destruct H2 as (_ & Hev & (R1 & R2 & R3 & R4) & _ & Hnext & Hget).
    exists w'. repeat split; try assumption. exact (Hget eq_refl).
Defined.

(** ** The send loop *)

(** C5.  A send-queue entry without a line number (not a resend) whose
    command comes out of the [sending] phase as [command], not blank and
    not an at-command, is written raw when the transport declares message
    integrity; otherwise it is written with line number and checksum
    exactly when [requires_checksum || (allows_checksum && enabled)], with
    the three conditions as the flavor and the state give them, and raw
    when that is false. *)
Theorem checksum_policy :
  forall (E : Env) (fuel : nat) (entry : SendEntry) (w w1 : World)
         (command : Command) (t : Transport) (n : Z),
    se_linenumber entry = None ->
    (if se_processed entry then w1 = w /\ command = se_command entry
     else process_command_phase (handlers_gcode E fuel) "sending" (se_command entry) w
          = Ok [command] w1) ->
    py_strip (line command) <> "" ->
    is_atcommand command = false ->
    transport w1 = Some t ->
    current_linenumber w1 = Some n ->
    let requires_checksum :=
      match code_of command with
      | Some code => mem_string code (checksum_requiring_commands (flavor w1))
      | None => false
      end in
    let allows_checksum := is_gcode command || unknown_with_checksum (flavor w1) in
    let enabled :=
      always_send_checksum (flavor w1)
      || (state_eqb (state w1) PROCESSING && negb (never_send_checksum (flavor w1))) in
    let raw := encode_ascii_replace (line command) in
    let numbered := "N" ++ str_of_int n ++ " " ++ raw in
    let with_checksum := numbered ++ "*" ++ str_of_int (xor_bytes numbered) in
    let sent :=
      (if message_integrity t then raw
       else if requires_checksum || (allows_checksum && enabled) then with_checksum
            else raw) ++ LF in
    exists w2,
      _send_loop_emit E fuel entry w = Ok (Some command) w2
      /\ wire w2 = (written t ++ [sent])%list.
Proof.
  intros E fuel entry w w1 command t n Hline Hphase Hblank Hat Ht Hn
         requires_checksum allows_checksum enabled raw numbered with_checksum sent.
  assert (Hemit : exists w2,
             (emit command ;; ret (Some command))%monad w1 = Ok (Some command) w2
             /\ wire w2 = (written t ++ [sent])%list).
  { unfold emit, bind at 1 2, gets at 1. rewrite Ht.
    unfold send_with_checksum.
    fold requires_checksum allows_checksum enabled raw.
    subst sent.
    destruct (message_integrity t) eqn:Ei; cbn [negb].
    - unfold _do_send_without_checksum. rewrite Ht. eexists. split; [reflexivity|].
      reflexivity.
    - destruct (requires_checksum || allows_checksum && enabled).
      + rewrite (@do_increment_effect raw n w1 t Ht Hn).
        eexists. split; [reflexivity|].
        unfold wire, checksummed, with_checksum, numbered.
        cbn [transport set_transport written]. now rewrite !append_assoc.
      + unfold _do_send_without_checksum. rewrite Ht. eexists. split; [reflexivity|].
        reflexivity. }
  unfold _send_loop_emit. rewrite Hline.
  apply String.eqb_neq in Hblank.
  destruct (se_processed entry) eqn:Ep; cbn [negb].
  - destruct Hphase as [-> ->].
    unfold bind at 1, ret at 1. rewrite Hblank, Hat. exact Hemit.
  - unfold bind at 1 2. rewrite Hphase. unfold ret at 1.
    rewrite Hblank, Hat. exact Hemit.
Qed.

Lemma checksum_policy_witness :
  let entry := mkSendEntry Example.G28 None None false in
  let w := Example.printing [] in
  exists w2,
    _send_loop_emit Example.env0 1 entry w = Ok (Some Example.G28) w2
    /\ wire w2 = ["N1 G28*18" ++ LF].
Proof.
  intros entry w.
  exact (@checksum_policy Example.env0 1 entry w w Example.G28
           (mkTransport true false []) 1
           eq_refl eq_refl (fun H => ltac:(discriminate H)) eq_refl eq_refl eq_refl).
Defined.

(** ** Submitting commands *)

(** C10.  While printing a job that does not run in parallel, and without
    [force], a call of [send_commands] with two commands or more puts the
    first command on the command queue, with no type, and returns true; the
    commands after it are not looked at, and nothing else of the object
    changes. *)
Theorem send_commands_queues_first_only :
  forall (E : Env) (fuel : nat) (first second : CommandArg) (others : list CommandArg)
         (command_type : option string) (on_sent : option Callback)
         (tags : option (list string)) (w : World) (j : Job),
    state w = PROCESSING ->
    job w = Some j ->
    runs_parallel j = false ->
    let command :=
      match first with
      | Cmd c => c
      | Raw s => to_command E s None tags
      end in
    send_commands E fuel (first :: second :: others) command_type on_sent tags false w
    = Ok (Some true)
         (set_command_queue
            (command_queue w ++ [(QTuple [ECommand command; ECallback on_sent], None)])%list
            w).
Proof.
  intros E fuel first second others command_type on_sent tags w j Hs Hj Hp command.
  unfold send_commands, bind, gets, modify, ret.
  rewrite Hs, Hj, Hp. reflexivity.
Qed.

Lemma send_commands_queues_first_only_witness :
  send_commands Example.env0 1 [Cmd Example.G28; Cmd Example.M105; Raw "G1 X10"]
                (Some "mine") None None false (Example.printing [])
  = Ok (Some true)
       (set_command_queue
          [(QTuple [ECommand Example.G28; ECallback None], None)]
          (Example.printing [])).
Proof.
  exact (@send_commands_queues_first_only Example.env0 1 (Cmd Example.G28)
           (Cmd Example.M105) [Raw "G1 X10"] (Some "mine") None None
           (Example.printing []) (Example.file_job []) eq_refl eq_refl eq_refl).
Defined.

(** ** Where the code goes wrong *)

(** C1.  The pipeline does not know the phase [queuing] (its list of
    phases says [queueing]), so that phase hands every command back
    untouched, whatever the handlers are, and [_send_command] enqueues
    every command as it came.  An [M0] submitted while idle is therefore
    queued and written to the wire by the next pass of the send loop, and
    nothing is paused: no pause command is sent and no listener hears of
    one. *)
Theorem M0_is_sent_and_nothing_pauses :
  (forall hg hp (c : Command) (w : World),
      _process_command_phase hg hp "queuing" c w = Ok [c] w)
  /\ (forall (E : Env) (fuel : nat) (c : Command) (cb : option Callback) (w : World),
         _send_command E fuel (Cmd c) None None cb w
         = (r <- process E (handlers_gcode E fuel) c cb ;; ret (r || false))%monad w)
  /\ (let r1 := _send_command Example.env0 3 (Cmd Example.M0) None None None
                   Example.idle in
      let r2 := _send_loop_step Example.env0 3 (final r1) in
      returned r1 /\ returned r2
      /\ map fst (sq_send (send_queue (final r1)))
         = [mkSendEntry Example.M0 None None false]
      /\ wire (final r2) = ["M0" ++ LF]
      /\ events (final r2) = []
      /\ state (final r2) = CONNECTED).
Proof.
  split; [reflexivity|]. split.
  - intros E fuel c cb w.
    unfold _send_command, _send_command_with, bind at 1 2, gets at 1.
    destruct (ist trigger_events w); reflexivity.
  - vm_compute. repeat split.
Qed.

(** C2.  Whatever [send_commands] has put on the command queue is thrown
    away when the queue is drained: the entries are pairs and
    [_send_from_queue] skips every tuple that does not have three
    elements.  No entry reaches the send queue. *)
Theorem queued_pairs_are_dropped :
  forall (E : Env) (pairs : list (Command * option Callback * option string))
         (w : World),
    ist only_from_job w = false ->
    command_queue w
    = map (fun p => (QTuple [ECommand (fst (fst p)); ECallback (snd (fst p))], snd p))
          pairs ->
    _send_from_queue E (S (List.length pairs)) w = Ok false (set_command_queue [] w).
Proof.
  intros E pairs. induction pairs as [|[[c cb] ty] rest IH]; intros w Hjob Hq.
  - cbn [_send_from_queue List.length]. unfold bind, gets. simpl in Hq.
    rewrite Hjob, Hq. cbn.
    replace (set_command_queue [] w) with w; [reflexivity|].
    rewrite <- Hq. now destruct w.
  - cbn [List.length]. remember (S (List.length rest)) as fuel eqn:Ef.
    cbn [_send_from_queue]. unfold bind at 1 2, gets at 1 2.
    rewrite Hjob, Hq. cbn [map typed_get fst snd].
    unfold bind at 1, modify at 1. cbn [List.length Nat.eqb negb].
    subst fuel. rewrite IH; [reflexivity|exact Hjob|reflexivity].
Qed.

Lemma queued_pairs_are_dropped_witness :
  let queued := final (send_commands Example.env0 1 [Cmd Example.G28] None None None
                         false (Example.printing [])) in
  let w := set_state CONNECTED queued in
  command_queue w = [(QTuple [ECommand Example.G28; ECallback None], None)]
  /\ _send_from_queue Example.env0 2 w = Ok false (set_command_queue [] w)
  /\ returned (_on_comm_ok Example.env0 3 w)
  /\ send_queue (final (_on_comm_ok Example.env0 3 w)) = mkSendQueue [] [] false
  /\ command_queue (final (_on_comm_ok Example.env0 3 w)) = [].
Proof.
  intros queued w. split; [reflexivity|]. split.
  - exact (@queued_pairs_are_dropped Example.env0 [(Example.G28, None, None)] w
             eq_refl eq_refl).
  - split; [exact I|]. split; reflexivity.
Defined.

(** C3.  [_gcode_M112_queuing] calls [_do_send_with_checksum] without a
    line number and so raises [TypeError] before anything is written; and
    the pipeline never gets as far as calling it, because it skips the
    [queuing] phase.  An [M112] submitted while idle goes through the send
    queue like any other command: it is written once, without line number
    or checksum, the line counter stays where it was, and the connection
    stays up. *)
Theorem M112_does_not_jump_the_queue :
  (forall (c : Command) (w : World), _gcode_M112_queuing c w = Raised TypeError w)
  /\ (let r1 := _send_command Example.env0 3 (Cmd Example.M112) None None None
                   Example.idle in
      let r2 := _send_loop_step Example.env0 3 (final r1) in
      returned r1 /\ returned r2
      /\ wire (final r1) = []
      /\ map fst (sq_send (send_queue (final r1)))
         = [mkSendEntry Example.M112 None None false]
      /\ wire (final r2) = ["M112" ++ LF]
      /\ current_linenumber (final r2) = Some 1
      /\ state (final r2) = CONNECTED
      /\ send_queue_active (final r2) = true).
Proof.
  split; [reflexivity|]. vm_compute. repeat split.
Qed.

(** C9.  The stashed tool is restored only if it is truthy.  Heating tool
    1 and waiting ([M109 T1]) while tool 0 is current stashes 0; the [ok]
    that follows leaves tool 1 current and the stash in place.  With tool
    2 current the same exchange restores tool 2 and clears the stash. *)
Theorem stashed_tool_zero_is_not_restored :
  (let start := Example.printing [mkJobLine "G1 X10" 7 1 1] in
   let r1 := bind (_enqueue_for_sending Example.M109_T1 None None false false)
                  (fun _ => _send_loop_step Example.env0 3) start in
   let r2 := _on_comm_ok Example.env0 3 (final r1) in
   returned r1 /\ returned r2
   /\ ist current_tool start = PyInt 0
   /\ wire (final r1) = ["N1 M109 T1 S200*46" ++ LF]
   /\ ist former_tool (final r1) = PyInt 0
   /\ ist current_tool (final r1) = PyInt 1
   /\ ist ignore_ok (final r1) = 0
   /\ state (final r1) = PROCESSING
   /\ ist current_tool (final r2) = PyInt 1
   /\ ist former_tool (final r2) = PyInt 0)
  /\ (let start := upd_ist (set_current_tool (PyInt 2))
                           (Example.printing [mkJobLine "G1 X10" 7 1 1]) in
      let r1 := bind (_enqueue_for_sending Example.M109_T1 None None false false)
                     (fun _ => _send_loop_step Example.env0 3) start in
      let r2 := _on_comm_ok Example.env0 3 (final r1) in
      returned r1 /\ returned r2
      /\ ist former_tool (final r1) = PyInt 2
      /\ ist current_tool (final r1) = PyInt 1
      /\ ist current_tool (final r2) = PyInt 2
      /\ ist former_tool (final r2) = PyNone).
Proof. vm_compute. repeat split. Qed.

(** * Further properties *)

(** ** Rules for any ordered relation *)

Section OrderedRules.

Context {R : World -> World -> Prop} {O : Ordered R}.
Variable strict : bool.

Lemma kept_ret {A : Type} (a : A) : stable strict R (ret a).
Proof. intro w; simpl; split; [apply ordered_refl|auto]. Qed.

Lemma kept_raise {A : Type} (e : PyExc) : stable strict R (@raise A e).
Proof. intro w; simpl; split; [apply ordered_refl|auto]. Qed.

Lemma kept_gets {A : Type} (f : World -> A) : stable strict R (gets f).
Proof. intro w; simpl; split; [apply ordered_refl|auto]. Qed.

Lemma kept_modify (f : World -> World) :
  (forall w, R w (f w)) -> stable strict R (modify f).
Proof. intros H w; simpl; auto. Qed.

Lemma kept_bind {A B : Type} (m : M A) (k : A -> M B) :
  stable strict R m -> (forall a, stable strict R (k a)) ->
  stable strict R (bind m k).
Proof.
  intros Hm Hk w. unfold bind.
  destruct (Hm w) as [HR Hret].
  destruct (m w) as [a w'|e w'|w'] eqn:Em; simpl in *; auto.
  destruct (Hk a w') as [HR' Hret']. split; [|exact Hret'].
  eapply ordered_trans; eassumption.
Qed.

Lemma kept_try_except {A : Type} (m : M A) (h : PyExc -> M A) :
  stable strict R m -> (forall e, stable strict R (h e)) ->
  stable strict R (try_except m h).
Proof.
  intros Hm Hh w. unfold try_except.
  destruct (Hm w) as [HR Hret].
  destruct (m w) as [a w'|e w'|w'] eqn:Em; simpl in *; auto.
  destruct (Hh e w') as [HR' Hret']. split; [|exact Hret'].
  eapply ordered_trans; eassumption.
Qed.

Lemma kept_when (b : bool) (m : M unit) :
  stable strict R m -> stable strict R (when b m).
Proof. intro H; destruct b; simpl; [exact H|apply kept_ret]. Qed.

End OrderedRules.

Lemma kept_out_of_fuel {R : World -> World -> Prop} {O : Ordered R} {A : Type} :
  stable false R (@out_of_fuel A).
Proof. intro w; simpl; split; [apply ordered_refl|discriminate]. Qed.

(** A relation may be traded for a weaker one. *)
Lemma stable_sub {R S : World -> World -> Prop} {A : Type} (strict : bool) (m : M A) :
  (forall w w', R w w' -> S w w') -> stable strict R m -> stable strict S m.
Proof. intros Hsub H w. destruct (H w). split; auto. Qed.

Create HintDb kept_db.

Ltac kept_step side :=
  lazymatch goal with
  | |- stable _ _ (bind _ _) => apply kept_bind; [ | intro]
  | |- stable _ _ (ret _) => apply kept_ret
  | |- stable _ _ (raise _) => apply kept_raise
  | |- stable _ _ (gets _) => apply kept_gets
  | |- stable _ _ monotonic_time => apply kept_gets
  | |- stable _ _ (modify _) => apply kept_modify; intro; side
  | |- stable _ _ (when _ _) => apply kept_when
  | |- stable _ _ (try_except _ _) => apply kept_try_except; [ | intro]
  | |- stable _ _ (log_info _) => apply kept_modify; intro; side
  | |- stable _ _ (log_error _) => apply kept_modify; intro; side
  | |- stable _ _ (log_exception _) => apply kept_modify; intro; side
  | |- stable _ _ (notify_listeners _ _) => apply kept_modify; intro; side
  | |- stable _ _ credit_set => apply kept_modify; intro; side
  | |- stable _ _ credit_clear => apply kept_modify; intro; side
  | |- stable false _ out_of_fuel => apply kept_out_of_fuel
  | |- stable _ _ (if ?b then _ else _) => destruct b
  | |- stable _ _ (match ?x with _ => _ end) => destruct x
  | |- stable _ _ (let (_, _) := ?x in _) => destruct x
  end.

Ltac kept_auto side :=
  repeat first [ solve [eauto with kept_db] | kept_step side ].

(** ** What the operations outside the send loop respect *)

#[export] Instance quiet_ordered : Ordered quiet.
Proof.
  constructor.
  - intro w. unfold quiet. split; [reflexivity|]. split; [now left|].
    split; [exists []; symmetry; apply app_nil_r|].
    split; [exists []; symmetry; apply app_nil_r|]. split; [lia|auto].
  - intros a b c (Ht & Hh & [x Hx] & [y Hy] & Hc & Hq & Hf)
                 (Ht' & Hh' & [x' Hx'] & [y' Hy'] & Hc' & Hq' & Hf').
    unfold quiet. split; [congruence|].
    split; [destruct Hh' as [[H1 H2]|H1];
            [destruct Hh as [[H3 H4]|H3]; [left; split; congruence|right; congruence]
            |now right]|].
    split; [exists (x ++ x')%list; rewrite Hx', Hx; symmetry; apply app_assoc|].
    split; [exists (y ++ y')%list; rewrite Hy', Hy; symmetry; apply app_assoc|].
    split; [lia|].
    split; [|congruence].
    intro H. destruct (Hq H) as [H1 H2]. destruct (Hq' H1) as [H3 H4].
    split; [exact H3|congruence].
Qed.

Ltac quiet_side :=
  unfold quiet; cbn;
  repeat match goal with
         | |- context [let (_, _) := ?x in _] => destruct x
         end;
  cbn;
  (split; [reflexivity|]);
  (split; [left; split; reflexivity|]);
  (split; [exists []; symmetry; apply app_nil_r|]);
  (split; [exists []; symmetry; apply app_nil_r|]);
  (split; [unfold counted_set, counted_max; lia|]);
  (split; [|reflexivity]);
  let H := fresh "H" in
  intro H; split; [first [exact H|reflexivity]|reflexivity].

Section Quiet.

Variable E : Env.

Lemma quiet__enqueue_for_sending c n cb p r :
  stable false quiet (_enqueue_for_sending c n cb p r).
Proof.
  intro w. split; [|discriminate].
  unfold _enqueue_for_sending, send_queue_put, typed_put.
  destruct r; destruct (type c) as [ty|];
    try destruct (type_queued ty _);
    cbn; try apply ordered_refl;
    unfold quiet; cbn;
    (split; [reflexivity|]); (split; [left; split; reflexivity|]);
    (split; [eexists; first [reflexivity|symmetry; apply app_nil_r]|]);
    (split; [eexists; first [reflexivity|symmetry; apply app_nil_r]|]);
    (split; [lia|auto]).
Qed.

Lemma quiet_py_int v : stable false quiet (py_int E v).
Proof. unfold py_int. kept_auto quiet_side. Qed.

Lemma quiet_py_float v : stable false quiet (py_float E v).
Proof. unfold py_float. kept_auto quiet_side. Qed.

Lemma quiet_run_hook name hook phase results :
  stable false quiet (run_hook name hook phase results).
Proof. induction results as [|c rest IH]; simpl; kept_auto quiet_side. Qed.

Lemma quiet_run_hooks hooks phase results :
  stable false quiet (run_hooks hooks phase results).
Proof.
  revert results; induction hooks as [|[name hook] hooks IH]; intro results; simpl.
  - apply kept_ret.
  - apply kept_bind; [apply quiet_run_hook|intro a].
    destruct (is_nil a); [apply kept_ret|apply IH].
Qed.

Lemma quiet_hooks_for phase : stable false quiet (hooks_for phase).
Proof.
  intro w. unfold hooks_for.
  destruct (assoc phase (gcode_hooks w)); simpl; split; auto; apply ordered_refl.
Qed.

Lemma quiet_run_gcode_handlers table phase results :
  stable_table false quiet table ->
  stable false quiet (run_gcode_handlers table phase results).
Proof.
  intro Ht. induction results as [|c rest IH]; simpl; [apply kept_ret|].
  apply kept_bind.
  - destruct (code_of c) as [code|]; [|apply kept_ret].
    destruct (assoc _ table) as [h|] eqn:Eh; [|apply kept_ret].
    apply kept_bind; [eapply Ht; eassumption|intro; apply kept_ret].
  - intro a. apply kept_bind; [exact IH|intro; apply kept_ret].
Qed.

Lemma quiet_run_phase_handler (handler : Handler) results :
  (forall c, stable false quiet (handler c)) ->
  stable false quiet (run_phase_handler handler results).
Proof.
  intro Hh. induction results as [|c rest IH]; simpl; [apply kept_ret|].
  apply kept_bind; [apply Hh|intro].
  apply kept_bind; [exact IH|intro; apply kept_ret].
Qed.

Lemma quiet__process_command_phase hg hp phase c :
  stable_table false quiet hg -> stable_table false quiet hp ->
  stable false quiet (_process_command_phase hg hp phase c).
Proof.
  intros Hg Hp. unfold _process_command_phase.
  destruct (negb _); [apply kept_ret|].
  apply kept_bind; [apply quiet_hooks_for|intro hooks].
  apply kept_bind; [apply quiet_run_hooks|intros [results|]]; [|apply kept_ret].
  apply kept_bind; [now apply quiet_run_gcode_handlers|intros [new modified]].
  destruct (modified && is_nil new); [apply kept_ret|].
  destruct (assoc _ hp) as [h|] eqn:Eh; [|apply kept_ret].
  apply quiet_run_phase_handler. intro c'. eapply Hp; eassumption.
Qed.

Lemma quiet_pause_processing tg : stable false quiet (pause_processing E tg).
Proof. unfold pause_processing. kept_auto quiet_side. Qed.

Lemma quiet_cancel_processing e tg : stable false quiet (cancel_processing E e tg).
Proof. unfold cancel_processing. kept_auto quiet_side. Qed.

Lemma quiet_resume_processing tg : stable false quiet (resume_processing E tg).
Proof. unfold resume_processing. kept_auto quiet_side. Qed.

Lemma quiet_atcommand_hooks_for phase : stable false quiet (atcommand_hooks_for phase).
Proof.
  intro w. unfold atcommand_hooks_for.
  destruct (assoc phase (atcommand_hooks w)); simpl; split; auto;
    try discriminate; apply ordered_refl.
Qed.

Lemma quiet_run_atcommand_hooks hooks phase atcommand c :
  stable false quiet (run_atcommand_hooks hooks phase atcommand c).
Proof.
  induction hooks as [|[name hook] hooks IH]; simpl; [apply kept_ret|].
  apply kept_bind; [|intros _; exact IH].
  apply kept_when, kept_modify. intro; quiet_side.
Qed.

Lemma quiet__process_atcommand_phase phase c :
  stable false quiet (_process_atcommand_phase E phase c).
Proof.
  unfold _process_atcommand_phase.
  apply kept_bind; [apply kept_gets|intro streaming].
  destruct (streaming || _); [apply kept_ret|].
  apply kept_bind; [apply quiet_atcommand_hooks_for|intro hooks].
  destruct (kind c) as [| |atcommand parameters]; try apply kept_raise.
  apply kept_bind; [apply quiet_run_atcommand_hooks|intros _].
  destruct (assoc _ _) as [h|] eqn:Eh; [|apply kept_ret].
  apply kept_try_except; [|intro; apply kept_modify; intro; quiet_side].
  unfold handlers_atcommand in Eh. simpl in Eh.
  repeat match type of Eh with
         | (if ?b then _ else _) = _ => destruct b
         end;
    try discriminate; injection Eh as <-;
    unfold _atcommand_abort_queuing, _atcommand_cancel_queuing,
      _atcommand_pause_queuing, _atcommand_resume_queuing;
    apply kept_when;
    first [apply quiet_pause_processing | apply quiet_cancel_processing
          | apply quiet_resume_processing].
Qed.

Local Hint Resolve quiet__enqueue_for_sending quiet_py_int quiet_py_float
  quiet_hooks_for quiet_run_hooks quiet_pause_processing quiet_cancel_processing
  quiet_resume_processing quiet__process_atcommand_phase : kept_db.

Section QuietSending.

Variable hg : list (string * Handler).
Hypothesis hg_quiet : stable_table false quiet hg.

Lemma quiet_handlers_command_phase : stable_table false quiet handlers_command_phase.
Proof.
  intros name h c H. unfold handlers_command_phase in H. simpl in H.
  destruct (name =? _)%string; [|discriminate].
  injection H as <-. unfold _command_phase_sending. kept_auto quiet_side.
Qed.

Lemma quiet_process_command_phase phase c :
  stable false quiet (process_command_phase hg phase c).
Proof.
  apply quiet__process_command_phase;
    [exact hg_quiet|apply quiet_handlers_command_phase].
Qed.

Local Hint Resolve quiet_process_command_phase : kept_db.

Lemma quiet_process c cb : stable false quiet (process E hg c cb).
Proof. unfold process. kept_auto quiet_side. Qed.

Local Hint Resolve quiet_process : kept_db.

Lemma quiet_process_all results b : stable false quiet (process_all E hg results b).
Proof.
  revert b; induction results as [|c rest IH]; intro b; simpl; kept_auto quiet_side.
Qed.

Local Hint Resolve quiet_process_all : kept_db.

Lemma quiet__send_command_with c ty tg cb :
  stable false quiet (_send_command_with E hg c ty tg cb).
Proof. unfold _send_command_with. kept_auto quiet_side. Qed.

Lemma quiet_send_each n cs ty tg b : stable false quiet (send_each E hg n cs ty tg b).
Proof.
  revert ty b; induction cs as [|c rest IH]; intros ty b; simpl; [apply kept_ret|].
  apply kept_bind; [apply quiet__send_command_with|intro; apply IH].
Qed.

Lemma quiet__send_commands_with cs ty tg :
  stable false quiet (_send_commands_with E hg cs ty tg).
Proof. apply quiet_send_each. Qed.

End QuietSending.

Lemma quiet__gcode_M110_sending c : stable false quiet (_gcode_M110_sending E c).
Proof.
  intro w. split; [|discriminate]. rewrite line_reset_effect. cbn [final].
  unfold quiet. cbn. split; [reflexivity|].
  split; [now right|].
  split; [exists []; symmetry; apply app_nil_r|].
  split; [exists []; symmetry; apply app_nil_r|]. split; [lia|auto].
Qed.

Lemma quiet__gcode_M112_queuing c : stable false quiet (_gcode_M112_queuing c).
Proof.
  intro w. split; [|discriminate].
  change (_gcode_M112_queuing c w) with (@Raised HandlerResult TypeError w).
  apply ordered_refl.
Qed.

Lemma quiet_handlers_gcode fuel : stable_table false quiet (handlers_gcode E fuel).
Proof.
  induction fuel as [|fuel IH].
  - intros name h c H. cbn [handlers_gcode assoc] in H.
    repeat match type of H with
           | (if ?b then _ else _) = _ => destruct b
           end;
      try discriminate; injection H as <-;
      first [ apply quiet__gcode_M110_sending
            | apply quiet__gcode_M112_queuing
            | cbv beta;
              unfold _gcode_M109_sent, _gcode_M190_sent, _gcode_G1_sent, _gcode_G0_sent,
                _gcode_G4_sent, _gcode_M104_sent, _gcode_M116_sent,
                _gcode_M190_queuing, _gcode_M140_queuing, _gcode_M140_sent,
                _gcode_M155_sending, _gcode_M27_sending, _gcode_T_sent,
                _gcode_M0_queuing_with, _gcode_M25_queuing_with,
                pause_file_print_with, start_heatup, target_of, _set_temperature,
                _get_timeout;
              cbv beta; kept_auto quiet_side ].
  - intros name h c H. cbn [handlers_gcode assoc] in H.
    pose proof (quiet__send_commands_with IH) as Hsend.
    repeat match type of H with
           | (if ?b then _ else _) = _ => destruct b
           end;
      try discriminate; injection H as <-;
      first [ apply quiet__gcode_M110_sending
            | apply quiet__gcode_M112_queuing
            | cbv beta;
              unfold _gcode_M109_sent, _gcode_M190_sent, _gcode_G1_sent, _gcode_G0_sent,
                _gcode_G4_sent, _gcode_M104_sent, _gcode_M116_sent,
                _gcode_M190_queuing, _gcode_M140_queuing, _gcode_M140_sent,
                _gcode_M155_sending, _gcode_M27_sending, _gcode_T_sent,
                _gcode_M0_queuing_with, _gcode_M25_queuing_with,
                pause_file_print_with, start_heatup, target_of, _set_temperature,
                _get_timeout;
              cbv beta; kept_auto quiet_side ].
Qed.

Lemma quiet__send_command fuel c ty tg cb :
  stable false quiet (_send_command E fuel c ty tg cb).
Proof. apply quiet__send_command_with, quiet_handlers_gcode. Qed.

Lemma quiet__send_commands fuel cs ty tg :
  stable false quiet (_send_commands E fuel cs ty tg).
Proof. apply quiet__send_commands_with, quiet_handlers_gcode. Qed.

Lemma quiet_process_command_phase_any fuel phase c :
  stable false quiet (process_command_phase (handlers_gcode E fuel) phase c).
Proof. apply quiet_process_command_phase, quiet_handlers_gcode. Qed.

Local Hint Resolve quiet__send_command quiet__send_commands
  quiet_process_command_phase_any : kept_db.

Lemma quiet__send_from_queue fuel : stable false quiet (_send_from_queue E fuel).
Proof. induction fuel as [|fuel IH]; simpl; kept_auto quiet_side. Qed.

Lemma quiet__send_next_from_job fuel : stable false quiet (_send_next_from_job E fuel).
Proof. induction fuel as [|fuel IH]; simpl; kept_auto quiet_side. Qed.

Local Hint Resolve quiet__send_from_queue quiet__send_next_from_job : kept_db.

Lemma quiet__continue_sending fuel : stable false quiet (_continue_sending E fuel).
Proof. induction fuel as [|fuel IH]; simpl; kept_auto quiet_side. Qed.

Lemma quiet__send_next_from_resend again :
  stable false quiet (_send_next_from_resend again).
Proof. unfold _send_next_from_resend. kept_auto quiet_side. Qed.

Lemma quiet__finish_heatup : stable false quiet _finish_heatup.
Proof.
  intro w. split; [|discriminate].
  unfold _finish_heatup, bind, gets, when, modify, monotonic_time, ret.
  destruct (ist heating w); [|apply ordered_refl].
  destruct (ist heating_start w) as [s|] eqn:Es.
  - destruct (negb (Qeq_bool s 0)); cbn;
      unfold quiet; cbn;
      (split; [reflexivity|]); (split; [left; split; reflexivity|]);
      (split; [exists []; symmetry; apply app_nil_r|]);
      (split; [exists []; symmetry; apply app_nil_r|]);
      (split; [lia|]);
      (split; [|reflexivity]);
      intro H; congruence.
  - cbn. unfold quiet; cbn.
    (split; [reflexivity|]); (split; [left; split; reflexivity|]);
    (split; [exists []; symmetry; apply app_nil_r|]);
    (split; [exists []; symmetry; apply app_nil_r|]);
    (split; [lia|]);
    (split; [|reflexivity]).
    intro H. split; [exact H|reflexivity].
Qed.

Local Hint Resolve quiet__continue_sending quiet__send_next_from_resend
  quiet__finish_heatup : kept_db.

Lemma quiet_assign_state fuel s : stable false quiet (assign_state E fuel s).
Proof.
  unfold assign_state, _on_state_connecting, _on_state_connected,
    _on_state_disconnected, _on_state_disconnected_with_error,
    _handle_disconnected, _get_timeout.
  kept_auto quiet_side.
Qed.

Local Hint Resolve quiet_assign_state : kept_db.

Lemma quiet__on_comm_ok fuel : stable false quiet (_on_comm_ok E fuel).
Proof. unfold _on_comm_ok. kept_auto quiet_side. Qed.

Local Hint Resolve quiet__on_comm_ok : kept_db.

Lemma quiet_send_commands fuel cs ty cb tg force :
  stable false quiet (send_commands E fuel cs ty cb tg force).
Proof. unfold send_commands. kept_auto quiet_side. Qed.

(** Every operation but a pass of the send loop is quiet. *)
Lemma quiet_run_op fuel op :
  op <> OpSendLoop -> stable false quiet (run_op E fuel op).
Proof.
  intro Hop. destruct op; cbn [run_op]; try congruence.
  - apply kept_bind; [apply quiet_send_commands|intro; apply kept_ret].
  - apply kept_bind; [apply quiet__send_commands|intro; apply kept_ret].
  - unfold _on_comm_any. kept_auto quiet_side.
  - apply quiet__on_comm_ok.
  - unfold _on_comm_wait. kept_auto quiet_side.
  - unfold _on_comm_start. kept_auto quiet_side.
  - unfold _on_comm_ignore_ok. kept_auto quiet_side.
  - unfold _on_comm_resend, log_resend_request, stale_resend. kept_auto quiet_side.
  - unfold _on_comm_timeout, timeout_recovery, _send_same_from_resend.
    kept_auto quiet_side.
  - unfold _on_error_communication. kept_auto quiet_side.
Qed.

End Quiet.

#[global] Hint Resolve quiet__enqueue_for_sending quiet_py_int quiet_py_float
  quiet_hooks_for quiet_run_hooks quiet_pause_processing quiet_cancel_processing
  quiet_resume_processing quiet__process_atcommand_phase quiet__send_command
  quiet__send_commands quiet_process_command_phase_any quiet__send_from_queue
  quiet__send_next_from_job quiet__continue_sending quiet__send_next_from_resend
  quiet__finish_heatup quiet_assign_state quiet__on_comm_ok quiet_send_commands
  : kept_db.
(** ** The line history *)

Lemma numbered_from_app (h : LineHistory) : forall s l,
  numbered_from s h ->
  numbered_from s (h ++ [(Some (s + Z.of_nat (List.length h)), l)])%list.
Proof.
  induction h as [|[k x] h IH]; intros s l H; cbn [app numbered_from List.length].
  - split; [f_equal; cbn; lia|exact I].
  - destruct H as [Hk H]. split; [exact Hk|].
    replace (s + Z.of_nat (S (List.length h))) with (s + 1 + Z.of_nat (List.length h)) by lia.
    now apply IH.
Qed.

Lemma numbered_from_append (h : LineHistory) (c : Z) (l : string) :
  numbered_from (c - Z.of_nat (List.length h)) h ->
  let h' := history_append l (Some c) h in
  numbered_from (c + 1 - Z.of_nat (List.length h')) h'.
Proof.
  intros H h'. subst h'. unfold history_append.
  pose proof (@numbered_from_app h (c - Z.of_nat (List.length h)) l H) as Ha.
  replace (c - Z.of_nat (List.length h) + Z.of_nat (List.length h)) with c in Ha by lia.
  assert (Hl : List.length (h ++ [(Some c, l)])%list = S (List.length h))
    by (rewrite length_app; cbn; lia).
  destruct (_ <? _)%nat.
  - destruct (h ++ [(Some c, l)])%list as [|[k x] t] eqn:Ht; [exact I|].
    cbn [tl]. cbn [List.length] in Hl. injection Hl as Hl.
    destruct Ha as [_ Ha].
    replace (c + 1 - Z.of_nat (List.length t)) with (c - Z.of_nat (List.length h) + 1) by lia.
    exact Ha.
  - rewrite Hl.
    replace (c + 1 - Z.of_nat (S (List.length h))) with (c - Z.of_nat (List.length h)) by lia.
    exact Ha.
Qed.

Lemma numbered_from_below (h : LineHistory) : forall s c,
  numbered_from s h -> s + Z.of_nat (List.length h) <= c ->
  Forall (fun e => exists k, fst e = Some k /\ k < c) h.
Proof.
  induction h as [|[k x] h IH]; intros s c H Hc; [constructor|].
  destruct H as [-> H]. cbn [List.length] in Hc. constructor.
  - exists s. split; [reflexivity|lia].
  - apply (IH (s + 1)); [exact H|lia].
Qed.

Lemma history_contiguous_below (w : World) : history_contiguous w -> history_below w.
Proof.
  intros H c Hc. eapply numbered_from_below; [apply (H c Hc)|lia].
Qed.

Lemma history_get_cons n k x (h : LineHistory) :
  history_get (Some n) ((Some k, x) :: h)
  = if n =? k then Some x else history_get (Some n) h.
Proof. unfold history_get. cbn. now destruct (n =? k). Qed.

Lemma numbered_from_get (h : LineHistory) : forall s n,
  numbered_from s h ->
  history_get (Some n) h
  = if (s <=? n) && (n <? s + Z.of_nat (List.length h))
    then nth_error (map snd h) (Z.to_nat (n - s)) else None.
Proof.
  induction h as [|[k x] h IH]; intros s n H.
  - cbn. destruct (_ && _); [|reflexivity]. now destruct (Z.to_nat (n - s)).
  - destruct H as [-> H]. rewrite history_get_cons. cbn [List.length map snd].
    destruct (n =? s) eqn:T.
    + apply Z.eqb_eq in T. subst n.
      replace (s <=? s) with true by (symmetry; apply Z.leb_le; lia).
      replace (s <? s + Z.of_nat (S (List.length h))) with true
        by (symmetry; apply Z.ltb_lt; lia).
      now rewrite Z.sub_diag.
    + apply Z.eqb_neq in T. rewrite (IH (s + 1) n H).
      destruct (s + 1 <=? n) eqn:L1.
      * apply Z.leb_le in L1.
        replace (s <=? n) with true by (symmetry; apply Z.leb_le; lia).
        replace (s + 1 + Z.of_nat (List.length h)) with (s + Z.of_nat (S (List.length h))) by lia.
        cbn [andb]. destruct (n <? _); [|reflexivity].
        replace (Z.to_nat (n - s)) with (S (Z.to_nat (n - (s + 1)))) by lia.
        reflexivity.
      * apply Z.leb_gt in L1. cbn [andb].
        destruct (s <=? n) eqn:L2; [apply Z.leb_le in L2; lia|reflexivity].
Qed.

Lemma holds_from_skipn (h : LineHistory) (s : Z) :
  numbered_from s h ->
  forall (k : nat),
    (k <= List.length h)%nat ->
    holds_from (s + Z.of_nat k) (skipn k (map snd h)) h.
Proof.
  intros H k. remember (List.length h - k)%nat as d eqn:Hd.
  revert k Hd. induction d as [|d IH]; intros k Hd Hk.
  - rewrite skipn_all2 by (rewrite length_map; lia). exact I.
  - destruct (nth_error (map snd h) k) as [l|] eqn:Hn.
    + assert (Hs : skipn k (map snd h) = l :: skipn (S k) (map snd h)).
      { clear -Hn. revert k Hn. induction (map snd h) as [|a m IHm]; intros k Hn.
        - destruct k; discriminate.
        - destruct k; [cbn in Hn; now injection Hn as ->|]. cbn in *. now apply IHm. }
      rewrite Hs. cbn [holds_from]. split.
      * rewrite (@numbered_from_get h s (s + Z.of_nat k) H).
        replace (s <=? s + Z.of_nat k) with true by (symmetry; apply Z.leb_le; lia).
        replace (s + Z.of_nat k <? s + Z.of_nat (List.length h)) with true
          by (symmetry; apply Z.ltb_lt; lia).
        cbn [andb]. replace (Z.to_nat (s + Z.of_nat k - s)) with k by lia. exact Hn.
      * replace (s + Z.of_nat k + 1) with (s + Z.of_nat (S k)) by lia.
        apply IH; lia.
    + apply nth_error_None in Hn. rewrite length_map in Hn. lia.
Qed.

Lemma history_contains_cons n k x (h : LineHistory) :
  history_contains (Some n) ((Some k, x) :: h)
  = (n =? k) || history_contains (Some n) h.
Proof. reflexivity. Qed.

Lemma numbered_from_contains (h : LineHistory) : forall s n,
  numbered_from s h ->
  history_contains (Some n) h = (s <=? n) && (n <? s + Z.of_nat (List.length h)).
Proof.
  induction h as [|[k x] h IH]; intros s n H.
  - cbn. destruct (s <=? n) eqn:L; [|reflexivity]. apply Z.leb_le in L.
    symmetry. apply Z.ltb_ge. lia.
  - destruct H as [-> H]. rewrite history_contains_cons.
    rewrite (IH (s + 1) n H). cbn [List.length].
    destruct (n =? s) eqn:T.
    + apply Z.eqb_eq in T. subst n. cbn [orb]. symmetry.
      apply andb_true_iff. split; [apply Z.leb_le|apply Z.ltb_lt]; lia.
    + apply Z.eqb_neq in T. cbn [orb].
      replace (s + 1 + Z.of_nat (List.length h)) with (s + Z.of_nat (S (List.length h))) by lia.
      f_equal. destruct (s + 1 <=? n) eqn:L1; destruct (s <=? n) eqn:L2; try reflexivity.
      * apply Z.leb_le in L1. apply Z.leb_gt in L2. lia.
      * apply Z.leb_gt in L1. apply Z.leb_le in L2. lia.
Qed.

(** ** What a pass of the send loop does to the history and the wire *)

#[export] Instance contiguous_kept_ordered : Ordered contiguous_kept.
Proof. constructor; unfold contiguous_kept; auto. Qed.

#[export] Instance wrote_nothing_ordered : Ordered (wrote 0).
Proof.
  constructor.
  - intro w. exists []. split; [symmetry; apply app_nil_r|auto].
  - intros a b c (x & Hx & Lx) (y & Hy & Ly).
    destruct x; [|simpl in Lx; lia]. destruct y; [|simpl in Ly; lia].
    exists []. split; [|auto]. rewrite Hy, Hx. now rewrite !app_nil_r.
Qed.

Lemma contiguous_kept_of_quiet (w w' : World) : quiet w w' -> contiguous_kept w w'.
Proof.
  intros (_ & [[H1 H2]|H1] & _) Hw c Hc.
  - rewrite H1. apply Hw. congruence.
  - rewrite H1. exact I.
Qed.

Lemma wrote_nothing_of_quiet (w w' : World) : quiet w w' -> wrote 0 w w'.
Proof.
  intros (H & _). exists []. split; [|auto].
  unfold wire. rewrite H. symmetry. apply app_nil_r.
Qed.

Lemma wrote_more (a b : nat) (w w' : World) :
  (a <= b)%nat -> wrote a w w' -> wrote b w w'.
Proof. intros Hab (ls & H & L). exists ls. split; [exact H|lia]. Qed.

Lemma wrote_then (a b : nat) (w w' w'' : World) :
  wrote a w w' -> wrote b w' w'' -> wrote (a + b) w w''.
Proof.
  intros (x & Hx & Lx) (y & Hy & Ly). exists (x ++ y)%list.
  split; [rewrite Hy, Hx; symmetry; apply app_assoc|rewrite length_app; lia].
Qed.

Lemma wrote_bind (a b : nat) {A B : Type} (m : M A) (k : A -> M B) :
  stable false (wrote a) m -> (forall x, stable false (wrote b) (k x)) ->
  stable false (wrote (a + b)) (bind m k).
Proof.
  intros Hm Hk w. split; [|discriminate]. unfold bind.
  destruct (Hm w) as [HR _].
  destruct (m w) as [x w'|e w'|w'] eqn:Em; simpl in *.
  - destruct (Hk x w') as [HR' _]. eapply wrote_then; eassumption.
  - eapply wrote_more; [|exact HR]. lia.
  - eapply wrote_more; [|exact HR]. lia.
Qed.

Lemma wrote_try_except (a b : nat) {A : Type} (m : M A) (h : PyExc -> M A) :
  stable false (wrote a) m -> (forall e, stable false (wrote b) (h e)) ->
  stable false (wrote (a + b)) (try_except m h).
Proof.
  intros Hm Hh w. split; [|discriminate]. unfold try_except.
  destruct (Hm w) as [HR _].
  destruct (m w) as [x w'|e w'|w'] eqn:Em; simpl in *.
  - eapply wrote_more; [|exact HR]. lia.
  - destruct (Hh e w') as [HR' _]. eapply wrote_then; eassumption.
  - eapply wrote_more; [|exact HR]. lia.
Qed.

Lemma wrote_one_of_nothing (w w' : World) : wrote 0 w w' -> wrote 1 w w'.
Proof. apply wrote_more. lia. Qed.

Lemma wrote_bind_01 {A B : Type} (m : M A) (k : A -> M B) :
  stable false (wrote 0) m -> (forall x, stable false (wrote 1) (k x)) ->
  stable false (wrote 1) (bind m k).
Proof. apply (@wrote_bind 0%nat 1%nat). Qed.

Lemma wrote_bind_10 {A B : Type} (m : M A) (k : A -> M B) :
  stable false (wrote 1) m -> (forall x, stable false (wrote 0) (k x)) ->
  stable false (wrote 1) (bind m k).
Proof. apply (@wrote_bind 1%nat 0%nat). Qed.

Lemma wrote_try_except_10 {A : Type} (m : M A) (h : PyExc -> M A) :
  stable false (wrote 1) m -> (forall e, stable false (wrote 0) (h e)) ->
  stable false (wrote 1) (try_except m h).
Proof. apply (@wrote_try_except 1%nat 0%nat). Qed.

Ltac contiguous_side := unfold contiguous_kept; cbn; exact (fun H => H).

Ltac wrote_side :=
  exists (@nil string); split; [symmetry; apply app_nil_r|auto].

Ltac kept_auto_via lem side :=
  repeat first [ solve [eauto with kept_db]
               | solve [apply (stable_sub lem); eauto with kept_db]
               | kept_step side ].

Section SendLoop.

Variable E : Env.

Lemma contiguous__do_send_without_checksum d :
  stable false contiguous_kept (_do_send_without_checksum d).
Proof.
  intro w. split; [|discriminate]. unfold _do_send_without_checksum.
  destruct (transport w); cbn; [contiguous_side|apply ordered_refl].
Qed.

Lemma contiguous__do_send_with_checksum l n :
  stable false contiguous_kept (_do_send_with_checksum l n).
Proof. apply contiguous__do_send_without_checksum. Qed.

Lemma contiguous__do_increment l :
  stable false contiguous_kept (_do_increment_and_send_with_checksum l).
Proof.
  intro w. split; [|discriminate].
  unfold _do_increment_and_send_with_checksum, bind, gets, _add_to_last_lines, modify,
    raise, _do_send_with_checksum, _do_send_without_checksum.
  destruct (current_linenumber w) as [n|] eqn:En; cbn.
  - destruct (transport w) as [t|]; cbn; unfold contiguous_kept;
      intros Hw c Hc; cbn in Hc; injection Hc as <-; cbn;
      apply numbered_from_append, (Hw n En).
  - unfold contiguous_kept. intros Hw c Hc. cbn in Hc. congruence.
Qed.

Lemma wrote__do_send_without_checksum d :
  stable false (wrote 1) (_do_send_without_checksum d).
Proof.
  intro w. split; [|discriminate]. unfold _do_send_without_checksum.
  destruct (transport w) as [t|] eqn:Et; cbn.
  - eexists. unfold wire. cbn. rewrite Et. split; [reflexivity|simpl; lia].
  - exists []. split; [symmetry; apply app_nil_r|simpl; lia].
Qed.

Lemma wrote__do_send_with_checksum l n :
  stable false (wrote 1) (_do_send_with_checksum l n).
Proof. apply wrote__do_send_without_checksum. Qed.

Lemma wrote__do_increment l :
  stable false (wrote 1) (_do_increment_and_send_with_checksum l).
Proof.
  unfold _do_increment_and_send_with_checksum.
  apply wrote_bind_01; [apply kept_gets|intro n].
  apply wrote_bind_01;
    [unfold _add_to_last_lines; apply kept_modify; intro; wrote_side|intros _].
  apply wrote_bind_01; [|intros _; apply wrote__do_send_with_checksum].
  destruct n; [apply kept_modify; intro; wrote_side|apply kept_raise].
Qed.

Local Hint Resolve contiguous__do_send_without_checksum contiguous__do_send_with_checksum
  contiguous__do_increment : kept_db.

Lemma contiguous_emit c : stable false contiguous_kept (emit c).
Proof. unfold emit. kept_auto_via contiguous_kept_of_quiet contiguous_side. Qed.

Lemma wrote_emit c : stable false (wrote 1) (emit c).
Proof.
  unfold emit. apply wrote_bind_01; [apply kept_gets|intro w].
  destruct (transport w); [|eapply stable_sub; [apply wrote_one_of_nothing|apply kept_raise]].
  destruct (send_with_checksum c w t);
    [apply wrote__do_increment|apply wrote__do_send_without_checksum].
Qed.

Local Hint Resolve contiguous_emit : kept_db.

Lemma contiguous__send_loop_emit fuel e :
  stable false contiguous_kept (_send_loop_emit E fuel e).
Proof. unfold _send_loop_emit. kept_auto_via contiguous_kept_of_quiet contiguous_side. Qed.

Lemma contiguous__send_loop_sent fuel e c :
  stable false contiguous_kept (_send_loop_sent E fuel e c).
Proof. unfold _send_loop_sent. kept_auto_via contiguous_kept_of_quiet contiguous_side. Qed.

Lemma wrote__send_loop_sent fuel e c :
  stable false (wrote 0) (_send_loop_sent E fuel e c).
Proof. unfold _send_loop_sent. kept_auto_via wrote_nothing_of_quiet wrote_side. Qed.

Lemma wrote_nothing_then_ret {A B : Type} (m : M A) (b : B) :
  stable false quiet m -> stable false (wrote 0) (bind m (fun _ => ret b)).
Proof.
  intro H. apply kept_bind; [|intro; apply kept_ret].
  eapply stable_sub; [apply wrote_nothing_of_quiet|exact H].
Qed.

Lemma wrote__send_loop_emit fuel e :
  stable false (wrote 1) (_send_loop_emit E fuel e).
Proof.
  unfold _send_loop_emit. destruct (se_linenumber e).
  - apply wrote_bind_10; [apply wrote__do_send_with_checksum|intro; apply kept_ret].
  - apply wrote_bind_01.
    + destruct (negb (se_processed e)); [|apply kept_ret].
      apply kept_bind.
      * eapply stable_sub; [apply wrote_nothing_of_quiet|].
        apply quiet_process_command_phase_any.
      * intros [|c [|c' rest]]; [|apply kept_ret|apply kept_raise].
        apply wrote_nothing_then_ret, quiet__continue_sending.
    + intros [c|]; [|eapply stable_sub; [apply wrote_one_of_nothing|apply kept_ret]].
      destruct (_ =? _)%string;
        [|destruct (is_atcommand c)];
        try solve [eapply stable_sub; [apply wrote_one_of_nothing|];
                   kept_auto_via wrote_nothing_of_quiet wrote_side].
      apply wrote_bind_10; [apply wrote_emit|intro; apply kept_ret].
Qed.

Lemma contiguous__send_loop_step fuel :
  stable false contiguous_kept (_send_loop_step E fuel).
Proof.
  pose proof (contiguous__send_loop_emit fuel).
  pose proof (contiguous__send_loop_sent fuel).
  unfold _send_loop_step. kept_auto_via contiguous_kept_of_quiet contiguous_side.
Qed.

Lemma wrote__send_loop_step fuel :
  stable false (wrote 1) (_send_loop_step E fuel).
Proof.
  unfold _send_loop_step.
  apply wrote_bind_01; [apply kept_gets|intro active].
  destruct (negb active);
    [eapply stable_sub; [apply wrote_one_of_nothing|];
     kept_auto wrote_side|].
  apply wrote_bind_01; [apply kept_gets|intro q].
  destruct (send_queue_get q) as [[entry q']|];
    [|eapply stable_sub; [apply wrote_one_of_nothing|apply kept_ret]].
  apply wrote_bind_01; [apply kept_modify; intro; wrote_side|intros _].
  apply wrote_bind_01; [apply kept_gets|intro still].
  destruct (negb still);
    [eapply stable_sub; [apply wrote_one_of_nothing|];
     kept_auto wrote_side|].
  apply wrote_bind_10; [|intro; apply kept_ret].
  apply wrote_try_except_10; [|intro; kept_auto wrote_side].
  apply wrote_bind_10; [apply wrote__send_loop_emit|intros [c|]];
    [|apply kept_ret].
  apply wrote__send_loop_sent.
Qed.

End SendLoop.
(** ** A pass of the send loop and the heat-up accounting *)

#[export] Instance heat_kept_ordered : Ordered heat_kept.
Proof.
  constructor; unfold heat_kept.
  - auto.
  - intros a b c Hab Hbc H. destruct (Hab H) as [H1 H2].
    destruct (Hbc H1) as [H3 H4]. split; congruence.
Qed.

Lemma heat_kept_of_quiet (w w' : World) : quiet w w' -> heat_kept w w'.
Proof. intros (_ & _ & _ & _ & _ & H & _). exact H. Qed.

Ltac heat_side :=
  unfold heat_kept; cbn;
  let H := fresh "H" in
  intro H; split; [first [exact H|reflexivity]|reflexivity].

Section SendLoopHeat.

Variable E : Env.

Lemma heat__do_send_without_checksum d :
  stable false heat_kept (_do_send_without_checksum d).
Proof.
  intro w. split; [|discriminate]. unfold _do_send_without_checksum.
  destruct (transport w); cbn; [heat_side|apply ordered_refl].
Qed.

Lemma heat__do_increment l :
  stable false heat_kept (_do_increment_and_send_with_checksum l).
Proof.
  pose proof heat__do_send_without_checksum.
  unfold _do_increment_and_send_with_checksum, _do_send_with_checksum, _add_to_last_lines.
  kept_auto heat_side.
Qed.

Lemma heat_emit c : stable false heat_kept (emit c).
Proof.
  pose proof heat__do_send_without_checksum. pose proof heat__do_increment.
  unfold emit. kept_auto_via heat_kept_of_quiet heat_side.
Qed.

Lemma heat__send_loop_emit fuel e :
  stable false heat_kept (_send_loop_emit E fuel e).
Proof.
  pose proof heat__do_send_without_checksum. pose proof heat_emit.
  unfold _send_loop_emit, _do_send_with_checksum.
  kept_auto_via heat_kept_of_quiet heat_side.
Qed.

Lemma heat__send_loop_sent fuel e c :
  stable false heat_kept (_send_loop_sent E fuel e c).
Proof. unfold _send_loop_sent. kept_auto_via heat_kept_of_quiet heat_side. Qed.

Lemma heat__send_loop_step fuel :
  stable false heat_kept (_send_loop_step E fuel).
Proof.
  pose proof (heat__send_loop_emit fuel).
  pose proof (heat__send_loop_sent fuel).
  unfold _send_loop_step. kept_auto_via heat_kept_of_quiet heat_side.
Qed.

End SendLoopHeat.
(** ** The operations *)

Lemma Op_eq_send_loop (op : Op) : {op = OpSendLoop} + {op <> OpSendLoop}.
Proof. destruct op; first [now left|right; discriminate]. Qed.

(** ** Serving a resend request *)

Lemma resend_step n c l (w : World) :
  ist resend_linenumber w = Some n -> current_linenumber w = Some c ->
  history_get (Some n) (last_lines w) = Some l ->
  exists w',
    _send_next_from_resend false w = Ok true w'
    /\ sq_resend (send_queue w')
       = (sq_resend (send_queue w) ++ resend_entries n [l])%list
    /\ sq_send (send_queue w') = sq_send (send_queue w)
    /\ last_lines w' = last_lines w
    /\ current_linenumber w' = Some c
    /\ transport w' = transport w
    /\ (if n + 1 =? c
        then ist resend_requested w' = None
             /\ ist resend_linenumber w' = None
             /\ ist resend_count w' = Some 0
             /\ resend_active (send_queue w') = false
        else ist resend_requested w' = ist resend_requested w
             /\ ist resend_linenumber w' = Some (n + 1)
             /\ ist resend_count w' = ist resend_count w
             /\ resend_active (send_queue w') = resend_active (send_queue w)).
Proof.
  intros Hn Hc Hl.
  unfold _send_next_from_resend.
  cbv beta iota zeta delta [bind gets modify ret when _enqueue_for_sending].
  change (ist resend_linenumber (set_last_communication_error None w))
    with (ist resend_linenumber w).
  rewrite Hn.
  change (last_lines (set_last_communication_error None w)) with (last_lines w).
  rewrite Hl. cbn. rewrite Hc.
  destruct (n + 1 =? c) eqn:T; cbn; eexists; (split; [reflexivity|]); cbn;
    repeat split; try assumption; try reflexivity.
Qed.

Lemma find_app_new (n : Z) (l : string) (h : LineHistory) (c : Z) :
  Forall (fun e => exists k, fst e = Some k /\ k < c) h -> c <= n ->
  find (fun e => opt_Z_eqb (Some n) (fst e)) (h ++ [(Some n, l)])%list
  = Some (Some n, l).
Proof.
  intros Hh Hn. induction h as [|[k x] h IH]; cbn.
  - now rewrite Z.eqb_refl.
  - inversion Hh as [|? ? (k' & Hk & Hlt) Hrest]; subst. cbn in Hk. subst k. cbn.
    destruct (n =? k') eqn:T; [apply Z.eqb_eq in T; lia|]. now apply IH.
Qed.

Lemma history_get_append_new (n : Z) (l : string) (h : LineHistory) :
  Forall (fun e => exists k, fst e = Some k /\ k < n) h ->
  history_get (Some n) (history_append l (Some n) h) = Some l.
Proof.
  intro Hh. unfold history_get, history_append.
  destruct (_ <? _)%nat eqn:L.
  - destruct h as [|e h]; [discriminate L|]. cbn [app tl].
    inversion Hh; subst. now rewrite (@find_app_new n l h n) by (auto; lia).
  - now rewrite (@find_app_new n l h n) by (auto; lia).
Qed.

Lemma resend_emit_effect (E : Env) (fuel : nat) (l : string) (n : Z)
  (w : World) (t : Transport) :
  transport w = Some t ->
  _send_loop_emit E fuel (mkSendEntry (Command_of_line l) (Some n) None true) w
  = Ok (Some (Command_of_line l))
       (set_transport
          (Some (mkTransport (t_active t) (message_integrity t)
                             (written t ++ [checksummed l n])%list)) w).
Proof.
  intro Ht. unfold _send_loop_emit. cbn [se_linenumber se_command Command_of_line line].
  unfold bind. now rewrite (@do_send_with_checksum_effect l n w t Ht).
Qed.

Lemma resend_walk (rest : list string) :
  forall (l : string) (n : Z) (w : World),
    ist resend_linenumber w = Some n ->
    current_linenumber w = Some (n + Z.of_nat (List.length (l :: rest))) ->
    holds_from n (l :: rest) (last_lines w) ->
    exists w',
      calls (List.length (l :: rest)) (_send_next_from_resend false) w
      = Ok (repeat true (List.length (l :: rest))) w'
      /\ sq_resend (send_queue w')
         = (sq_resend (send_queue w) ++ resend_entries n (l :: rest))%list
      /\ sq_send (send_queue w') = sq_send (send_queue w)
      /\ ist resend_requested w' = None
      /\ ist resend_linenumber w' = None
      /\ ist resend_count w' = Some 0
      /\ resend_active (send_queue w') = false
      /\ current_linenumber w' = current_linenumber w
      /\ last_lines w' = last_lines w
      /\ transport w' = transport w.
Proof.
  induction rest as [|l2 rest IH]; intros l n w Hn Hc [Hl Hrest].
  - destruct (@resend_step n _ l w Hn Hc Hl) as (w' & Hrun & Hr & Hs & Hh & Hc' & Ht & Hcase).
    replace (n + 1 =? n + Z.of_nat (List.length [l])) with true in Hcase
      by (symmetry; apply Z.eqb_eq; reflexivity).
    destruct Hcase as (H1 & H2 & H3 & H4).
    exists w'. cbn [calls List.length repeat]. unfold bind. rewrite Hrun.
    repeat split; try assumption. congruence.
  - destruct (@resend_step n _ l w Hn Hc Hl) as (w1 & Hrun & Hr & Hs & Hh & Hc' & Ht & Hcase).
    replace (n + 1 =? n + Z.of_nat (List.length (l :: l2 :: rest))) with false in Hcase
      by (symmetry; apply Z.eqb_neq; cbn [List.length]; lia).
    destruct Hcase as (H1 & H2 & H3 & H4).
    destruct (IH l2 (n + 1) w1) as (w' & Hrun' & Hr' & Hs' & Ha & Hb & Hcn & Hd & He & Hf & Hg).
    + exact H2.
    + rewrite Hc'. f_equal. cbn [List.length]. lia.
    + rewrite Hh. exact Hrest.
    + exists w'. change (List.length (l :: l2 :: rest)) with (S (List.length (l2 :: rest))).
      cbn [calls]. unfold bind at 1. rewrite Hrun. unfold bind at 1.
      rewrite Hrun'. split; [reflexivity|].
      split; [rewrite Hr', Hr; cbn [resend_entries]; now rewrite <- app_assoc|].
      repeat split; congruence.
Qed.
(** ** Who writes, and how much *)

(** X1.  Only the send loop writes to the transport: the public
    [send_commands], the helpers and every handler of the receiving side
    leave the transport, and with it the bytes on the wire, as they found
    it; what they want sent they put on the send queue. *)
Theorem only_the_send_loop_writes :
  forall (E : Env) (fuel : nat) (op : Op) (w : World),
    op <> OpSendLoop ->
    transport (final (run_op E fuel op w)) = transport w
    /\ wire (final (run_op E fuel op w)) = wire w.
Proof.
  intros E fuel op w Hop.
  destruct (quiet_run_op E fuel Hop w) as [(Ht & _) _].
  split; [exact Ht|]. unfold wire. now rewrite Ht.
Qed.

Lemma only_the_send_loop_writes_witness :
  let w := Example.printing [mkJobLine "G1 X10" 7 1 1] in
  returned (run_op Example.env0 5 OpCommOk w)
  /\ sq_send (send_queue (final (run_op Example.env0 5 OpCommOk w))) <> []
  /\ wire (final (run_op Example.env0 5 OpCommOk w)) = wire w.
Proof.
  intro w. split; [exact I|]. split; [vm_compute; discriminate|].
  apply (only_the_send_loop_writes Example.env0 5%nat (op := OpCommOk) w).
  discriminate.
Defined.

(** X2.  One pass of the send loop puts at most one line on the wire,
    whatever the entry it takes from the send queue, whatever the built-in
    handlers of the [sending] and [sent] phases do with it, and whatever
    commands the plugin hooks of these phases return, or whether they
    raise.  A hook is a function of the phase and the command here and an
    [on_sent] callback is only recorded as called: what a hook or a
    callback might itself do to the protocol object or the transport is
    outside the statement. *)
Theorem a_pass_writes_at_most_one_line :
  forall (E : Env) (fuel : nat) (w : World),
    exists ls,
      wire (final (_send_loop_step E fuel w)) = (wire w ++ ls)%list
      /\ (List.length ls <= 1)%nat.
Proof.
  intros E fuel w. destruct (wrote__send_loop_step E fuel w) as [H _]. exact H.
Qed.

(** X3.  The line history never has a gap.  It starts out empty, and
    every operation of the engine keeps it a run of consecutive line
    numbers that ends just below the line counter.  So a line number is on
    record exactly when it lies in that run; in particular the counter
    itself and the numbers beyond it are never on record, and a resend
    request for one of them finds nothing to repeat. *)
Theorem history_has_no_gap :
  forall (E : Env) (fuel : nat) (op : Op) (w : World),
    history_contiguous w ->
    let w' := final (run_op E fuel op w) in
    history_contiguous w'
    /\ history_below w'
    /\ (forall c n,
          current_linenumber w' = Some c ->
          history_contains (Some n) (last_lines w')
          = (c - Z.of_nat (List.length (last_lines w')) <=? n) && (n <? c)).
Proof.
  intros E fuel op w Hw w'.
  assert (Hb : history_contiguous w').
  { destruct (Op_eq_send_loop op) as [->|Hop].
    - subst w'. cbn [run_op].
      assert (S : stable false contiguous_kept (_send_loop_step E fuel ;; ret tt)).
      { apply kept_bind; [apply contiguous__send_loop_step|intro; apply kept_ret]. }
      destruct (S w) as [H _]. apply H, Hw.
    - destruct (quiet_run_op E fuel Hop w) as [H _].
      apply (contiguous_kept_of_quiet H), Hw. }
  split; [exact Hb|]. split; [now apply history_contiguous_below|].
  intros c n Hc. rewrite (@numbered_from_contains _ _ n (Hb c Hc)).
  f_equal. f_equal. lia.
Qed.

Lemma history_has_no_gap_witness :
  let w0 := final (_on_comm_ok Example.env0 5
                     (Example.printing [mkJobLine "G1 X10" 7 1 1;
                                        mkJobLine "G1 X20" 14 2 2])) in
  let w := final (run_op Example.env0 5 OpCommOk
                    (final (run_op Example.env0 5 OpSendLoop w0))) in
  let w' := final (run_op Example.env0 5 OpSendLoop w) in
  last_lines w = [(Some 1, "G1 X10")]
  /\ history_contiguous w
  /\ last_lines w' = [(Some 1, "G1 X10"); (Some 2, "G1 X20")]
  /\ history_contiguous w'.
Proof.
  intros w0 w w'.
  assert (Hw : history_contiguous w).
  { intros c Hc. vm_compute in Hc. injection Hc as <-. vm_compute. auto. }
  split; [reflexivity|]. split; [exact Hw|]. split; [reflexivity|].
  apply (history_has_no_gap Example.env0 5%nat OpSendLoop Hw).
Defined.

(** X4.  What waits on the send queue keeps its place: an operation other
    than a pass of the send loop removes nothing from the two tracks of
    the send queue and reorders nothing; it can only add entries at the
    tail. *)
Theorem send_queue_grows_at_the_tail :
  forall (E : Env) (fuel : nat) (op : Op) (w : World),
    op <> OpSendLoop ->
    let q := send_queue w in
    let q' := send_queue (final (run_op E fuel op w)) in
    (exists extra, sq_send q' = (sq_send q ++ extra)%list)
    /\ (exists extra, sq_resend q' = (sq_resend q ++ extra)%list).
Proof.
  intros E fuel op w Hop.
  destruct (quiet_run_op E fuel Hop w) as [(_ & _ & Hs & Hr & _) _].
  split; assumption.
Qed.

Lemma send_queue_grows_at_the_tail_witness :
  let w := final (run_op Example.env0 5
                    (OpHelper [Cmd Example.G28] None) Example.idle) in
  let q' := send_queue (final (run_op Example.env0 5
                                 (OpHelper [Cmd Example.M105] None) w)) in
  sq_send (send_queue w) <> []
  /\ (exists extra, sq_send q' = (sq_send (send_queue w) ++ extra)%list)
  /\ (exists extra, sq_resend q' = (sq_resend (send_queue w) ++ extra)%list).
Proof.
  intro w. split; [vm_compute; discriminate|].
  apply (send_queue_grows_at_the_tail Example.env0 5%nat
           (op := OpHelper [Cmd Example.M105] None) w).
  discriminate.
Defined.

(** X5.  Credit is used up by the send loop only: an operation other than
    a pass of the send loop never lowers the count of [clear_to_send] and
    never lifts it above the maximum of the event. *)
Theorem credit_is_used_up_by_the_send_loop_only :
  forall (E : Env) (fuel : nat) (op : Op) (w : World),
    op <> OpSendLoop ->
    clear_to_send w <= counted_max ->
    clear_to_send w <= clear_to_send (final (run_op E fuel op w)) <= counted_max.
Proof.
  intros E fuel op w Hop Hc.
  destruct (quiet_run_op E fuel Hop w) as [(_ & _ & _ & _ & H & _) _].
  apply H, Hc.
Qed.

Lemma credit_is_used_up_by_the_send_loop_only_witness :
  let w := Example.printing [mkJobLine "G1 X10" 7 1 1] in
  clear_to_send w = 1
  /\ clear_to_send (final (run_op Example.env0 5 OpCommOk w)) = 2
  /\ clear_to_send w <= clear_to_send (final (run_op Example.env0 5 OpCommOk w))
     <= counted_max.
Proof.
  intro w. split; [reflexivity|]. split; [reflexivity|].
  apply (credit_is_used_up_by_the_send_loop_only Example.env0 5%nat (op := OpCommOk) w).
  - discriminate.
  - vm_compute. discriminate.
Defined.

(** X6.  The time lost to heat-ups is never accounted for.  [__init__]
    leaves [heating_start] empty; [M109], [M190] and [M116] stamp
    [heatup_start], a different key, so no operation of the engine puts a
    start on record, and [_finish_heatup], which reads [heating_start],
    finds nothing to add to [heating_lost]. *)
Theorem heatup_time_is_never_accounted :
  forall (E : Env) (fuel : nat) (op : Op) (w : World),
    ist heating_start w = None ->
    ist heating_start (final (run_op E fuel op w)) = None
    /\ ist heating_lost (final (run_op E fuel op w)) = ist heating_lost w.
Proof.
  intros E fuel op w Hw.
  destruct (Op_eq_send_loop op) as [->|Hop].
  - cbn [run_op].
    assert (S : stable false heat_kept (_send_loop_step E fuel ;; ret tt)).
    { apply kept_bind; [apply heat__send_loop_step|intro; apply kept_ret]. }
    destruct (S w) as [H _]. apply H, Hw.
  - destruct (quiet_run_op E fuel Hop w) as [(_ & _ & _ & _ & _ & H & _) _]. apply H, Hw.
Qed.

Lemma heatup_time_is_never_accounted_witness :
  let w0 := final (_on_comm_ok Example.env0 5
                     (Example.printing [mkJobLine "M109 S200" 9 1 1])) in
  let w := final (run_op Example.env0 5 OpSendLoop w0) in
  let w' := final (run_op Example.env0 5 OpCommOk w) in
  ist heating w = true
  /\ ist heatup_start w <> None
  /\ ist heating w' = false
  /\ ist heating_start w' = None
  /\ ist heating_lost w' = ist heating_lost w.
Proof.
  intros w0 w w'. split; [reflexivity|]. split; [vm_compute; discriminate|].
  split; [reflexivity|].
  apply (heatup_time_is_never_accounted Example.env0 5%nat OpCommOk w).
  reflexivity.
Defined.
(** ** Resends *)

(** X7.  A resend request is served line by line, in order, up to the line
    counter, and is then over.  With a history without a gap, the resend
    cursor at a line [n] that is on record and the counter at [c], the
    next [c - n] calls of [_send_next_from_resend] all return [True] and
    put the lines [n] to [c - 1] of the history on the resend track of
    the send queue, in ascending order, each under its own number and
    marked as processed;
    ordinary entries stay where they are; after the last call the request
    and the cursor are cleared, the count is 0 and the queue is out of
    resend mode.  Counter, history and transport are not touched. *)
Theorem resend_walks_the_window :
  forall (w : World) (n c : Z),
    history_contiguous w ->
    ist resend_linenumber w = Some n ->
    current_linenumber w = Some c ->
    history_contains (Some n) (last_lines w) = true ->
    let lines := lines_from n w in
    Z.of_nat (List.length lines) = c - n
    /\ holds_from n lines (last_lines w)
    /\ exists w',
         calls (List.length lines) (_send_next_from_resend false) w
         = Ok (repeat true (List.length lines)) w'
         /\ sq_resend (send_queue w')
            = (sq_resend (send_queue w) ++ resend_entries n lines)%list
         /\ sq_send (send_queue w') = sq_send (send_queue w)
         /\ ist resend_requested w' = None
         /\ ist resend_linenumber w' = None
         /\ ist resend_count w' = Some 0
         /\ resend_active (send_queue w') = false
         /\ current_linenumber w' = current_linenumber w
         /\ last_lines w' = last_lines w
         /\ transport w' = transport w.
Proof.
  intros w n c Hw Hn Hc Hin lines.
  pose proof (Hw c Hc) as Hnum.
  rewrite (@numbered_from_contains _ _ n Hnum) in Hin.
  apply andb_true_iff in Hin. destruct Hin as [H1 H2].
  apply Z.leb_le in H1. apply Z.ltb_lt in H2.
  set (len := List.length (last_lines w)) in *.
  assert (Hlines : lines = skipn (len - Z.to_nat (c - n)) (map snd (last_lines w))).
  { subst lines. unfold lines_from. now rewrite Hc. }
  assert (Hlen : Z.of_nat (List.length lines) = c - n).
  { rewrite Hlines, length_skipn, length_map. fold len. lia. }
  assert (Hholds : holds_from n lines (last_lines w)).
  { rewrite Hlines.
    replace n with (c - Z.of_nat len + Z.of_nat (len - Z.to_nat (c - n))) at 1 by lia.
    apply holds_from_skipn; [exact Hnum|fold len; lia]. }
  split; [exact Hlen|]. split; [exact Hholds|].
  destruct lines as [|l rest]; [cbn in Hlen; lia|].
  apply resend_walk; [exact Hn| |exact Hholds].
  rewrite Hc. f_equal. lia.
Qed.

Lemma resend_walks_the_window_witness :
  let w0 := final (_on_comm_ok Example.env0 5
                     (Example.printing [mkJobLine "G1 X10" 7 1 1;
                                        mkJobLine "G1 X20" 14 2 2])) in
  let w2 := final (run_op Example.env0 5 OpSendLoop
              (final (run_op Example.env0 5 OpCommOk
                 (final (run_op Example.env0 5 OpSendLoop w0))))) in
  let w := final (run_op Example.env0 5 (OpCommResend (Some 1)) w2) in
  last_lines w = [(Some 1, "G1 X10"); (Some 2, "G1 X20")]
  /\ resend_active (send_queue w) = true
  /\ lines_from 1 w = ["G1 X10"; "G1 X20"]
  /\ exists w',
       calls (List.length (lines_from 1 w)) (_send_next_from_resend false) w
       = Ok (repeat true (List.length (lines_from 1 w))) w'
       /\ sq_resend (send_queue w')
          = (sq_resend (send_queue w) ++ resend_entries 1 (lines_from 1 w))%list
       /\ sq_send (send_queue w') = sq_send (send_queue w)
       /\ ist resend_requested w' = None
       /\ ist resend_linenumber w' = None
       /\ ist resend_count w' = Some 0
       /\ resend_active (send_queue w') = false
       /\ current_linenumber w' = current_linenumber w
       /\ last_lines w' = last_lines w
       /\ transport w' = transport w.
Proof.
  intros w0 w2 w. split; [reflexivity|]. split; [reflexivity|]. split; [reflexivity|].
  assert (Hw : history_contiguous w).
  { intros c Hc. vm_compute in Hc. injection Hc as <-. vm_compute. auto. }
  exact (proj2 (proj2 (@resend_walks_the_window w 1 3 Hw eq_refl eq_refl eq_refl))).
Defined.

(** X8.  A line that went out numbered can be repeated byte for byte.  When
    [_do_increment_and_send_with_checksum] sends [l] under the number [n],
    the history, which up to then held only smaller numbers, gives back
    [l] for [n]; and the entry that [_send_next_from_resend] builds from
    that, [(Command(l), n, None, True)], makes the send loop put the very
    same bytes on the wire, without moving the line counter and without
    adding to the history. *)
Theorem resend_repeats_the_bytes :
  forall (E : Env) (fuel : nat) (l : string) (n : Z) (w : World) (t : Transport),
    transport w = Some t ->
    current_linenumber w = Some n ->
    history_below w ->
    let w1 := final (_do_increment_and_send_with_checksum l w) in
    wire w1 = (wire w ++ [checksummed l n])%list
    /\ history_get (Some n) (last_lines w1) = Some l
    /\ forall (w2 : World) (t2 : Transport),
         transport w2 = Some t2 ->
         let w3 := final (_send_loop_emit E fuel
                            (mkSendEntry (Command_of_line l) (Some n) None true) w2) in
         wire w3 = (wire w2 ++ [checksummed l n])%list
         /\ current_linenumber w3 = current_linenumber w2
         /\ last_lines w3 = last_lines w2.
Proof.
  intros E fuel l n w t Ht Hn Hw w1. subst w1.
  rewrite (@do_increment_effect l n w t Ht Hn). cbn [final].
  split; [unfold wire; cbn; now rewrite Ht|].
  split; [cbn; apply history_get_append_new, (Hw n Hn)|].
  intros w2 t2 Ht2.
  rewrite (@resend_emit_effect E fuel l n w2 t2 Ht2). cbn [final].
  split; [unfold wire; cbn; now rewrite Ht2|]. split; reflexivity.
Qed.

Lemma resend_repeats_the_bytes_witness :
  let w := final (_on_comm_ok Example.env0 5
                    (Example.printing [mkJobLine "G1 X10" 7 1 1])) in
  let w1 := final (_do_increment_and_send_with_checksum "G1 X10" w) in
  let w3 := final (_send_loop_emit Example.env0 5
                     (mkSendEntry (Command_of_line "G1 X10") (Some 1) None true) w1) in
  wire w1 = ["N1 G1 X10*80" ++ LF]
  /\ wire w3 = ["N1 G1 X10*80" ++ LF; "N1 G1 X10*80" ++ LF]
  /\ wire w3 = (wire w1 ++ [checksummed "G1 X10" 1])%list
  /\ current_linenumber w3 = current_linenumber w1
  /\ last_lines w3 = last_lines w1.
Proof.
  intros w w1 w3. split; [reflexivity|]. split; [reflexivity|].
  assert (Hw : history_below w).
  { intros c _. vm_compute. constructor. }
  exact (proj2 (proj2 (@resend_repeats_the_bytes Example.env0 5%nat "G1 X10" 1 w
                         (mkTransport true false []) eq_refl eq_refl Hw))
           w1 (mkTransport true false ["N1 G1 X10*80" ++ LF]) eq_refl).
Defined.
Lemma keeps_timeouts__gcode_M110_sending (E : Env) (c : Command) :
  stable false keeps_timeouts (_gcode_M110_sending E c).
Proof. intro w. split; [|discriminate]. now rewrite line_reset_effect. Qed.

Lemma keeps_timeouts__do_increment (l : string) :
  stable false keeps_timeouts (_do_increment_and_send_with_checksum l).
Proof.
  intro w. split; [|discriminate].
  unfold _do_increment_and_send_with_checksum, bind, gets, _add_to_last_lines,
    modify, raise, _do_send_with_checksum, _do_send_without_checksum.
  destruct (current_linenumber w); cbn; [destruct (transport w)|]; reflexivity.
Qed.

Lemma keeps_timeouts_run_op (E : Env) (fuel : nat) (op : Op) :
  op <> OpCommTimeout -> stable false keeps_timeouts (run_op E fuel op).
Proof.
  pose proof (keeps_timeouts__gcode_M110_sending E) as H110.
  pose proof keeps_timeouts__do_increment as Hinc.
  intro Hop. destruct op; cbn [run_op]; try congruence.
  - apply stable_bind; [now apply stable_send_commands|intro; apply stable_ret].
  - apply stable_bind; [apply stable__send_commands|intro; apply stable_ret].
  - now apply stable__on_comm_any.
  - now apply stable__on_comm_ok.
  - now apply stable__on_comm_wait.
  - now apply stable__on_comm_start.
  - apply stable__on_comm_ignore_ok.
  - now apply stable__on_comm_resend.
  - apply stable__on_error_communication.
  - apply stable_bind; [now apply stable__send_loop_step|intro; apply stable_ret].
Qed.

Lemma timeout_counts_at_most_one (E : Env) (fuel : nat) (w : World) :
  let c' := ist timeout_consecutive (final (_on_comm_timeout E fuel w)) in
  c' = ist timeout_consecutive w \/ c' = ist timeout_consecutive w + 1.
Proof.
  intro c'. subst c'.
  destruct (state_in (state w) [PROCESSING; PAUSED; CONNECTED]) eqn:Hs.
  - right. unfold _on_comm_timeout, bind at 1 2 3 4 5, gets at 1 2 3, modify.
    rewrite Hs. cbn [negb].
    set (w1 := upd_ist _ w).
    destruct (keeps_timeouts_recovery E fuel (consecutive_max w) w1 w1) as [Hk _].
    unfold keeps_timeouts in Hk. unfold bind.
    destruct (timeout_recovery E fuel (consecutive_max w) w1 w1); simpl in *;
      rewrite Hk; reflexivity.
  - left. unfold _on_comm_timeout, bind, gets. rewrite Hs. reflexivity.
Qed.

(** X9.  The count of consecutive timeouts is never cleared: a
    communication timeout adds one to it or, in a state where timeouts are
    ignored, leaves it; every other operation of the engine, an [ok] from
    the printer included, leaves it as it is.  So the count only grows
    over the life of a connection. *)
Theorem consecutive_timeouts_are_never_cleared :
  forall (E : Env) (fuel : nat) (op : Op) (w : World),
    let w' := final (run_op E fuel op w) in
    ist timeout_consecutive w <= ist timeout_consecutive w'
    /\ (op <> OpCommTimeout ->
        ist timeout_consecutive w' = ist timeout_consecutive w).
Proof.
  intros E fuel op w w'.
  assert (H : op <> OpCommTimeout ->
              ist timeout_consecutive w' = ist timeout_consecutive w).
  { intro Hop. destruct (keeps_timeouts_run_op E fuel Hop w) as [Hk _]. exact Hk. }
  split; [|exact H].
  destruct op; try (rewrite H by discriminate; lia).
  subst w'. cbn [run_op].
  pose proof (timeout_counts_at_most_one E fuel w) as Hc. cbv zeta in Hc.
  unfold bind. destruct (_on_comm_timeout E fuel w); cbn [final ret] in *; lia.
Qed.

Lemma consecutive_timeouts_are_never_cleared_witness :
  let w0 := Example.printing [mkJobLine "G1 X10" 7 1 1] in
  let w := final (run_op Example.env0 5 OpCommTimeout w0) in
  let w' := final (run_op Example.env0 5 OpCommOk w) in
  ist timeout_consecutive w = 1
  /\ ist timeout_consecutive w' = ist timeout_consecutive w.
Proof.
  intros w0 w w'. split; [reflexivity|].
  apply (proj2 (consecutive_timeouts_are_never_cleared Example.env0 5%nat OpCommOk w)).
  discriminate.
Defined.
(** ** What the pipeline returns *)

Lemma yields_ret {A : Type} (P : A -> Prop) (a : A) : P a -> yields P (ret a).
Proof. intros H w. exact H. Qed.

Lemma yields_bind {A B : Type} (P : B -> Prop) (m : M A) (k : A -> M B) :
  (forall x, yields P (k x)) -> yields P (bind m k).
Proof. intros H w. unfold bind. destruct (m w); [apply H|exact I|exact I]. Qed.

Lemma yields_bind_with {A B : Type} (Q : A -> Prop) (P : B -> Prop)
  (m : M A) (k : A -> M B) :
  yields Q m -> (forall x, Q x -> yields P (k x)) -> yields P (bind m k).
Proof.
  intros Hm H w. unfold bind. specialize (Hm w).
  destruct (m w); [now apply H|exact I|exact I].
Qed.

Lemma length_normalize (c : Command) (r : HandlerResult) tg :
  at_most_one r -> (List.length (normalize_command_handler_result c r tg) <= 1)%nat.
Proof.
  destruct r; cbn; [lia|]. now rewrite length_map.
Qed.


Lemma yields_run_hook name hook phase (results : list Command) :
  mem_string phase ["queuing"] = false ->
  yields (fun rs => (List.length rs <= List.length results)%nat)
         (run_hook name hook phase results).
Proof.
  intro Hp. induction results as [|c rest IH]; cbn [run_hook].
  - apply yields_ret. cbn. lia.
  - apply yields_bind_with with (Q := fun new => (List.length new <= 1)%nat).
    + destruct (hook phase c) as [r|].
      * rewrite Hp. cbn [negb andb].
        destruct (1 <? _)%nat eqn:L.
        -- apply yields_bind. intro. apply yields_ret. cbn. lia.
        -- apply yields_ret. apply Nat.ltb_ge in L. exact L.
      * apply yields_bind. intro. apply yields_ret. cbn. lia.
    + intros new Hnew.
      apply yields_bind_with with (Q := fun more => (List.length more <= List.length rest)%nat);
        [exact IH|].
      intros more Hmore. apply yields_ret. rewrite length_app. cbn. lia.
Qed.

Lemma yields_run_hooks hooks phase :
  mem_string phase ["queuing"] = false ->
  forall results : list Command,
    yields (fun o => match o with
                     | Some rs => (List.length rs <= List.length results)%nat
                     | None => True
                     end)
           (run_hooks hooks phase results).
Proof.
  intro Hp. induction hooks as [|[name hook] hooks IH]; intro results; cbn [run_hooks].
  - apply yields_ret. lia.
  - apply yields_bind_with with (Q := fun rs => (List.length rs <= List.length results)%nat);
      [now apply yields_run_hook|].
    intros new Hnew. destruct (is_nil new); [now apply yields_ret|].
    intro w. specialize (IH new w). destruct (run_hooks hooks phase new w); auto.
    destruct a; [lia|exact I].
Qed.

Lemma yields_run_gcode_handlers table phase (results : list Command) :
  table_yields table ->
  yields (fun p => (List.length (fst p) <= List.length results)%nat)
         (run_gcode_handlers table phase results).
Proof.
  intro Ht. induction results as [|c rest IH]; cbn [run_gcode_handlers].
  - apply yields_ret. cbn. lia.
  - apply yields_bind_with with (Q := fun r => (List.length (fst r) <= 1)%nat).
    + destruct (code_of c) as [code|]; [|apply yields_ret; cbn; lia].
      destruct (assoc _ table) as [handler|] eqn:Ha; [|apply yields_ret; cbn; lia].
      apply yields_bind_with with (Q := at_most_one); [eapply Ht; exact Ha|].
      intros r Hr. apply yields_ret. cbn [fst]. now apply length_normalize.
    + intros r Hr.
      apply yields_bind_with
        with (Q := fun rs => (List.length (fst rs) <= List.length rest)%nat); [exact IH|].
      intros rs Hrs. apply yields_ret. cbn [fst]. rewrite length_app. cbn. lia.
Qed.

Lemma yields_run_phase_handler (handler : Handler) (results : list Command) :
  (forall c, yields at_most_one (handler c)) ->
  yields (fun rs => (List.length rs <= List.length results)%nat)
         (run_phase_handler handler results).
Proof.
  intro Hh. induction results as [|c rest IH]; cbn [run_phase_handler].
  - apply yields_ret. cbn. lia.
  - apply yields_bind_with with (Q := at_most_one); [apply Hh|].
    intros r Hr.
    apply yields_bind_with
      with (Q := fun rs => (List.length rs <= List.length rest)%nat); [exact IH|].
    intros more Hmore. apply yields_ret. rewrite length_app.
    pose proof (@length_normalize c r None Hr). cbn. lia.
Qed.

Lemma not_the_queuing_phase phase :
  mem_string phase ["queueing"; "queued"; "sending"; "sent"] = true ->
  mem_string phase ["queuing"] = false.
Proof.
  unfold mem_string. cbn. 
  destruct (phase =? "queuing")%string eqn:Q; [|reflexivity].
  apply String.eqb_eq in Q. subst phase. discriminate.
Qed.

Lemma yields__process_command_phase hg hp phase c :
  table_yields hg -> table_yields hp ->
  yields (fun rs => (List.length rs <= 1)%nat) (_process_command_phase hg hp phase c).
Proof.
  intros Hg Hp. unfold _process_command_phase.
  destruct (mem_string phase _) eqn:Hphase; cbn [negb];
    [|apply yields_ret; cbn; lia].
  apply not_the_queuing_phase in Hphase.
  apply yields_bind. intro hooks.
  apply yields_bind_with
    with (Q := fun o => match o with
                        | Some rs => (List.length rs <= 1)%nat
                        | None => True
                        end).
  { apply (@yields_run_hooks hooks phase Hphase [c]). }
  intros [results|] Hres; [|apply yields_ret; cbn; lia].
  apply yields_bind_with
    with (Q := fun p => (List.length (fst p) <= List.length results)%nat).
  { now apply yields_run_gcode_handlers. }
  intros [new_results modified] Hnew. cbn [fst] in Hnew.
  destruct (modified && is_nil new_results); [apply yields_ret; cbn; lia|].
  set (rs := if modified then new_results else results).
  assert (Hrs : (List.length rs <= 1)%nat) by (subst rs; destruct modified; lia).
  destruct (assoc _ hp) as [handler|] eqn:Ha; [|now apply yields_ret].
  intro w. pose proof (@yields_run_phase_handler handler rs (fun c => Hp _ _ c Ha) w) as H.
  destruct (run_phase_handler handler rs w); auto. lia.
Qed.

Ltac yields_tail :=
  repeat first [ apply yields_bind; intro
               | apply yields_ret; exact I
               | apply yields_ret; cbn; lia ].

Lemma yields_handlers_command_phase : table_yields handlers_command_phase.
Proof.
  intros name handler command. unfold handlers_command_phase. cbn [assoc].
  destruct (_ =? _)%string; [|discriminate].
  intro H. injection H as <-. unfold _command_phase_sending. yields_tail.
Qed.

Lemma yields_handlers_gcode (E : Env) (fuel : nat) : table_yields (handlers_gcode E fuel).
Proof.
  intros name handler command. destruct fuel; cbn [handlers_gcode assoc];
    repeat (destruct (_ =? _)%string;
            [intro H; injection H as <-;
             unfold _gcode_G0_sent, _gcode_G1_sent, _gcode_G4_sent, _gcode_M0_queuing_with,
               _gcode_M109_sent, _gcode_M190_sent, _gcode_M104_sent, _gcode_M110_sending,
               _gcode_M112_queuing, _gcode_M116_sent, _gcode_M140_queuing, _gcode_M140_sent,
               _gcode_M155_sending, _gcode_M190_queuing, _gcode_M25_queuing_with,
               _gcode_M27_sending, _gcode_T_sent;
             yields_tail|]);
    discriminate.
Qed.

(** X10.  The pipeline never turns one command into several.  Whatever the
    phase and whatever hooks plugins have registered, processing one
    command with the handlers of the engine gives back no command or one
    command.  So the [assert len(results) == 1] of the send loop cannot
    fail; and since ["queuing"] is not among the phases the pipeline acts
    on, the expansion of a command into several, which hooks are told to
    do in that phase, does not happen either. *)
Theorem the_pipeline_never_expands_a_command :
  forall (E : Env) (fuel : nat) (phase : string) (c : Command) (w : World),
    match process_command_phase (handlers_gcode E fuel) phase c w with
    | Ok results _ => (List.length results <= 1)%nat
    | _ => True
    end.
Proof.
  intros E fuel phase c. unfold process_command_phase.
  apply yields__process_command_phase.
  - apply yields_handlers_gcode.
  - apply yields_handlers_command_phase.
Qed.
(** ** Oks that are to be ignored *)

Lemma upd_ignore_ok_same (w : World) (v : Z) :
  v = ist ignore_ok w -> upd_ist (set_ignore_ok v) w = w.
Proof.
  intros ->. unfold upd_ist, ist. destruct w. cbn.
  match goal with i : InternalState |- _ => now destruct i end.
Qed.

Lemma ignore_ok_announced (k : nat) :
  forall w : World,
    exists entries,
      Example.times k _on_comm_ignore_ok w
      = Ok tt (set_logged (logged w ++ entries)%list
                 (upd_ist (set_ignore_ok (ist ignore_ok w + Z.of_nat k)) w)).
Proof.
  induction k as [|k IH]; intro w.
  - exists []. cbn [Example.times]. unfold ret. f_equal.
    rewrite upd_ignore_ok_same by (cbn; lia).
    rewrite app_nil_r. now destruct w.
  - cbn [Example.times]. unfold bind at 1.
    assert (Hs : _on_comm_ignore_ok w
                 = Ok tt (set_logged (logged w ++ [LogInfo "Ignoring next ok"])%list
                            (upd_ist (set_ignore_ok (ist ignore_ok w + 1)) w)))
      by reflexivity.
    rewrite Hs.
    match goal with
    | |- context [Example.times k _ ?w1] => destruct (IH w1) as [entries ->]
    end.
    exists (LogInfo "Ignoring next ok" :: entries). f_equal. rewrite Nat2Z.inj_succ.
    unfold ist, set_logged, upd_ist, set_internal_state, set_ignore_ok.
    cbn -[Z.add Z.of_nat Z.succ].
    f_equal; [f_equal; lia|now rewrite <- app_assoc].
Qed.

Lemma ignore_ok_swallowed (E : Env) (fuel : nat) (k : nat) :
  forall w : World,
    Z.of_nat k <= ist ignore_ok w ->
    Example.times k (_on_comm_ok E fuel) w
    = Ok tt (upd_ist (set_ignore_ok (ist ignore_ok w - Z.of_nat k)) w).
Proof.
  induction k as [|k IH]; intros w Hk.
  - cbn [Example.times]. unfold ret. f_equal. symmetry.
    apply upd_ignore_ok_same. cbn. lia.
  - cbn [Example.times]. unfold bind at 1, _on_comm_ok, bind at 1, gets.
    replace (0 <? ist ignore_ok w) with true by (symmetry; apply Z.ltb_lt; lia).
    unfold bind, modify.
    replace (ist ignore_ok w - 1 <? 0) with false by (symmetry; apply Z.ltb_ge; lia).
    cbn [when ret]. rewrite IH by (cbn; lia). f_equal. rewrite Nat2Z.inj_succ.
    unfold ist, upd_ist, set_internal_state, set_ignore_ok.
    cbn -[Z.add Z.sub Z.of_nat Z.succ].
    f_equal; f_equal; lia.
Qed.

(** X11.  Announced oks are swallowed one for one.  After [k] messages
    that tell the engine to ignore the next [ok], the next [k] oks do
    nothing but count the announcements down again: no credit is granted,
    nothing is sent, no resend moves on, and the object is back where it
    was, with [k] more entries in the log. *)
Theorem announced_oks_are_swallowed :
  forall (E : Env) (fuel : nat) (k : nat) (w : World),
    0 <= ist ignore_ok w ->
    exists entries,
      (Example.times k _on_comm_ignore_ok ;;
       Example.times k (_on_comm_ok E fuel)) w
      = Ok tt (set_logged (logged w ++ entries)%list w).
Proof.
  intros E fuel k w Hw.
  destruct (ignore_ok_announced k w) as [entries Ha].
  exists entries. unfold bind. rewrite Ha.
  rewrite ignore_ok_swallowed by (cbn; lia). f_equal.
  unfold ist, set_logged, upd_ist, set_internal_state, set_ignore_ok.
  cbn -[Z.add Z.sub Z.of_nat].
  replace (ignore_ok (internal_state w) + Z.of_nat k - Z.of_nat k)
    with (ignore_ok (internal_state w)) by lia.
  destruct w. cbn.
  match goal with i : InternalState |- _ => now destruct i end.
Qed.

Lemma announced_oks_are_swallowed_witness :
  let w := Example.printing [mkJobLine "G1 X10" 7 1 1] in
  clear_to_send (final (_on_comm_ok Example.env0 5 w)) = 2
  /\ exists entries,
       (Example.times 2 _on_comm_ignore_ok ;;
        Example.times 2 (_on_comm_ok Example.env0 5)) w
       = Ok tt (set_logged (logged w ++ entries)%list w).
Proof.
  intro w. split; [reflexivity|].
  apply (announced_oks_are_swallowed Example.env0 5%nat 2%nat w).
  vm_compute. discriminate.
Defined.
(** ** Temperatures *)

Lemma assoc_set_same {A : Type} (k : string) (v : A) (l : list (string * A)) :
  assoc k (assoc_set k v l) = Some v.
Proof.
  induction l as [|[k' v'] l IH]; cbn.
  - now rewrite String.eqb_refl.
  - destruct (k =? k')%string eqn:T; cbn.
    + now rewrite String.eqb_refl.
    + now rewrite T.
Qed.

Lemma assoc_set_other {A : Type} (k k' : string) (v : A) (l : list (string * A)) :
  k' <> k -> assoc k' (assoc_set k v l) = assoc k' l.
Proof.
  intro Hk. apply String.eqb_neq in Hk.
  induction l as [|[k0 v0] l IH]; cbn.
  - now rewrite Hk.
  - destruct (k =? k0)%string eqn:T; cbn.
    + apply String.eqb_eq in T. subst k0. now rewrite Hk.
    + now rewrite IH.
Qed.

Lemma set_temperature_effect (tool : string) (actual target : option Q) (w : World) :
  _set_temperature tool actual target w
  = Ok tt (upd_ist (set_temperatures
                      (assoc_set tool
                         (reading_over (assoc tool (ist temperatures w)) (actual, target))
                         (ist temperatures w))) w).
Proof.
  unfold _set_temperature, modify, reading_over, upd_ist, ist. cbn [fst snd].
  do 4 f_equal.
  destruct actual, target, (assoc tool (temperatures (internal_state w))) as [[a t]|];
    reflexivity.
Qed.

Lemma set_reported_frame tools readings (w : World) :
  exists temps, set_reported tools readings w = Ok tt (upd_ist (set_temperatures temps) w).
Proof.
  revert w. induction tools as [|[rep tool] tools IH]; intro w; cbn [set_reported].
  - exists (ist temperatures w). unfold ret, upd_ist, ist. destruct w. cbn.
    match goal with i : InternalState |- _ => now destruct i end.
  - unfold bind. destruct (assoc rep readings) as [[a t]|].
    + rewrite set_temperature_effect. destruct (IH (upd_ist (set_temperatures
        (assoc_set tool (reading_over (assoc tool (ist temperatures w)) (a, t))
           (ist temperatures w))) w)) as [temps ->].
      now exists temps.
    + cbn. destruct (IH w) as [temps ->]. now exists temps.
Qed.

Lemma set_reported_untouched tools readings tool :
  forall w : World,
    (forall rep, In (rep, tool) tools -> assoc rep readings = None) ->
    assoc tool (ist temperatures (final (set_reported tools readings w)))
    = assoc tool (ist temperatures w).
Proof.
  induction tools as [|[rep0 tool0] tools IH]; intros w Hn; cbn [set_reported].
  - reflexivity.
  - unfold bind. destruct (assoc rep0 readings) as [[a t]|] eqn:Ha.
    + rewrite set_temperature_effect. rewrite IH by (intros; apply Hn; now right).
      cbn. apply assoc_set_other. intros ->.
      rewrite (Hn rep0) in Ha by now left. discriminate.
    + cbn. apply IH. intros; apply Hn; now right.
Qed.

Lemma set_reported_touched tools readings rep tool r :
  NoDup (map snd tools) -> In (rep, tool) tools -> assoc rep readings = Some r ->
  forall w : World,
    assoc tool (ist temperatures (final (set_reported tools readings w)))
    = Some (reading_over (assoc tool (ist temperatures w)) r).
Proof.
  induction tools as [|[rep0 tool0] tools IH]; intros Hd Hin Hr w; [destruct Hin|].
  cbn [map snd] in Hd. inversion Hd as [|? ? Hnot Hd']; subst.
  cbn [set_reported]. unfold bind. destruct Hin as [Heq|Hin].
  - injection Heq as -> ->. rewrite Hr. destruct r as [a t].
    rewrite set_temperature_effect.
    rewrite set_reported_untouched.
    + cbn. apply assoc_set_same.
    + intros rep' Hin'. exfalso. apply Hnot.
      change tool with (snd (rep', tool)). now apply in_map.
  - assert (Hne : tool <> tool0).
    { intros ->. apply Hnot. change tool0 with (snd (rep, tool0)). now apply in_map. }
    destruct (assoc rep0 readings) as [[a t]|].
    + rewrite set_temperature_effect. rewrite (IH Hd' Hin Hr). cbn.
      now rewrite assoc_set_other.
    + cbn. now apply IH.
Qed.

Lemma str_of_int_injective (a b : Z) : str_of_int a = str_of_int b -> a = b.
Proof.
  intro H. pose proof (str_of_int_roundtrip a) as Ha.
  rewrite H, str_of_int_roundtrip in Ha. congruence.
Qed.

Lemma in_py_range (x n : Z) : In x (py_range n) <-> 0 <= x < n.
Proof.
  unfold py_range. rewrite in_map_iff. split.
  - intros (k & <- & Hk). apply in_seq in Hk. lia.
  - intro H. exists (Z.to_nat x). split; [lia|]. apply in_seq. lia.
Qed.

Lemma NoDup_py_range (n : Z) : NoDup (py_range n).
Proof.
  unfold py_range. generalize (seq_NoDup (Z.to_nat n) 0).
  induction (seq 0 (Z.to_nat n)) as [|k l IH]; intro Hd; cbn; [constructor|].
  inversion Hd; subst. constructor; [|now apply IH].
  rewrite in_map_iff. intros (j & Hj & Hin). apply Nat2Z.inj in Hj. now subst j.
Qed.

Lemma NoDup_potential_tools (m : Z) : NoDup (map snd (potential_tools m)).
Proof.
  unfold potential_tools. rewrite map_app, map_map. cbn [map snd].
  assert (H : forall l, NoDup l ->
             NoDup (map (fun x => ("tool" ++ str_of_int x)%string) l ++ ["bed"])%list).
  { induction l as [|x l IH]; intro Hd; cbn.
    - constructor; [intros []|constructor].
    - inversion Hd; subst. constructor; [|now apply IH].
      rewrite in_app_iff, in_map_iff. intros [(y & Hy & Hin)|[Hb|[]]].
      + injection Hy as Hy. apply str_of_int_injective in Hy. now subst y.
      + discriminate Hb. }
  apply H, NoDup_py_range.
Qed.

Lemma in_potential_tools (m : Z) (rep tool : string) :
  In (rep, tool) (potential_tools m) <->
  (exists x, 0 <= x <= m /\ rep = "T" ++ str_of_int x /\ tool = "tool" ++ str_of_int x)
  \/ (rep = "B" /\ tool = "bed").
Proof.
  unfold potential_tools. rewrite in_app_iff, in_map_iff. cbn [In]. split.
  - intros [(x & Hx & Hin)|[H|[]]].
    + left. exists x. apply in_py_range in Hin. injection Hx as <- <-.
      split; [lia|split; reflexivity].
    + right. injection H as <- <-. now split.
  - intros [(x & Hx & -> & ->)|[-> ->]].
    + left. exists x. split; [reflexivity|]. apply in_py_range. lia.
    + right. now left.
Qed.

Lemma message_temperature_effect (m : Z) readings (hd : bool) (w : World) :
  let w1 := if hd
            then upd_ist (set_heatup_start (Some (clock w))) (upd_ist (set_heating true) w)
            else w in
  _on_message_temperature m readings hd w
  = Ok tt (set_events (events w ++ [Notify "on_protocol_temperature" ""])%list
             (final (set_reported (potential_tools m) readings w1))).
Proof.
  intro w1. unfold _on_message_temperature, bind, notify_listeners, modify.
  assert (H1 : when hd (fun w0 => match modify (upd_ist (set_heating true)) w0 with
                                 | Ok a w' =>
                                     (fun w2 => match monotonic_time w2 with
                                                | Ok a0 w'0 =>
                                                    modify (upd_ist (set_heatup_start (Some a0))) w'0
                                                | Raised e w'0 => Raised e w'0
                                                | OutOfFuel w'0 => OutOfFuel w'0
                                                end) w'
                                 | Raised e w' => Raised e w'
                                 | OutOfFuel w' => OutOfFuel w'
                                 end) w = Ok tt w1).
  { subst w1. destruct hd; reflexivity. }
  unfold modify in H1. rewrite H1.
  destruct (set_reported_frame (potential_tools m) readings w1) as [temps ->].
  subst w1. destruct hd; reflexivity.
Qed.

(** X12.  [_set_temperature] never forgets: the half of a reading that is
    left out keeps the value on record for that tool, the half that is
    given replaces it, and the entries of all other tools stay as they
    are. *)
Theorem set_temperature_keeps_what_it_is_not_told :
  forall (tool : string) (actual target : option Q) (w : World),
    let temps := ist temperatures w in
    let temps' := ist temperatures (final (_set_temperature tool actual target w)) in
    assoc tool temps' = Some (reading_over (assoc tool temps) (actual, target))
    /\ (forall other, other <> tool -> assoc other temps' = assoc other temps).
Proof.
  intros tool actual target w temps temps'. subst temps temps'.
  rewrite set_temperature_effect. cbn [final]. split.
  - apply assoc_set_same.
  - intros other Hne. cbn. now apply assoc_set_other.
Qed.

Lemma set_temperature_keeps_what_it_is_not_told_witness :
  let w := final (_set_temperature "tool0" (Some 21%Q) (Some 200%Q)
                    (final (_set_temperature "bed" (Some 20%Q) None Example.idle))) in
  let temps' := ist temperatures (final (_set_temperature "tool0" (Some 150%Q) None w)) in
  assoc "tool0" temps' = Some (Some 150%Q, Some 200%Q)
  /\ assoc "bed" temps' = assoc "bed" (ist temperatures w).
Proof.
  intros w temps'. split; [reflexivity|].
  apply (proj2 (set_temperature_keeps_what_it_is_not_told "tool0" (Some 150%Q) None w)).
  discriminate.
Defined.

(** X13.  A temperature report updates the tools it reports and nothing
    else.  For every tool from 0 to [max_tool_num] with a reading under
    [T<n>], and for the bed with a reading under [B], the entry becomes
    the reading laid over what was on record; a tool without a reading
    keeps its entry, and so does a tool above [max_tool_num], reading or
    not.  Without a detected heat-up the heating flag and the heat-up
    start stay as they are; [heating_start] is not touched either way. *)
Theorem temperature_report_updates_the_reported_tools :
  forall (max_tool_num : Z) (readings : list (string * (option Q * option Q)))
         (heatup_detected : bool) (w : World),
    let r := _on_message_temperature max_tool_num readings heatup_detected w in
    let temps := ist temperatures w in
    let temps' := ist temperatures (final r) in
    (exists w', r = Ok tt w')
    /\ (forall x reading,
          0 <= x <= max_tool_num ->
          assoc ("T" ++ str_of_int x) readings = Some reading ->
          assoc ("tool" ++ str_of_int x) temps'
          = Some (reading_over (assoc ("tool" ++ str_of_int x) temps) reading))
    /\ (forall reading,
          assoc "B" readings = Some reading ->
          assoc "bed" temps' = Some (reading_over (assoc "bed" temps) reading))
    /\ (forall x,
          assoc ("T" ++ str_of_int x) readings = None \/ max_tool_num < x ->
          assoc ("tool" ++ str_of_int x) temps' = assoc ("tool" ++ str_of_int x) temps)
    /\ (assoc "B" readings = None -> assoc "bed" temps' = assoc "bed" temps)
    /\ (heatup_detected = false ->
        ist heating (final r) = ist heating w
        /\ ist heatup_start (final r) = ist heatup_start w)
    /\ ist heating_start (final r) = ist heating_start w.
Proof.
  intros m readings hd w r temps temps'. subst r temps temps'.
  rewrite message_temperature_effect. cbn [final].
  set (w1 := if hd then _ else w).
  assert (Ht : ist temperatures w1 = ist temperatures w) by (subst w1; now destruct hd).
  change (ist temperatures (set_events (events w ++ [Notify "on_protocol_temperature" ""])%list
            (final (set_reported (potential_tools m) readings w1))))
    with (ist temperatures (final (set_reported (potential_tools m) readings w1))).
  split; [eexists; reflexivity|].
  split; [|split; [|split; [|split]]].
  - intros x reading Hx Hr. rewrite <- Ht.
    apply set_reported_touched with (rep := "T" ++ str_of_int x);
      [apply NoDup_potential_tools| |exact Hr].
    apply in_potential_tools. left. exists x. now repeat split.
  - intros reading Hr. rewrite <- Ht.
    apply set_reported_touched with (rep := "B");
      [apply NoDup_potential_tools| |exact Hr].
    apply in_potential_tools. now right.
  - intros x Hx. rewrite <- Ht. apply set_reported_untouched.
    intros rep Hin. apply in_potential_tools in Hin.
    destruct Hin as [(y & Hy & -> & Htool)|[_ Hbed]]; [|discriminate Hbed].
    injection Htool as Htool. apply str_of_int_injective in Htool. subst y.
    destruct Hx as [Hx|Hx]; [exact Hx|lia].
  - intro Hb. rewrite <- Ht. apply set_reported_untouched.
    intros rep Hin. apply in_potential_tools in Hin.
    destruct Hin as [(y & Hy & -> & Htool)|[-> _]]; [discriminate Htool|exact Hb].
  - destruct (set_reported_frame (potential_tools m) readings w1) as [temps ->].
    subst w1. split; [intros ->; split; reflexivity|now destruct hd].
Qed.

Lemma temperature_report_updates_the_reported_tools_witness :
  let w := final (_set_temperature "tool1" (Some 30%Q) (Some 210%Q) Example.idle) in
  let readings := [("T0", (Some 25%Q, Some 0%Q)); ("T1", (Some 31%Q, None));
                   ("T2", (Some 99%Q, None))] in
  let temps' := ist temperatures (final (_on_message_temperature 1 readings false w)) in
  assoc "tool0" temps' = Some (Some 25%Q, Some 0%Q)
  /\ assoc "tool1" temps' = Some (Some 31%Q, Some 210%Q)
  /\ assoc "tool2" temps' = None
  /\ assoc ("tool" ++ str_of_int 1) temps'
     = Some (reading_over (assoc ("tool" ++ str_of_int 1) (ist temperatures w))
                          (Some 31%Q, None)).
Proof.
  intros w readings temps'. split; [reflexivity|]. split; [reflexivity|].
  split; [reflexivity|].
  apply (proj1 (proj2 (temperature_report_updates_the_reported_tools 1 readings false w))).
  - lia.
  - reflexivity.
Defined.
(** X14.  Switching a heater off is not recorded.  [M104] and [M140] take
    their target from [S] (or [R]) and record it only [if target:], so a
    command without a target and a command with the target 0 both leave
    the recorded temperatures as they are and notify no listener; a target
    other than 0 replaces the recorded target of the bed and keeps its
    actual temperature. *)
Theorem switching_a_heater_off_is_not_recorded :
  forall (E : Env) (c : Command) (wait support_r : bool) (target : option Q),
    (forall w0, target_of E c support_r w0 = Ok target w0) ->
    forall w : World,
      let bed := final (_gcode_M140_sent E c wait support_r w) in
      let tool := final (_gcode_M104_sent E c wait support_r w) in
      (float_truthy target = false ->
       _gcode_M140_sent E c wait support_r w = Ok HNone w
       /\ ist temperatures tool = ist temperatures w
       /\ events tool = events w)
      /\ (float_truthy target = true ->
          assoc "bed" (ist temperatures bed)
          = Some (reading_over (assoc "bed" (ist temperatures w)) (None, target))
          /\ events bed = (events w ++ [Notify "on_protocol_temperature" ""])%list).
Proof.
  intros E c wait support_r target Ht w bed tool. subst bed tool. split; intro Hf.
  - split.
    + unfold _gcode_M140_sent, bind. rewrite Ht, Hf. reflexivity.
    + unfold _gcode_M104_sent, bind at 1 2, gets.
      destruct (truthy (attr c "t")); [destruct wait|]; cbn;
        unfold bind; rewrite Ht, Hf; cbn; split; reflexivity.
  - assert (Hr : _gcode_M140_sent E c wait support_r w
                 = Ok HNone
                      (set_events (events w ++ [Notify "on_protocol_temperature" ""])%list
                         (final (_set_temperature "bed" None target w)))).
    { unfold _gcode_M140_sent, bind. rewrite Ht, Hf.
      rewrite set_temperature_effect. reflexivity. }
    rewrite Hr, set_temperature_effect. cbn. split; [|reflexivity].
    apply assoc_set_same.
Qed.

Lemma switching_a_heater_off_is_not_recorded_witness :
  let on := Example.gcode "M140" "M140 S60" [("s", PyInt 60)] in
  let off := Example.gcode "M140" "M140 S0" [("s", PyInt 0)] in
  let w := final (_gcode_M140_sent Example.env0 on false false Example.idle) in
  assoc "bed" (ist temperatures w) = Some (None, Some 60%Q)
  /\ _gcode_M140_sent Example.env0 off false false w = Ok HNone w.
Proof.
  intros on off w. split; [reflexivity|].
  apply (proj1 (@switching_a_heater_off_is_not_recorded Example.env0 off false false
                  (Some 0%Q) (fun w0 => eq_refl) w)).
  reflexivity.
Defined.
(** ** Streaming to the SD card *)

Lemma streaming_after_enqueue (q : SendQueue) (w : World) :
  _is_streaming (set_send_queue q w) = _is_streaming w.
Proof. reflexivity. Qed.

Lemma process_while_streaming (E : Env) hg (c : Command) (cb : option Callback)
  (w : World) :
  _is_streaming w = true ->
  process E hg c cb w = _enqueue_for_sending c None cb false false w.
Proof.
  intro Hs. unfold process, bind.
  assert (Ha : when (is_atcommand c) (_process_atcommand_phase E "queuing" c) w = Ok tt w).
  { destruct (is_atcommand c); [|reflexivity].
    unfold when, _process_atcommand_phase, bind, gets. now rewrite Hs. }
  rewrite Ha.
  unfold _enqueue_for_sending.
  destruct (send_queue_put _ _ _ _) as [q|]; [|reflexivity].
  unfold gets. rewrite streaming_after_enqueue, Hs. reflexivity.
Qed.

(** X15.  While a file is streamed to the SD card nothing is processed on
    the way into the send queue.  [process] turns [trigger_events] off for
    a stream job; with that, and the engine streaming, [_send_command]
    runs no hook and no handler of the [queuing] and [queued] phases and
    no at-command handler: it is [_enqueue_for_sending] and nothing
    else. *)
Theorem streaming_only_enqueues :
  forall (E : Env) (fuel : nat) (c : Command) (command_type : option string)
         (tags : option (list string)) (on_sent : option Callback) (w : World),
    _is_streaming w = true ->
    ist trigger_events w = false ->
    _send_command E fuel (Cmd c) command_type tags on_sent w
    = _enqueue_for_sending c None on_sent false false w.
Proof.
  intros E fuel c ty tg cb w Hs Ht.
  unfold _send_command, _send_command_with, bind at 1, gets. rewrite Ht.
  unfold bind at 1, ret at 1. cbn [rev app process_all].
  unfold bind at 1, ret at 1. unfold bind.
  rewrite process_while_streaming by exact Hs.
  destruct (_enqueue_for_sending c None cb false false w) as [b w'|e w'|w'];
    [|reflexivity|reflexivity].
  unfold ret. now rewrite orb_false_r.
Qed.

Lemma streaming_only_enqueues_witness :
  let job := mkJob LocalGcodeStreamjob true false 0 0 0 [] in
  let w := upd_ist (set_trigger_events false)
             (upd_ist (set_only_from_job true)
                (set_job (Some job) (set_state PROCESSING Example.idle))) in
  let pause := Example.to_command0 "@pause" None None in
  is_atcommand pause = true
  /\ _send_command Example.env0 5 (Cmd pause) None None None w
     = _enqueue_for_sending pause None None false false w
  /\ state (final (_send_command Example.env0 5 (Cmd pause) None None None w))
     = PROCESSING.
Proof.
  intros job w pause. split; [reflexivity|].
  split; [|reflexivity].
  apply (streaming_only_enqueues Example.env0 5%nat pause None None None w);
    reflexivity.
Defined.
(** ** What the firmware says it can do *)

Lemma quiet__set_autoreport_temperature_interval (E : Env) interval fuel given :
  stable false quiet (_set_autoreport_temperature_interval E interval fuel given).
Proof.
  unfold _set_autoreport_temperature_interval.
  apply kept_bind; [apply kept_gets|intro c].
  apply kept_bind; [apply quiet_send_commands|intro; apply kept_ret].
Qed.

(** X16.  What the firmware announces is put on record, and only
    temperature autoreporting is acted upon.  Whatever the capability and
    its value, [firmware_capabilities] holds the value afterwards.  For
    every capability other than [AUTOREPORT_TEMP], and for
    [AUTOREPORT_TEMP] when it is off, that is all that happens: nothing is
    logged, queued or sent.  This includes [AUTOREPORT_SD_STATUS], whose
    branch is never taken because [_capability_support] only knows
    [AUTOREPORT_TEMP]. *)
Theorem only_temperature_autoreporting_is_asked_for :
  forall (E : Env) (interval : list (string * Q)) (fuel : nat)
         (cap : string) (enabled : bool) (w : World),
    let r := _on_message_firmware_capability E interval fuel cap enabled w in
    capability cap (final r) = enabled
    /\ (cap <> CAPABILITY_AUTOREPORT_TEMP \/ enabled = false ->
        r = Ok tt (upd_ist (fun i =>
                     set_firmware_capabilities
                       (assoc_set cap enabled (firmware_capabilities i)) i) w)).
Proof.
  intros E interval fuel cap enabled w r. subst r.
  unfold _on_message_firmware_capability, bind at 1, modify.
  set (w1 := upd_ist _ w).
  assert (H1 : capability cap w1 = enabled).
  { subst w1. unfold capability, ist. cbn. now rewrite assoc_set_same. }
  unfold capability_support. cbn [assoc].
  destruct (cap =? CAPABILITY_AUTOREPORT_TEMP)%string eqn:Hc.
  - destruct enabled; cbn [andb].
    + split; [|intros [Hne|Hf]; [apply String.eqb_eq in Hc; contradiction|discriminate]].
      assert (S : stable false quiet
                    (log_info "Firmware states that it supports temperature autoreporting" ;;
                     _set_autoreport_temperature_interval E interval fuel None)).
      { apply kept_bind;
          [apply kept_modify; intro; quiet_side
          |intro; apply quiet__set_autoreport_temperature_interval]. }
      destruct (S w1) as [(_ & _ & _ & _ & _ & _ & Hf) _].
      change (capability cap
                (final ((log_info "Firmware states that it supports temperature autoreporting" ;;
                         _set_autoreport_temperature_interval E interval fuel None) w1))
              = true).
      transitivity (capability cap w1); [|exact H1].
      unfold capability. now rewrite Hf.
    + rewrite andb_false_r. split; [exact H1|reflexivity].
  - cbn [andb]. split; [exact H1|reflexivity].
Qed.

Lemma only_temperature_autoreporting_is_asked_for_witness :
  let interval := [("temperature_autoreport", 2%Q); ("sd_status_autoreport", 1%Q)] in
  let sd := _on_message_firmware_capability Example.env0 interval 5
              CAPABILITY_AUTOREPORT_SD_STATUS true Example.idle in
  let temp := _on_message_firmware_capability Example.env0 interval 5
                CAPABILITY_AUTOREPORT_TEMP true Example.idle in
  map (fun e => line (se_command (fst e))) (sq_send (send_queue (final temp)))
  = ["M155 S2"]
  /\ sd = Ok tt (upd_ist (fun i =>
                   set_firmware_capabilities
                     (assoc_set CAPABILITY_AUTOREPORT_SD_STATUS true
                                (firmware_capabilities i)) i) Example.idle).
Proof.
  intros interval sd temp. split; [reflexivity|].
  apply (proj2 (only_temperature_autoreporting_is_asked_for Example.env0 interval 5%nat
                  CAPABILITY_AUTOREPORT_SD_STATUS true Example.idle)).
  left. discriminate.
Defined.
(** ** Resetting the line counter *)

Lemma requested_line_of_int (E : Env) (c : Command) (n : Z) :
  attr c "n" = PyInt n -> requested_line E c = Some n.
Proof.
  intro H. unfold requested_line. rewrite H. cbn.
  destruct (n =? 0) eqn:T; cbn; [|reflexivity].
  apply Z.eqb_eq in T. now subst n.
Qed.

Lemma handlers_gcode_M110 (E : Env) (fuel : nat) :
  assoc "_gcode_M110_sending" (handlers_gcode E fuel) = Some (_gcode_M110_sending E).
Proof. destruct fuel; reflexivity. Qed.

Lemma sending_phase_of_a_line_reset (E : Env) (fuel : nat) (c : Command) sub attrs
  (w : World) :
  kind c = GcodeCommand "M110" sub attrs ->
  assoc "sending" (gcode_hooks w) = Some [] ->
  process_command_phase (handlers_gcode E fuel) "sending" c w
  = Ok [c] (final (_gcode_M110_sending E c w)).
Proof.
  intros Hk Hh.
  unfold process_command_phase, _process_command_phase.
  cbn [mem_string existsb String.eqb Ascii.eqb Bool.eqb orb negb].
  unfold bind at 1, hooks_for at 1. rewrite Hh.
  cbn [run_hooks]. unfold bind at 1, ret at 1.
  cbn [run_gcode_handlers]. unfold code_of. rewrite Hk.
  change ("_gcode_" ++ "M110" ++ "_" ++ "sending") with "_gcode_M110_sending".
  rewrite handlers_gcode_M110.
  unfold bind at 1 2 3. rewrite line_reset_effect.
  reflexivity.
Qed.

Lemma line_reset_emit_effect (E : Env) (fuel : nat) (c : Command) (n : Z)
  (on_sent : option Callback) (w : World) (t : Transport) sub attrs :
  kind c = GcodeCommand "M110" sub attrs ->
  attr c "n" = PyInt n ->
  assoc "sending" (gcode_hooks w) = Some [] ->
  py_strip (line c) <> "" ->
  transport w = Some t ->
  message_integrity t = false ->
  always_send_checksum (flavor w) = true ->
  _send_loop_emit E fuel (mkSendEntry c None on_sent false) w
  = Ok (Some c)
       (set_transport
          (Some (mkTransport (t_active t) (message_integrity t)
                   (written t ++ [checksummed (encode_ascii_replace (line c)) n])%list))
          (set_current_linenumber (Some (n + 1))
             (set_last_lines [(Some n, encode_ascii_replace (line c))]
                (final (_gcode_M110_sending E c w))))).
Proof.
  intros Hk Hn Hh Hl Ht Hi Ha.
  unfold _send_loop_emit. cbn [se_linenumber se_command se_processed negb].
  unfold bind at 1. unfold bind at 1.
  rewrite (@sending_phase_of_a_line_reset E fuel c sub attrs w Hk Hh).
  rewrite line_reset_effect, (@requested_line_of_int E c n Hn). cbn [final].
  set (w1 := upd_ist _ _).
  unfold ret at 1.
  destruct (py_strip (line c) =? "")%string eqn:Hs;
    [apply String.eqb_eq in Hs; contradiction|].
  assert (Hat : is_atcommand c = false) by (unfold is_atcommand; now rewrite Hk).
  rewrite Hat.
  assert (Ht1 : transport w1 = Some t) by exact Ht.
  assert (Hc1 : current_linenumber w1 = Some n) by reflexivity.
  assert (Hsw : send_with_checksum c w1 t = true).
  { unfold send_with_checksum. rewrite Hi. cbn [negb].
    unfold is_gcode. rewrite Hk.
    change (flavor w1) with (flavor w). rewrite Ha. cbn.
    apply orb_true_r. }
  unfold emit, gets, bind. rewrite Ht1, Hsw.
  rewrite (@do_increment_effect _ n w1 t Ht1 Hc1).
  reflexivity.
Qed.

(** X17.  A line reset numbers itself.  When the send loop takes an
    [M110 N<n>] from the send queue, no plugin hook standing in the way
    and checksums being sent, the counter is set to [n] before the line
    goes out: the [M110] is sent as line [n], with its checksum, the
    history holds that one line under the number [n], and the counter is
    left at [n + 1], the number the printer expects next. *)
Theorem a_line_reset_numbers_itself :
  forall (E : Env) (fuel : nat) (c : Command) (n : Z) (on_sent : option Callback)
         (w : World) (t : Transport) sub attrs,
    kind c = GcodeCommand "M110" sub attrs ->
    attr c "n" = PyInt n ->
    assoc "sending" (gcode_hooks w) = Some [] ->
    py_strip (line c) <> "" ->
    transport w = Some t ->
    message_integrity t = false ->
    always_send_checksum (flavor w) = true ->
    let r := _send_loop_emit E fuel (mkSendEntry c None on_sent false) w in
    (exists w', r = Ok (Some c) w')
    /\ wire (final r) = (wire w ++ [checksummed (encode_ascii_replace (line c)) n])%list
    /\ current_linenumber (final r) = Some (n + 1)
    /\ last_lines (final r) = [(Some n, encode_ascii_replace (line c))]
    /\ ist resend_linenumber (final r) = None.
Proof.
  intros E fuel c n on_sent w t sub attrs Hk Hn Hh Hl Ht Hi Ha r. subst r.
  rewrite (@line_reset_emit_effect E fuel c n on_sent w t sub attrs Hk Hn Hh Hl Ht Hi Ha).
  rewrite line_reset_effect.
  split; [eexists; reflexivity|]. cbn [final].
  split; [unfold wire; cbn; now rewrite Ht|].
  split; [reflexivity|]. split; reflexivity.
Qed.

Lemma a_line_reset_numbers_itself_witness :
  let c := Example.gcode "M110" "M110 N0" [("n", PyInt 0)] in
  let w := set_flavor (mkFlavor [] [] true false false false None
                         (command_set_line Example.flavor0)
                         Example.M112 Example.M25
                         (command_autoreport_temperature Example.flavor0)
                         (command_autoreport_sd_status Example.flavor0))
             (set_current_linenumber (Some 42) Example.idle) in
  let r := _send_loop_emit Example.env0 5 (mkSendEntry c None None false) w in
  current_linenumber w = Some 42
  /\ wire (final r) = ["N0 M110 N0*125" ++ LF]
  /\ current_linenumber (final r) = Some (0 + 1).
Proof.
  intros c w r. split; [reflexivity|]. split; [reflexivity|].
  apply (@a_line_reset_numbers_itself Example.env0 5%nat c 0 None w
           (mkTransport true false []) PyNone [("n", PyInt 0)]);
    try reflexivity.
  vm_compute. discriminate.
Defined.
(** ** At-commands in the send loop *)

Lemma sending_phase_of_an_atcommand (E : Env) (fuel : nat) (c : Command) (w : World) :
  is_atcommand c = true ->
  assoc "sending" (gcode_hooks w) = Some [] ->
  process_command_phase (handlers_gcode E fuel) "sending" c w = Ok [c] w.
Proof.
  intros Hat Hh.
  assert (Hc : code_of c = None).
  { unfold is_atcommand in Hat. unfold code_of. destruct (kind c); try discriminate.
    reflexivity. }
  unfold process_command_phase, _process_command_phase.
  cbn [mem_string existsb String.eqb Ascii.eqb Bool.eqb orb negb].
  unfold bind at 1, hooks_for at 1. rewrite Hh.
  cbn [run_hooks]. unfold bind at 1, ret at 1.
  cbn [run_gcode_handlers]. rewrite Hc.
  reflexivity.
Qed.

Lemma quiet_then_nothing {A : Type} (m : M A) (w : World) :
  stable false quiet m ->
  let r := (m ;; ret (@None Command)) w in
  transport (final r) = transport w
  /\ (forall sent w', r <> Ok (Some sent) w').
Proof.
  intros Hm r. subst r. destruct (Hm w) as [(Ht & _) _].
  unfold bind. destruct (m w) as [a w1|e w1|w1]; cbn in *;
    (split; [exact Ht|intros sent w'; discriminate]).
Qed.


(** ** Sending a plain command *)

Lemma queued_phase_without_hooks (E : Env) (fuel : nat) (c : Command) (w : World) :
  assoc "queued" (gcode_hooks w) = Some [] ->
  process_command_phase (handlers_gcode E fuel) "queued" c w = Ok [c] w.
Proof.
  intro Hh. unfold process_command_phase, _process_command_phase.
  cbn [mem_string existsb String.eqb Ascii.eqb Bool.eqb orb negb].
  unfold bind at 1, hooks_for at 1. rewrite Hh.
  cbn [run_hooks]. unfold bind at 1, ret at 1.
  cbn [run_gcode_handlers].
  destruct (code_of c) as [code|] eqn:Hc; [|reflexivity].
  change ("_gcode_" ++ code ++ "_" ++ "queued") with ("_gcode_" ++ code ++ "_queued").
  rewrite no_queued_handler. reflexivity.
Qed.

Lemma send_plain_command (E : Env) (fuel : nat) (c : Command)
  (command_type : option string) (tags : option (list string))
  (on_sent : option Callback) (w : World) :
  is_atcommand c = false ->
  _is_streaming w = false ->
  assoc "queued" (gcode_hooks w) = Some [] ->
  _send_command E fuel (Cmd c) command_type tags on_sent w
  = match send_queue_put (mkSendEntry c None on_sent false) (type c) TSend
            (send_queue w) with
    | Some q => Ok true (set_send_queue q w)
    | None => Ok false w
    end.
Proof.
  intros Hat Hs Hh.
  assert (Hres : (if ist trigger_events w
                  then process_command_phase (handlers_gcode E fuel) "queuing" c
                  else ret [c]) w = Ok [c] w).
  { destruct (ist trigger_events w); reflexivity. }
  unfold _send_command, _send_command_with, bind at 1, gets at 1.
  unfold bind at 1. rewrite Hres. cbn [rev app process_all].
  unfold bind at 1, ret at 1. unfold bind at 1.
  unfold process. rewrite Hat. cbn [when]. unfold bind at 1, ret at 1.
  unfold bind at 1. unfold _enqueue_for_sending.
  destruct (send_queue_put _ _ _ _) as [q|]; [|reflexivity].
  unfold bind at 1, gets at 1.
  change (_is_streaming (set_send_queue q w)) with (_is_streaming w). rewrite Hs.
  cbn [negb when]. unfold bind.
  rewrite (@queued_phase_without_hooks E fuel c (set_send_queue q w) Hh).
  reflexivity.
Qed.

Lemma get_timeout_effect (ty : string) (w : World) :
  _get_timeout ty w
  = Ok (match assoc ty (timeouts w) with
        | Some t => (clock w + t)%Q
        | None => clock w
        end) w.
Proof.
  unfold _get_timeout, bind, monotonic_time, gets.
  now destruct (assoc ty (timeouts w)).
Qed.

Lemma on_state_connected_effect (E : Env) (fuel : nat) (w : World) :
  let c := command_set_line (flavor w) 0 in
  is_atcommand c = false ->
  type c = None ->
  assoc "queued" (gcode_hooks w) = Some [] ->
  _is_streaming w = false ->
  _on_state_connected E fuel CONNECTING w
  = Ok tt
      (set_temperature_poller true
         (set_clear_to_send (counted_set (clear_to_send w))
            (set_send_queue
               (mkSendQueue
                  (sq_send (send_queue w)
                   ++ [(mkSendEntry c None None false, None)])%list
                  (sq_resend (send_queue w)) (resend_active (send_queue w)))
               (upd_ist (set_timeout
                           (Some (match assoc "communication" (timeouts w) with
                                  | Some t => (clock w + t)%Q
                                  | None => clock w
                                  end))) w)))).
Proof.
  intros c Hat Hty Hh Hs.
  unfold _on_state_connected. cbn [state_eqb when].
  unfold bind at 1. rewrite get_timeout_effect.
  unfold bind at 1, modify at 1. unfold bind at 1, gets at 1.
  set (w1 := upd_ist _ w).
  change (command_set_line (flavor w1) 0) with c.
  unfold bind at 1.
  rewrite (@send_plain_command E fuel c None None None w1 Hat Hs Hh).
  unfold send_queue_put, typed_put. rewrite Hty. reflexivity.
Qed.

Lemma connected_effect (E : Env) (fuel : nat) (w : World) :
  let c := command_set_line (flavor w) 0 in
  is_atcommand c = false ->
  type c = None ->
  assoc "queued" (gcode_hooks w) = Some [] ->
  state w = CONNECTING ->
  assign_state E fuel CONNECTED w
  = Ok tt
      (set_temperature_poller true
         (set_clear_to_send (counted_set (clear_to_send w))
            (set_send_queue
               (mkSendQueue
                  (sq_send (send_queue w)
                   ++ [(mkSendEntry c None None false, None)])%list
                  (sq_resend (send_queue w)) (resend_active (send_queue w)))
               (upd_ist (set_timeout
                           (Some (match assoc "communication" (timeouts w) with
                                  | Some t => (clock w + t)%Q
                                  | None => clock w
                                  end)))
                  (set_events (events w ++ [Notify "on_protocol_state" ""])%list
                     (set_state CONNECTED w)))))).
Proof.
  intros c Hat Hty Hh Hs.
  unfold assign_state, bind at 1, gets at 1. rewrite Hs.
  unfold bind at 1, modify at 1. unfold bind at 1, notify_listeners, modify at 1.
  set (w0 := set_events _ _).
  apply (@on_state_connected_effect E fuel w0 Hat Hty Hh eq_refl).
Qed.

(** X19.  The handshake asks for a line reset.  While connecting, with no
    ok to be ignored, the first [ok] of the printer, and likewise its
    [start], makes the engine connected: listeners are told of the state
    change, the time-out deadline is set to the communication time-out
    from now, the flavor's command that sets the line number to 0 is put
    at the tail of the send track, unprocessed and without a line number,
    one credit is granted so that it can go out, and the temperature
    poller is created and started.  Nothing else of the object changes
    in the handler's own thread; what the poller's thread does once it is
    started is not part of the statement.  (The command is taken to be
    untyped and not an at-command, and no plugin hooks the [queued]
    phase.) *)
Theorem the_handshake_asks_for_a_line_reset :
  forall (E : Env) (fuel : nat) (w : World),
    let c := command_set_line (flavor w) 0 in
    state w = CONNECTING ->
    ist ignore_ok w <= 0 ->
    is_atcommand c = false ->
    type c = None ->
    assoc "queued" (gcode_hooks w) = Some [] ->
    let w' :=
      set_temperature_poller true
        (set_clear_to_send (counted_set (clear_to_send w))
           (set_send_queue
              (mkSendQueue
                 (sq_send (send_queue w)
                  ++ [(mkSendEntry c None None false, None)])%list
                 (sq_resend (send_queue w)) (resend_active (send_queue w)))
              (upd_ist (set_timeout
                          (Some (match assoc "communication" (timeouts w) with
                                 | Some t => (clock w + t)%Q
                                 | None => clock w
                                 end)))
                 (set_events (events w ++ [Notify "on_protocol_state" ""])%list
                    (set_state CONNECTED w))))) in
    _on_comm_ok E fuel w = Ok tt w'
    /\ _on_comm_start E fuel w = Ok tt w'.
Proof.
  intros E fuel w c Hs Hi Hat Hty Hh w'. subst w'. split.
  - unfold _on_comm_ok, bind at 1, gets at 1.
    replace (0 <? ist ignore_ok w) with false by (symmetry; apply Z.ltb_ge; exact Hi).
    unfold bind at 1, gets at 1. rewrite Hs. cbn [state_eqb].
    now apply connected_effect.
  - unfold _on_comm_start, bind at 1, gets at 1. rewrite Hs. cbn [state_eqb when].
    now apply connected_effect.
Qed.

Lemma the_handshake_asks_for_a_line_reset_witness :
  let w := set_temperature_poller false (set_state CONNECTING Example.idle) in
  let w' := final (_on_comm_ok Example.env0 5 w) in
  state w' = CONNECTED
  /\ map (fun e => line (se_command (fst e))) (sq_send (send_queue w')) = ["M110 N0"]
  /\ clear_to_send w' = 2
  /\ ist timeout w' = Some (0 + 10)%Q
  /\ temperature_poller w' = true
  /\ _on_comm_start Example.env0 5 w = Ok tt w'.
Proof.
  intros w w'. split; [reflexivity|]. split; [reflexivity|].
  split; [reflexivity|]. split; [reflexivity|]. split; [reflexivity|].
  assert (Hi : ist ignore_ok w <= 0) by (vm_compute; discriminate).
  destruct (@the_handshake_asks_for_a_line_reset Example.env0 5%nat w
              eq_refl Hi eq_refl eq_refl eq_refl) as [Hok Hstart].
  subst w'. rewrite Hok. exact Hstart.
Defined.
(** ** The tickle of a timeout *)

Lemma timeout_tickle_effect (E : Env) (fuel : nat) (w : World) :
  let c := to_command E "M105" (Some "temperature") None in
  state_in (state w) [PROCESSING; PAUSED] = true ->
  ist timeout_consecutive w + 1 <= consecutive_max w ->
  ist resend_requested w = None ->
  ist heating w = false ->
  ist long_running_command w = false ->
  is_atcommand c = false ->
  _is_streaming w = false ->
  assoc "queued" (gcode_hooks w) = Some [] ->
  let w1 :=
    set_events (events w ++ [Notify "on_protocol_log_message" ""])%list
      (set_logged
         (logged w ++ [LogInfo "Communication timeout while printing, trying to trigger response from printer."])%list
         (upd_ist (fun i => set_timeout_consecutive (timeout_consecutive i + 1) i) w)) in
  _on_comm_timeout E fuel w
  = Ok (Some (negb (state_eqb (state w) PROCESSING)))
       match send_queue_put (mkSendEntry c None None false) (type c) TSend
               (send_queue w) with
       | Some q => set_clear_to_send (counted_set (clear_to_send w)) (set_send_queue q w1)
       | None => w1
       end.
Proof.
  intros c Hst Hmax Hrr Hheat Hlong Hat Hstream Hh w1.
  assert (Hst3 : state_in (state w) [PROCESSING; PAUSED; CONNECTED] = true).
  { destruct (state w); try discriminate; reflexivity. }
  unfold _on_comm_timeout, bind at 1, gets at 1. rewrite Hst3. cbn [negb].
  unfold bind at 1, gets at 1. unfold bind at 1, modify at 1.
  unfold bind at 1, gets at 1.
  set (w0 := upd_ist _ w).
  unfold timeout_recovery.
  replace ((0 <? consecutive_max w) && (consecutive_max w <? ist timeout_consecutive w0))
    with false.
  2:{ symmetry. apply andb_false_iff. right. apply Z.ltb_ge.
      subst w0. unfold ist in *. cbn. exact Hmax. }
  change (ist resend_requested w0) with (ist resend_requested w). rewrite Hrr.
  change (ist heating w0) with (ist heating w). rewrite Hheat.
  change (ist long_running_command w0) with (ist long_running_command w). rewrite Hlong.
  change (state w0) with (state w). rewrite Hst.
  unfold bind at 1. unfold bind at 1, log_info, modify at 1.
  unfold bind at 1, notify_listeners, modify at 1.
  fold w1.
  change (_send_command E fuel (Raw "M105") (Some "temperature") None None)
    with (_send_command E fuel (Cmd c) (Some "temperature") None None).
  unfold bind at 1.
  match goal with
  | |- context [_send_command E fuel (Cmd c) _ None None ?x] => change x with w1
  end.
  rewrite (@send_plain_command E fuel c (Some "temperature") None None w1 Hat Hstream Hh).
  change (send_queue w1) with (send_queue w).
  destruct (send_queue_put _ _ _ _) as [q|]; reflexivity.
Qed.

(** X20.  A timeout while printing tickles the printer, but only once at a
    time.  In [PROCESSING] or [PAUSED], below the maximum of consecutive
    timeouts, with no resend, heat-up or long-running command going on,
    [_on_comm_timeout] counts the timeout, tells the listeners and sends
    an [M105] of type [temperature]: if no command of that type waits on
    the send track, the [M105] is added at its tail and one credit is
    granted; if one waits already, the send queue and the credit stay as
    they are.  The result tells whether the engine is not processing. *)
Theorem a_timeout_tickles_once_at_a_time :
  forall (E : Env) (fuel : nat) (w : World),
    let c := to_command E "M105" (Some "temperature") None in
    state_in (state w) [PROCESSING; PAUSED] = true ->
    ist timeout_consecutive w + 1 <= consecutive_max w ->
    ist resend_requested w = None ->
    ist heating w = false ->
    ist long_running_command w = false ->
    is_atcommand c = false ->
    type c = Some "temperature" ->
    _is_streaming w = false ->
    assoc "queued" (gcode_hooks w) = Some [] ->
    exists w',
      _on_comm_timeout E fuel w = Ok (Some (negb (state_eqb (state w) PROCESSING))) w'
      /\ ist timeout_consecutive w' = ist timeout_consecutive w + 1
      /\ (type_queued "temperature" (sq_send (send_queue w)) = true ->
          send_queue w' = send_queue w /\ clear_to_send w' = clear_to_send w)
      /\ (type_queued "temperature" (sq_send (send_queue w)) = false ->
          sq_send (send_queue w')
          = (sq_send (send_queue w)
             ++ [(mkSendEntry c None None false, Some "temperature")])%list
          /\ sq_resend (send_queue w') = sq_resend (send_queue w)
          /\ clear_to_send w' = counted_set (clear_to_send w)).
Proof.
  intros E fuel w c Hst Hmax Hrr Hheat Hlong Hat Hty Hstream Hh.
  eexists. split.
  - apply (@timeout_tickle_effect E fuel w Hst Hmax Hrr Hheat Hlong Hat Hstream Hh).
  - fold c. unfold send_queue_put, typed_put. rewrite Hty.
    destruct (type_queued "temperature" (sq_send (send_queue w))).
    + split; [reflexivity|]. split; [intros _; split; reflexivity|discriminate].
    + split; [reflexivity|]. split; [discriminate|intros _; repeat split].
Qed.

Lemma a_timeout_tickles_once_at_a_time_witness :
  let w := Example.printing [mkJobLine "G1 X10" 7 1 1] in
  let w1 := final (_on_comm_timeout Example.env0 5 w) in
  let w2 := final (_on_comm_timeout Example.env0 5 w1) in
  map (fun e => line (se_command (fst e))) (sq_send (send_queue w1)) = ["M105"]
  /\ clear_to_send w1 = 2
  /\ type_queued "temperature" (sq_send (send_queue w1)) = true
  /\ send_queue w2 = send_queue w1
  /\ clear_to_send w2 = clear_to_send w1.
Proof.
  intros w w1 w2. split; [reflexivity|]. split; [reflexivity|]. split; [reflexivity|].
  assert (Hmax : ist timeout_consecutive w1 + 1 <= consecutive_max w1)
    by (vm_compute; discriminate).
  destruct (@a_timeout_tickles_once_at_a_time Example.env0 5%nat w1
              eq_refl Hmax eq_refl eq_refl eq_refl eq_refl eq_refl eq_refl eq_refl)
    as (w' & Hrun & _ & Hq & _).
  subst w2. rewrite Hrun. cbn [final]. apply Hq. reflexivity.
Defined.
(** ** Oks while a resend is under way *)

#[export] Instance holds_back_ordered : Ordered holds_back.
Proof.
  constructor; unfold holds_back.
  - intro w. repeat split.
  - intros a b c (H1 & H2 & H3) (H4 & H5 & H6). repeat split; congruence.
Qed.

Ltac holds_back_side := unfold holds_back; cbn; repeat split; reflexivity.

Lemma holds_back__send_next_from_resend (again : bool) :
  stable true holds_back (_send_next_from_resend again).
Proof.
  assert (He : forall c n cb p,
             stable true holds_back (_enqueue_for_sending c n cb p true)).
  { intros c n cb p w.
    unfold _enqueue_for_sending, send_queue_put.
    destruct (typed_put _ _ _); cbn; (split; [|intros _; exact I]);
      [|apply ordered_refl].
    unfold holds_back. cbn. repeat split. }
  unfold _send_next_from_resend. kept_auto holds_back_side.
Qed.

Lemma finish_heatup_effect (w : World) :
  exists f,
    _finish_heatup w = Ok tt (upd_ist f w)
    /\ forall i, resend_requested (f i) = resend_requested i.
Proof.
  unfold _finish_heatup, bind, gets, when, modify, monotonic_time, ret.
  destruct (ist heating w).
  - destruct (ist heating_start w) as [s|].
    + destruct (negb (Qeq_bool s 0)).
      * eexists (fun i => set_heating false (set_heating_start None
                   (set_heating_lost (heating_lost i + (clock w - s))%Q i))).
        split; reflexivity.
      * exists (set_heating false). split; reflexivity.
    + exists (set_heating false). split; reflexivity.
  - exists (fun i => i). split; [|reflexivity].
    f_equal. unfold upd_ist. destruct w. reflexivity.
Qed.

(** X21.  While a resend is under way an ok feeds the resend and nothing
    else.  With a resend requested and the engine past the handshake,
    [_on_comm_ok] comes back and has read no line from the job, taken
    nothing from the command queue and put nothing on the send track:
    what it enqueues, if anything, goes to the resend track.  The same
    holds for [_on_comm_wait]. *)
Theorem an_ok_during_a_resend_feeds_the_resend_only :
  forall (E : Env) (fuel : nat) (w : World),
    ist resend_requested w <> None ->
    state w <> CONNECTING ->
    (returned (_on_comm_ok E fuel w)
     /\ holds_back w (final (_on_comm_ok E fuel w)))
    /\ (returned (_on_comm_wait E fuel w)
        /\ holds_back w (final (_on_comm_wait E fuel w))).
Proof.
  intros E fuel w Hrr Hst.
  pose (P := fun r : Res unit => returned r /\ holds_back w (final r)).
  assert (Hok : P (_on_comm_ok E fuel w)).
  { unfold _on_comm_ok, bind at 1, gets at 1.
    destruct (0 <? ist ignore_ok w).
    - unfold bind, modify, when. destruct (_ <? 0); cbn; (split; [exact I|holds_back_side]).
    - unfold bind at 1, gets at 1.
      destruct (state_eqb (state w) CONNECTING) eqn:Hc;
        [destruct (state w); try discriminate; contradiction|].
      unfold bind at 1, credit_set, modify at 1.
      unfold bind at 1, modify at 1.
      unfold bind at 1, gets at 1.
      set (w1 := upd_ist (set_long_running_command false) _).
      assert (H1 : holds_back w w1 /\ ist resend_requested w1 = ist resend_requested w)
        by (split; [holds_back_side|reflexivity]).
      assert (Hstep : forall w2 : World,
                holds_back w w2 /\ ist resend_requested w2 = ist resend_requested w ->
                P ((_finish_heatup ;;
                    st <- gets state ;;
                    if negb (state_in st [PROCESSING; CONNECTED; PAUSED]) then ret tt
                    else
                      requested <- gets (ist resend_requested) ;;
                      match requested with
                      | Some _ => _send_next_from_resend false ;; ret tt
                      | None => _continue_sending E fuel ;; ret tt
                      end) w2)).
      { intros w2 [Hb Hr2].
        destruct (finish_heatup_effect w2) as (f & Hf & Hpres).
        unfold bind at 1. rewrite Hf.
        unfold bind at 1, gets at 1.
        assert (Hb3 : holds_back w (upd_ist f w2)).
        { destruct Hb as (Hj & Hq & Hs). unfold holds_back. cbn. repeat split; assumption. }
        destruct (negb _); [split; [exact I|exact Hb3]|].
        unfold bind at 1, gets at 1.
        assert (Hr3 : ist resend_requested (upd_ist f w2) = ist resend_requested w).
        { rewrite <- Hr2. unfold ist, upd_ist. cbn. apply Hpres. }
        destruct (ist resend_requested (upd_ist f w2)) as [r|] eqn:Hreq;
          [|rewrite <- Hr3 in Hrr; contradiction].
        destruct (holds_back__send_next_from_resend false (upd_ist f w2)) as [Hnext Hret].
        specialize (Hret eq_refl). unfold bind.
        destruct (_send_next_from_resend false (upd_ist f w2)); cbn in *;
          (split; [exact Hret|eapply ordered_trans; eassumption]). }
      destruct (truthy (ist former_tool w1)); cbn [when].
      + unfold bind at 1. unfold bind at 1, modify at 1. unfold modify at 1.
        apply Hstep. destruct H1 as [Ha Hb]. split; [|exact Hb].
        destruct Ha as (Hj & Hq & Hs). unfold holds_back. cbn. repeat split; assumption.
      + unfold bind at 1, ret at 1. apply Hstep, H1. }
  split; [exact Hok|].
  change (P (_on_comm_wait E fuel w)).
  unfold _on_comm_wait, bind, gets, when.
  destruct (state_eqb (state w) PROCESSING); [exact Hok|].
  split; [exact I|apply ordered_refl].
Qed.

Lemma an_ok_during_a_resend_feeds_the_resend_only_witness :
  let w0 := final (_on_comm_ok Example.env0 5
                     (Example.printing [mkJobLine "G1 X10" 7 1 1;
                                        mkJobLine "G1 X20" 14 2 2;
                                        mkJobLine "G1 X30" 21 3 3])) in
  let w2 := final (run_op Example.env0 5 OpSendLoop
              (final (run_op Example.env0 5 OpCommOk
                 (final (run_op Example.env0 5 OpSendLoop w0))))) in
  let w := final (run_op Example.env0 5 (OpCommResend (Some 1)) w2) in
  let w' := final (_on_comm_ok Example.env0 5 w) in
  ist resend_requested w = Some 1
  /\ List.length (sq_resend (send_queue w')) = 1%nat
  /\ holds_back w w'.
Proof.
  intros w0 w2 w w'. split; [reflexivity|]. split; [reflexivity|].
  assert (Hrr : ist resend_requested w <> None) by (vm_compute; discriminate).
  assert (Hst : state w <> CONNECTING) by (vm_compute; discriminate).
  exact (proj2 (proj1 (@an_ok_during_a_resend_feeds_the_resend_only
                         Example.env0 5%nat w Hrr Hst))).
Defined.
(** ** At-commands on their way into the send queue *)

Lemma no_sending_atcommand_handler (E : Env) (name : string) :
  assoc ("_atcommand_" ++ name ++ "_sending") (handlers_atcommand E) = None.
Proof.
  assert (Hk : ends_with "_sending" ("_atcommand_" ++ name ++ "_sending") = true).
  { rewrite <- append_assoc. apply ends_with_append. }
  generalize dependent ("_atcommand_" ++ name ++ "_sending"). intros k Hk.
  unfold handlers_atcommand. cbn [assoc].
  repeat match goal with
         | |- (if (k =? ?s)%string then _ else _) = None =>
             destruct (String.eqb_spec k s) as [->|_]; [discriminate Hk|]
         end; reflexivity.
Qed.

Lemma logged_nothing (w : World) : set_logged (logged w ++ [])%list w = w.
Proof. rewrite app_nil_r. now destruct w. Qed.

Lemma logged_twice (l1 l2 : list LogEntry) (w : World) :
  set_logged (logged (set_logged (logged w ++ l1)%list w) ++ l2)%list
    (set_logged (logged w ++ l1)%list w)
  = set_logged (logged w ++ l1 ++ l2)%list w.
Proof. unfold set_logged. cbn. now rewrite app_assoc. Qed.

(** The hooks of a phase only add to the log. *)
Lemma run_atcommand_hooks_effect hooks phase atcommand (c : Command) (w : World) :
  run_atcommand_hooks hooks phase atcommand c w
  = Ok tt (set_logged
             (logged w ++ atcommand_hook_errors hooks phase atcommand c)%list w).
Proof.
  revert w. induction hooks as [|[name hook] hooks IH]; intro w.
  - cbn [run_atcommand_hooks atcommand_hook_errors flat_map]. unfold ret.
    now rewrite logged_nothing.
  - cbn [run_atcommand_hooks atcommand_hook_errors flat_map fst snd].
    unfold bind at 1. destruct (hook phase c); cbn [negb when].
    + unfold ret at 1. rewrite IH. reflexivity.
    + unfold log_exception, modify at 1. rewrite IH, logged_twice. reflexivity.
Qed.

(** X22.  At-commands act when they are queued, and scripts do not
    re-trigger themselves.  Outside of streaming, [_process_atcommand_phase]
    for the [queuing] phase, the only phase the class calls it for, first
    runs the at-command hooks registered for the phase, of which each one
    that raises leaves an exception in the log, and then the built-in
    handler: [@pause] calls [pause_processing] once, tagged
    [trigger:atcommand_pause], unless the command carries the tag
    [script:afterPrintPaused]; [@cancel] and [@abort] call
    [cancel_processing] unless tagged [script:afterPrintCancelled];
    [@resume] calls [resume_processing] unless tagged
    [script:beforePrintResumed].  Were it called for the [sending] phase it
    would run the hooks of that phase and nothing else, there being no
    built-in handler for it, and for any other phase it returns at once.
    (A hook is taken not to change the protocol object it is handed.) *)
Theorem atcommands_act_when_queued :
  forall (E : Env) (c : Command) (name params : string) (w : World),
    kind c = AtCommand name params ->
    _is_streaming w = false ->
    (forall hooks,
        assoc "queuing" (atcommand_hooks w) = Some hooks ->
        let w1 :=
          set_logged
            (logged w ++ atcommand_hook_errors hooks "queuing" name c)%list w in
        (name = "pause" ->
         _process_atcommand_phase E "queuing" c w
         = if has_tag "script:afterPrintPaused" c then Ok tt w1
           else pause_processing E ["trigger:atcommand_pause"] w1)
        /\ (name = "cancel" \/ name = "abort" ->
            _process_atcommand_phase E "queuing" c w
            = if has_tag "script:afterPrintCancelled" c then Ok tt w1
              else cancel_processing E false ["trigger:atcommand_cancel"] w1)
        /\ (name = "resume" ->
            _process_atcommand_phase E "queuing" c w
            = if has_tag "script:beforePrintResumed" c then Ok tt w1
              else resume_processing E ["trigger:atcommand_resume"] w1))
    /\ (forall hooks,
           assoc "sending" (atcommand_hooks w) = Some hooks ->
           _process_atcommand_phase E "sending" c w
           = Ok tt (set_logged
                      (logged w ++ atcommand_hook_errors hooks "sending" name c)%list
                      w))
    /\ (forall phase, phase <> "queuing" -> phase <> "sending" ->
           _process_atcommand_phase E phase c w = Ok tt w).
Proof.
  intros E c name params w Hk Hs.
  split; [|split].
  - intros hooks Hh w1.
    assert (Hrun : forall handler,
               assoc ("_atcommand_" ++ name ++ "_" ++ "queuing") (handlers_atcommand E)
               = Some handler ->
               _process_atcommand_phase E "queuing" c w
               = try_except (handler c)
                   (fun _ => log_exception ("Error in handler for phase " ++ "queuing"
                                            ++ " and command " ++ name)) w1).
    { intros handler Hd.
      unfold _process_atcommand_phase, bind at 1, gets at 1. rewrite Hs.
      cbn [orb mem_string existsb String.eqb Ascii.eqb Bool.eqb negb].
      unfold bind at 1, atcommand_hooks_for at 1. rewrite Hh, Hk.
      unfold bind at 1. rewrite run_atcommand_hooks_effect. fold w1.
      now rewrite Hd. }
    split; [|split].
    + intros ->. rewrite (Hrun (_atcommand_pause_queuing E) eq_refl).
      unfold _atcommand_pause_queuing, try_except, when.
      destruct (has_tag "script:afterPrintPaused" c); reflexivity.
    + assert (Hc : _process_atcommand_phase E "queuing" c w
                   = try_except (_atcommand_cancel_queuing E c)
                       (fun _ => log_exception ("Error in handler for phase "
                                                ++ "queuing" ++ " and command "
                                                ++ name)) w1
                   -> _process_atcommand_phase E "queuing" c w
                      = (if has_tag "script:afterPrintCancelled" c then Ok tt w1
                         else cancel_processing E false ["trigger:atcommand_cancel"] w1)).
      { intros ->. unfold _atcommand_cancel_queuing, try_except, when.
        destruct (has_tag "script:afterPrintCancelled" c); reflexivity. }
      intros [-> | ->]; apply Hc.
      * exact (Hrun (_atcommand_cancel_queuing E) eq_refl).
      * exact (Hrun (_atcommand_abort_queuing E) eq_refl).
    + intros ->. rewrite (Hrun (_atcommand_resume_queuing E) eq_refl).
      unfold _atcommand_resume_queuing, try_except, when.
      destruct (has_tag "script:beforePrintResumed" c); reflexivity.
  - intros hooks Hh.
    unfold _process_atcommand_phase, bind at 1, gets at 1. rewrite Hs.
    cbn [orb mem_string existsb String.eqb Ascii.eqb Bool.eqb negb].
    unfold bind at 1, atcommand_hooks_for at 1. rewrite Hh, Hk.
    unfold bind at 1. rewrite run_atcommand_hooks_effect.
    change ("_atcommand_" ++ name ++ "_" ++ "sending")
      with ("_atcommand_" ++ name ++ "_sending").
    now rewrite no_sending_atcommand_handler.
  - intros phase Hq Hsend.
    unfold _process_atcommand_phase, bind at 1, gets at 1. rewrite Hs.
    cbn [orb]. unfold mem_string. cbn [existsb orb].
    destruct (String.eqb_spec phase "queuing") as [?|_]; [contradiction|].
    destruct (String.eqb_spec phase "sending") as [?|_]; [contradiction|].
    reflexivity.
Qed.

Lemma atcommands_act_when_queued_witness :
  let c := Example.to_command0 "@pause" None None in
  let broken : AtcommandHook := fun _ _ => false in
  let w := set_atcommand_hooks [("queuing", [("plugin", broken)]); ("sending", [])]
             (Example.printing [mkJobLine "G1 X10" 7 1 1]) in
  let w' := final (_process_atcommand_phase Example.env0 "queuing" c w) in
  state w' = PAUSING
  /\ logged w'
     = [LogException "Error while processing hook plugin for phase queuing and command pause:"]
  /\ events w' = [PauseProcessing ["trigger:atcommand_pause"]]
  /\ _process_atcommand_phase Example.env0 "sending" c w = Ok tt w
  /\ _process_atcommand_phase Example.env0 "sent" c w = Ok tt w.
Proof.
  intros c broken w w'.
  pose proof (@atcommands_act_when_queued Example.env0 c "pause" "" w eq_refl eq_refl)
    as [Hq [Hsend Hother]].
  destruct (Hq [("plugin", broken)] eq_refl) as [Hpause _].
  split; [subst w'; rewrite (Hpause eq_refl); reflexivity|].
  split; [subst w'; rewrite (Hpause eq_refl); reflexivity|].
  split; [subst w'; rewrite (Hpause eq_refl); reflexivity|].
  split.
  - rewrite (Hsend [] eq_refl). reflexivity.
  - apply Hother; discriminate.
Defined.
